(* ===== verification/_CoqProject ===== *)
-Q . S2P
Prelude.v
ProblemDomain.v
SubmissionDomain.v
GoStrings.v
AppErrors.v
Json.v
Persistence.v
Catalog.v
ProblemStore.v
Executor.v
SubmissionService.v
Http.v
Server.v
