(* ===== verification/Prelude.v ===== *)
(** * A verification development of the leetcode-api judging engine

    The repository (src/frontend-system-design/leetcode-api) is a Go web
    service.  Its core is a code execution and judging engine.  The
    engine wraps a submitted program in a generated harness and runs it
    once per test case under a wall-clock deadline.  It compares the
    trimmed output with the trimmed expected output, and reduces the
    per-test results to a submission status.  Around it sit the problem
    catalog, the submission store (SQLite through GORM) and the HTTP
    handlers.

    How the parts interact, and the file that models each part:
    - [ProblemDomain.v] models internal/domain/problem/entity.go:
      [TestCase], [Problem], [NewProblem], [AddTestCase], [AddTopic],
      [VisibleTestCases] and [CalculateAcceptanceRate] (in [PrimFloat],
      with Go's [float64(int)] conversion).
    - [SubmissionDomain.v] models internal/domain/submission/entity.go:
      [Status] (a Go string type, with its six constants), [TestResult],
      [Submission], [NewSubmission], [SetResults] with [calculateStatus]
      and [calculateTotalRuntime], [PassedCount] and [TotalCount].  Go
      [int] sums are kept at 64 bits with wrap-around.  The spec's
      priority aggregator (spec §4.5) has no counterpart in the code
      and is not modelled.
    - [GoStrings.v] models two Go library routines (not under src/):
      [strings.TrimSpace] over bytes, with the Unicode white-space runes
      as their UTF-8 encodings, and [fmt.Sprintf] / [fmt.Errorf] for
      the verbs the code uses.
    - [Json.v] models [encoding/json] (not under src/): [Marshal]'s
      compact text with Go 1.22 string escaping, [Unmarshal]'s scanner
      and string unquoting, and [strconv]'s decimal ints.  UTF-8 is read
      the way [utf8.DecodeRune] reads it.
    - [Persistence.v] models the row types and the four mappers of
      internal/infrastructure/persistence/sqlite: [toModelSubmission],
      [toDomainSubmission], [toModelProblem] and [toDomainProblem].
      Results are stored as JSON through [Json.v].
    - [Executor.v] models internal/infrastructure/executor/code_executor.go:
      [New], the harnesses ([wrapJavaScript], [wrapPython], [wrapGo],
      byte-exact), [runCode] (language switch, deadline, error
      classification) and [Execute].  The subprocess is an oracle
      [proc : Cmd -> Behaviour]: exit after a duration, run forever, or
      fail to start.  [cmd_Run] is [exec.CommandContext] + [Run]: it
      kills the process at the deadline.  The state threaded through the
      state monad [ST] is the monotonic clock and the log of started
      processes.  [time.Since] saturates at the int64 bounds.
    - [Catalog.v] models the problem side of the SQLite store and the
      problem service (sqlite/problem_repo.go, application/problem/
      service.go).  [Tables] holds the four tables (problems,
      test_cases, topics, problem_topics) as lists in rowid order.
      [FindAll] is the whole query: GORM's default scope
      ([deleted_at IS NULL]), the difficulty and category filters, the
      search clause [LOWER(title) LIKE ?] (pattern lowered by Go's
      [strings.ToLower], column by SQLite's ASCII [LOWER], LIKE as
      SQLite's [patternCompare] over characters as [sqlite3Utf8Read]
      reads them), the topic join (one row per matching join row),
      [Count], the [int] offset and SQLite's OFFSET/LIMIT.  Also
      [FindBySlug], [FindByID] with their preloads, [GetTopics] (LEFT
      JOIN count, ORDER BY count DESC, ties in id order) and soft
      [Delete].  [unicode.ToLower] is a parameter [lower_rune] of the
      functions that use it.
    - [SubmissionService.v] models internal/application/submission/service.go:
      [RunCode], [SubmitCode] and [GetSubmission].  They are written
      against typeclass interfaces mirroring domain/*/repository.go and
      the service's [CodeExecutor] interface.  Their generic theorems
      assume only the laws of class [ServiceLaws].  [World] implements
      the interfaces with the SQLite repositories' behaviour: the
      submissions as a gmap of rows keyed by primary key, read and
      written through the mappers (an insert on a taken key fails), and
      the catalog's [Tables], read with [Catalog.FindByID].
    - [ProblemStore.v] models the problem repository's [Create] and
      [Update] (sqlite/problem_repo.go) and the start-up of the store:
      [NewDB] (sqlite/db.go, after [os.Remove]: empty tables) and
      [seedData] (cmd/api/main.go: [FirstOrCreate] of each default
      topic, then [Create] of each seed problem [FindBySlug] does not
      find, errors ignored).  GORM's [Create], [Save] and
      [FirstOrCreate] on SQLite, which are not under src/, are modelled
      from their documented SQL: AUTOINCREMENT ids (the largest id plus
      one), the unique slug index (which also covers soft-deleted
      rows), the has-many upsert of test cases ([ON CONFLICT (id) DO
      UPDATE SET problem_id]), the many2many upsert of topics and join
      rows ([ON CONFLICT DO NOTHING]; a colliding topic keeps the id it
      was given), [Save] as an UPDATE of every column of a live row or
      an upsert otherwise, and the rollback of a failed [Create].
      [sqlite.DefaultTopics] and [sqlite.SeedProblems] are not in the
      repository and are Section variables.
    - [AppErrors.v] models pkg/apperrors/errors.go.
    - [Http.v] models internal/interfaces/http: each handler as a state
      transformer of [World] returning a [Response] (status and JSON
      value), with gin's [ShouldBindJSON] (the decoder's first value,
      struct decoding with folded field names and its type errors, the
      validator's [required] check and its message), [Query] and
      [DefaultQuery], and [c.JSON] as [json.Marshal] of the response
      structs with their [omitempty] tags.  [route] is Setup's route
      table and [serve] dispatches a request to its handler.  Float
      formatting and the decoder's syntax-error texts are parameters.
    - [Server.v] models cmd/api/main.go as a whole: [main_world] is the
      state [main] serves from (the seeded tables, an empty submission
      table, [executor.New(5 * time.Second)], a clock, the process
      oracle and the id generator).  [engine] is gin's engine around
      [serve]: a trailing-slash redirect for an unrouted path whose twin
      is routed, otherwise the CORS middleware of [Setup] (403 for an
      origin not allowed, 204 for a preflight), then the handler, or
      the 404 of [NoRoute].  [step] is one request through [engine] or
      the clock advancing between requests.  [reachable] is the
      reflexive transitive closure of [step] from [main_world] (stdpp's
      [rtc]); [evolves] is the preorder every step stays within.
      [proc_step] is the life of the process: serving, the graceful
      shutdown on a signal with [Shutdown]'s five-second wait for a
      request in flight ([shutdown_during]), and the next start, which
      removes the database file.

    What the theorems show (claims C1 to C35 of PROJECT.json):
    - Executor (C1 to C4, C16 to C18, C35):
      - one result per test case, in order, with the test's input and
        trimmed expected output;
      - a run passes exactly when the process exits with status 0 and
        the trimmed stdout equals the trimmed expected output, so stderr
        is ignored on success;
      - a process past the deadline gives "Time Limit Exceeded" with the
        deadline as its runtime;
      - an unsupported language starts nothing and fails every test;
      - verdicts ignore surrounding white space;
      - one process is started per test case, in order;
      - runtimes are bounded by the deadline;
      - the harnesses splice the input and the code verbatim.
    - Submission (C5, C15): the status is Accepted exactly when every
      result passed, and is never Runtime Error nor Time Limit
      Exceeded, unlike the spec's verdicts.
    - Server (C6, C7, C11 to C14), by induction on runs:
      - from every reachable state, with ids that never repeat, a
        submit whose body binds to a request for a catalog problem
        answers 200 after running every test case, and the submission
        is then served back by GET /api/submissions/:id;
      - the catalog never changes, so the catalog endpoints answer as
        at start-up, and every seed problem is served;
      - stored submissions are never changed or removed;
      - a submit whose program never ends takes five seconds per test
        case, so a shutdown during it keeps the submission for one test
        case and loses it for two or more;
      - a request from a foreign origin is refused with 403 before any
        handler runs, and a preflight from the front end gets 204.
    - Problem store (C8 to C10):
      - [Create] assigns the next id, and the problem loads back by id
        and by slug with its columns and test cases;
      - [Update] of a loaded problem duplicates its test cases and
        resets [CreatedAt] to the zero time;
      - the slug of a soft-deleted problem can never be used again.
    - Service (C19 to C21): RunCode runs exactly the visible tests.  A
      success stores what it returns under a free id; a stored
      submission reads back without its [CreatedAt].
    - HTTP (C22 to C26):
      - the body of a successful Submit carries every test's input and
        expected output, hidden tests included;
      - GET /api/problems/:slug shows only the visible test cases;
      - a bound request has a problem id, a language and code;
      - a request that does not bind gets 400 and changes nothing;
      - a request for an unknown problem gets 500, not 404.
    - Persistence (C27): a submission written and read back loses its
      [CreatedAt] and gets its non-UTF-8 result bytes as U+FFFD.  This
      rests on the JSON round trip [Json.decode_Marshal].
    - Catalog (C28 to C34):
      - consecutive pages partition the result;
      - every listed problem passes the filters that are set;
      - for plain ASCII terms the search is case-insensitive substring
        search, while a non-ASCII title is missed even when searched
        exactly;
      - the offset wraps in [int];
      - Delete hides one problem and changes no topic count;
      - GetTopics is sorted by count and lists every topic row.

    Bounds and fuel:
    - TrimSpace's loop and the UTF-8 scan [Json.chunks] take fuel equal
      to the length of the string.  That is enough because each step
      consumes at least one byte ([GoStrings.trim_left_fuel_enough],
      [Json.chunks_spec]).
    - The JSON parser takes fuel one more than the length of its input.
      Every successful call consumes a byte, and [Json.encode_roundtrips]
      proves this fuel enough for every text [Marshal] writes, which is
      what the results column holds.
    - [Json.utoa] takes one step per binary digit, which bounds the
      decimal digits.
    - LIKE is structural on the pattern, and SQLite's UTF-8 reader on
      the text; no fuel is needed.
    - Every other loop of the code is a Go range loop over a slice,
      modelled by structural recursion.  The server's run is not a
      loop of the model but the relation [Server.step].

    Not modelled (PROJECT.json lists each part with its reason):
    - the CORS headers other than Allow-Origin and Allow-Credentials,
      the HTML body of a redirect, [Content-Type], and gin's Logger and
      Recovery middleware;
    - logging, [log.Fatal] on errors other than [Shutdown]'s, and the
      networking of [ListenAndServe];
    - a process killed by a signal other than the deadline's: [cmd_Run]
      reports a nonzero exit as "exit status N" only;
    - the order SQLite gives topics with equal counts in [GetTopics]:
      the model fixes id order, and no theorem depends on it;
    - the JSON decoder's nesting-depth limit (10000);
    - SQLite's LIKE pattern length limit, and ICU collations;
    - properties of [CalculateAcceptanceRate]: it is modelled with
      [PrimFloat], but the installed libraries have no IEEE-754
      reasoning to prove its bounds with, and no flow calls it;
    - the time a request spends outside the executor, so [Shutdown]'s
      wait is compared with the executor's clock alone.

    This file is the prelude: the [ST] state monad with stdpp's monad
    notation, 64-bit Go [int] arithmetic with the [go_scope] notations,
    the [judge] hint databases, and list lemmas the components share. *)

From Stdlib Require Export Ascii String ZArith Lia.
From stdpp Require Export base list gmap strings pretty.

Declare Scope go_scope.
Delimit Scope go_scope with go.

(** ** A state monad for code that threads state through calls *)

Definition ST (S A : Type) : Type := S → A * S.

Global Instance ST_ret S : MRet (ST S) := λ A x s, (x, s).
Global Instance ST_bind S : MBind (ST S) :=
  λ A B f m s, let '(a, s') := m s in f a s'.

Definition st_get {S} : ST S S := λ s, (s, s).
Definition st_put {S} (s : S) : ST S unit := λ _, (tt, s).
Definition st_modify {S} (f : S → S) : ST S unit := λ s, (tt, f s).

(** Go's [for i, x := range xs] whose body is a stateful call, collecting
    the body's value per element, in order. *)
Fixpoint st_mapM {S A B} (f : A → ST S B) (l : list A) : ST S (list B) :=
  match l with
  | [] => mret []
  | x :: l' => y ← f x; ys ← st_mapM f l'; mret (y :: ys)
  end.

(** Run a computation on one component of a larger state, given how to
    read and replace that component. *)
Definition st_zoom {S T A} (get : S → T) (set : T → S → S) (m : ST T A) : ST S A :=
  λ s, let '(a, t) := m (get s) in (a, set t s).

(** Go's [(value, error)] results: a value, or an error carrying its
    [Error()] message. *)
Inductive Result (A : Type) := Ok (a : A) | Err (msg : string).
Arguments Ok {A} a.
Arguments Err {A} msg.

(** ** Go [int] on a 64-bit platform *)

Definition int_min : Z := - 2 ^ 63.
Definition int_max : Z := 2 ^ 63 - 1.

(** Two's-complement wrap-around of a mathematical integer into int64. *)
Definition wrap64 (z : Z) : Z := (z + 2 ^ 63) mod 2 ^ 64 - 2 ^ 63.

(** Go's [a + b] on [int]. *)
Definition int_add (a b : Z) : Z := wrap64 (a + b).

(** Go's [a - b] and [a * b] on [int]. *)
Definition int_sub (a b : Z) : Z := wrap64 (a - b).
Definition int_mul (a b : Z) : Z := wrap64 (a * b).

Notation "a +ᵢ b" := (int_add a b) (at level 50, left associativity) : go_scope.
Notation "a -ᵢ b" := (int_sub a b) (at level 50, left associativity) : go_scope.
Notation "a *ᵢ b" := (int_mul a b) (at level 40, left associativity) : go_scope.

Definition in_int (z : Z) : Prop := (int_min ≤ z ≤ int_max)%Z.

(** The sum of [f x] over a list, in mathematical integers. *)
Fixpoint sumZ {A} (f : A → Z) (l : list A) : Z :=
  match l with [] => 0%Z | x :: l' => (f x + sumZ f l')%Z end.

Create HintDb judge.
Create Rewrite HintDb judge_rw.

(** ** Generic lemmas *)

Section Int64.
Local Open Scope Z_scope.

Lemma wrap64_small z : in_int z → wrap64 z = z.
Proof.
  unfold in_int, int_min, int_max, wrap64. intros Hz.
  rewrite Z.mod_small; lia.
Qed.

Lemma in_int_nonneg z : 0 ≤ z ≤ int_max → in_int z.
Proof. unfold in_int, int_min, int_max. lia. Qed.

Lemma wrap64_in_int z : in_int (wrap64 z).
Proof.
  unfold in_int, int_min, int_max, wrap64.
  pose proof (Z.mod_pos_bound (z + 2 ^ 63) (2 ^ 64)). lia.
Qed.

Lemma wrap64_add_l a b : wrap64 (wrap64 a + b) = wrap64 (a + b).
Proof.
  unfold wrap64. f_equal.
  set (m := (a + 2 ^ 63) mod 2 ^ 64).
  replace (m - 2 ^ 63 + b + 2 ^ 63) with (m + b) by lia.
  subst m. rewrite Z.add_mod_idemp_l by lia. f_equal. lia.
Qed.

(** Wrapping preserves the residue modulo 2^64. *)
Lemma wrap64_mod z : wrap64 z mod 2 ^ 64 = z mod 2 ^ 64.
Proof.
  unfold wrap64.
  rewrite Zminus_mod, Zmod_mod, <- Zminus_mod.
  f_equal. lia.
Qed.
End Int64.

Lemma int_add_in_int a b : in_int (a +ᵢ b)%go.
Proof. apply wrap64_in_int. Qed.

Lemma int_add_0_r a : in_int a → (a +ᵢ 0)%go = a.
Proof. intros H. unfold int_add. by rewrite Z.add_0_r, wrap64_small. Qed.

#[export] Hint Resolve wrap64_in_int int_add_in_int : judge.
#[export] Hint Rewrite wrap64_add_l : judge_rw.

Lemma sumZ_app {A} (f : A → Z) l1 l2 :
  sumZ f (l1 ++ l2) = (sumZ f l1 + sumZ f l2)%Z.
Proof. induction l1; simpl; lia. Qed.

Lemma sumZ_nonneg {A} (f : A → Z) l :
  Forall (λ x, 0 ≤ f x)%Z l → (0 ≤ sumZ f l)%Z.
Proof. induction 1; simpl; lia. Qed.

#[export] Hint Rewrite @sumZ_app : judge_rw.

(** [st_mapM] runs the body once per element: the output list has the
    input's length, and its [i]-th value is produced from the [i]-th
    element in the state left by the previous iterations. *)
Lemma st_mapM_cons {S A B} (f : A → ST S B) x l s :
  st_mapM f (x :: l) s =
    let '(y, s1) := f x s in
    let '(ys, s2) := st_mapM f l s1 in (y :: ys, s2).
Proof.
  simpl. unfold mbind, ST_bind, mret, ST_ret.
  destruct (f x s) as [y s1]. by destruct (st_mapM f l s1).
Qed.

Lemma st_mapM_length {S A B} (f : A → ST S B) l s :
  length (st_mapM f l s).1 = length l.
Proof.
  revert s. induction l as [|x l IH]; intros s; [done|].
  rewrite st_mapM_cons. destruct (f x s) as [y s1].
  specialize (IH s1). destruct (st_mapM f l s1). simpl in *. by rewrite IH.
Qed.

(** When the body's value does not depend on the state through a
    projection [g], the projected outputs are [map] of the inputs. *)
Lemma st_mapM_map_proj {S A B C} (f : A → ST S B) (g : B → C) (h : A → C) l s :
  (∀ x s, g (f x s).1 = h x) →
  g <$> (st_mapM f l s).1 = h <$> l.
Proof.
  intros Hf. revert s. induction l as [|x l IH]; intros s; [done|].
  rewrite st_mapM_cons. specialize (Hf x s).
  destruct (f x s) as [y s1]. specialize (IH s1).
  destruct (st_mapM f l s1). simpl in *. f_equal; [exact Hf | exact IH].
Qed.

(** A property of every value the body produces holds of every element
    of the output. *)
Lemma st_mapM_Forall {S A B} (f : A → ST S B) (P : B → Prop) l s :
  (∀ x s, P (f x s).1) → Forall P (st_mapM f l s).1.
Proof.
  intros Hf. revert s. induction l as [|x l IH]; intros s; [constructor|].
  rewrite st_mapM_cons. specialize (Hf x s).
  destruct (f x s) as [y s1]. specialize (IH s1).
  destruct (st_mapM f l s1). simpl in *. by constructor.
Qed.

(** Whether a boolean holds of every element, and its reflection. *)
Lemma forallb_Forall {A} (p : A → bool) l :
  forallb p l = true ↔ Forall (λ x, p x = true) l.
Proof.
  induction l as [|x l IH]; simpl; [split; auto|].
  by rewrite andb_true_iff, Forall_cons, IH.
Qed.

Lemma forallb_bool_decide {A} (P : A → Prop) `{∀ x, Decision (P x)} l :
  forallb (λ x, bool_decide (P x)) l = true ↔ Forall P l.
Proof.
  rewrite forallb_Forall.
  split; intros Hl; (eapply Forall_impl; [exact Hl|]); intros x; by rewrite bool_decide_eq_true.
Qed.

(** A Go string's bytes, through Rocq's [string]. *)
Lemma list_ascii_of_string_app s1 s2 :
  list_ascii_of_string (s1 ++ s2)%string = list_ascii_of_string s1 ++ list_ascii_of_string s2.
Proof. induction s1 as [|c s1 IH]; simpl; [done|]. by rewrite IH. Qed.

(** [l1] occurs in [l2] as a contiguous block. *)
Definition infix {A} (l1 l2 : list A) : Prop := ∃ a b, l2 = a ++ l1 ++ b.

Lemma filter_fmap_comm {A B} (f : A → B) (P : B → Prop) `{∀ x, Decision (P x)} (l : list A) :
  filter P (f <$> l) = f <$> filter (λ x, P (f x)) l.
Proof.
  induction l as [|x l IH]; [done|]. rewrite fmap_cons, !filter_cons.
  case_decide; by rewrite IH.
Qed.

(** Filtering out elements the predicate rejects does not change what
    [list_find] finds. *)
Lemma list_find_filter {A} (P Q : A → Prop) `{∀ x, Decision (P x), ∀ x, Decision (Q x)}
    (l : list A) :
  (∀ x, P x → Q x) → snd <$> list_find P (filter Q l) = snd <$> list_find P l.
Proof.
  intros HPQ. assert (Hs : ∀ o : option (nat * A), snd <$> (prod_map S id <$> o) = snd <$> o)
    by (intros [[]|]; done).
  induction l as [|x l IH]; [done|]. rewrite filter_cons. simpl.
  destruct (decide (Q x)); simpl; case_decide; rewrite ?Hs; naive_solver.
Qed.

(** Mapping over a concatenation maps each piece. *)
Lemma fmap_join {A B} (f : A → B) (ls : list (list A)) :
  f <$> mjoin ls = mjoin (fmap f <$> ls).
Proof. induction ls as [|l ls IH]; [done|]. simpl. by rewrite fmap_app, IH. Qed.

#[export] Hint Rewrite @length_fmap @length_app : judge_rw.

(** The development's simplification tactic: unfold the monad plumbing
    and rewrite with the [judge] database. *)
Ltac judge_simp :=
  repeat (unfold mbind, ST_bind, mret, ST_ret, st_get, st_put, st_modify in *;
          simpl in *; autorewrite with judge_rw in *).
