(* ===== verification/ProblemDomain.v ===== *)
(** * The problem entity (internal/domain/problem/entity.go)

    Problems, their topics and test cases, and the entity's operations
    that change it ([AddTestCase], [AddTopic]) or derive the visible test
    cases the run flow executes ([VisibleTestCases]).  Go's [uint] ids
    are [N]; Go's named string types [Difficulty] and [Category] stay
    strings with the source's constants; [time.Time] is a nanosecond
    count read from a clock threaded through [ST]. *)

From S2P Require Import Prelude.
From Stdlib Require Import PrimFloat.
From Stdlib Require Uint63.

Module Problem.

(** [time.Time], as nanoseconds of the wall clock. *)
Definition Time := Z.

(** [time.Now()] reads the clock. *)
Definition time_Now : ST Time Time := st_get.

Definition Difficulty := string.
Definition Easy : Difficulty := "Easy".
Definition Medium : Difficulty := "Medium".
Definition Hard : Difficulty := "Hard".

Definition Category := string.
Definition CategoryAlgorithms : Category := "algorithms".
Definition CategoryDatabase : Category := "database".
Definition CategoryShell : Category := "shell".
Definition CategoryConcurrency : Category := "concurrency".
Definition CategoryJavaScript : Category := "javascript".

Record Topic := mkTopic {
  Topic_ID : N;
  Topic_Name : string;
  Topic_Slug : string;
  Topic_Count : Z
}.

Record TestCase := mkTestCase {
  TC_ID : N;
  TC_ProblemID : N;
  Input : string;
  Expected : string;
  IsHidden : bool
}.

Record Problem := mkProblem {
  ID : N;
  Slug : string;
  Title : string;
  PDifficulty : Difficulty;
  PCategory : Category;
  Description : string;
  Examples : string;
  Constraints : string;
  StarterCode : string;
  AcceptanceRate : float;
  Submissions : Z;
  Accepted : Z;
  Topics : list Topic;
  TestCases : list TestCase;
  IsPremium : bool;
  CreatedAt : Time;
  UpdatedAt : Time
}.

(** [NewProblem]: the zero value of every other field, and two reads
    of the clock for the timestamps. *)
Definition NewProblem (slug title : string) (difficulty : Difficulty)
    (category : Category) (description : string) : ST Time Problem :=
  created ← time_Now;
  updated ← time_Now;
  mret {| ID := 0; Slug := slug; Title := title; PDifficulty := difficulty;
          PCategory := category; Description := description; Examples := "";
          Constraints := ""; StarterCode := ""; AcceptanceRate := 0%float;
          Submissions := 0; Accepted := 0; Topics := []; TestCases := [];
          IsPremium := false; CreatedAt := created; UpdatedAt := updated |}.

Definition set_TestCases (p : Problem) (tcs : list TestCase) : Problem :=
  {| ID := ID p; Slug := Slug p; Title := Title p; PDifficulty := PDifficulty p;
     PCategory := PCategory p; Description := Description p; Examples := Examples p;
     Constraints := Constraints p; StarterCode := StarterCode p;
     AcceptanceRate := AcceptanceRate p; Submissions := Submissions p;
     Accepted := Accepted p; Topics := Topics p; TestCases := tcs;
     IsPremium := IsPremium p; CreatedAt := CreatedAt p; UpdatedAt := UpdatedAt p |}.

Definition set_Topics (p : Problem) (ts : list Topic) : Problem :=
  {| ID := ID p; Slug := Slug p; Title := Title p; PDifficulty := PDifficulty p;
     PCategory := PCategory p; Description := Description p; Examples := Examples p;
     Constraints := Constraints p; StarterCode := StarterCode p;
     AcceptanceRate := AcceptanceRate p; Submissions := Submissions p;
     Accepted := Accepted p; Topics := ts; TestCases := TestCases p;
     IsPremium := IsPremium p; CreatedAt := CreatedAt p; UpdatedAt := UpdatedAt p |}.

(** [p.AddTestCase(input, expected, isHidden)]: append a test case whose
    [ProblemID] is the problem's and whose own [ID] is zero. *)
Definition AddTestCase (p : Problem) (input expected : string) (isHidden : bool) : Problem :=
  set_TestCases p (TestCases p ++
    [{| TC_ID := 0; TC_ProblemID := ID p; Input := input;
        Expected := expected; IsHidden := isHidden |}]).

(** [p.AddTopic(topic)]. *)
Definition AddTopic (p : Problem) (topic : Topic) : Problem :=
  set_Topics p (Topics p ++ [topic]).

(** The loop of [VisibleTestCases]: append every test case that is not
    hidden, in order. *)
Fixpoint visible_loop (tcs : list TestCase) : list TestCase :=
  match tcs with
  | [] => []
  | tc :: rest => if negb (IsHidden tc) then tc :: visible_loop rest else visible_loop rest
  end.

Definition VisibleTestCases (p : Problem) : list TestCase := visible_loop (TestCases p).

(** Go's [float64(n)] for an [int]: the nearest float64, ties to even
    ([PrimFloat.of_uint63] rounds so), negated for a negative [n];
    [-2^63] is exact. *)
Definition float_of_int (z : Z) : float :=
  if bool_decide (0 ≤ z)%Z then PrimFloat.of_uint63 (Uint63.of_Z z)
  else if bool_decide (z = int_min) then (- (PrimFloat.of_uint63 (Uint63.of_Z (2 ^ 62)) * 2))%float
  else (- PrimFloat.of_uint63 (Uint63.of_Z (- z)))%float.

(** [Problem.CalculateAcceptanceRate]. *)
Definition CalculateAcceptanceRate (p : Problem) : float :=
  if bool_decide (Submissions p = 0%Z) then 0%float
  else (float_of_int (Accepted p) / float_of_int (Submissions p) * 100)%float.

(** ** Lemmas *)

Lemma visible_loop_filter tcs :
  visible_loop tcs = filter (λ tc, IsHidden tc = false) tcs.
Proof.
  induction tcs as [|tc tcs IH]; [done|]. simpl.
  rewrite filter_cons. destruct (IsHidden tc); simpl; rewrite IH; done.
Qed.

Lemma visible_loop_app l1 l2 :
  visible_loop (l1 ++ l2) = visible_loop l1 ++ visible_loop l2.
Proof. rewrite !visible_loop_filter. apply filter_app. Qed.

Lemma set_TestCases_TestCases p tcs : TestCases (set_TestCases p tcs) = tcs.
Proof. done. Qed.

(** ** Claims *)

(** [VisibleTestCases] keeps exactly the test cases that are not
    hidden, in their original order (a sublist of the problem's test
    cases). *)
Theorem VisibleTestCases_spec p :
  VisibleTestCases p `sublist_of` TestCases p ∧
  ∀ tc, tc ∈ VisibleTestCases p ↔ tc ∈ TestCases p ∧ IsHidden tc = false.
Proof.
  unfold VisibleTestCases. rewrite visible_loop_filter. split.
  - apply sublist_filter.
  - intros tc. rewrite list_elem_of_filter. tauto.
Qed.

(** [AddTestCase] appends a test case that belongs to the problem.
    It shows up last among the visible test cases exactly when it is not
    hidden, and the other visible test cases are unchanged. *)
Theorem AddTestCase_visible p input expected isHidden :
  let tc := {| TC_ID := 0; TC_ProblemID := ID p; Input := input;
               Expected := expected; IsHidden := isHidden |} in
  TestCases (AddTestCase p input expected isHidden) = TestCases p ++ [tc] ∧
  VisibleTestCases (AddTestCase p input expected isHidden) =
    VisibleTestCases p ++ (if isHidden then [] else [tc]).
Proof.
  simpl. split; [done|]. unfold VisibleTestCases, AddTestCase.
  rewrite set_TestCases_TestCases, visible_loop_app. by destruct isHidden.
Qed.

End Problem.
