(* ===== verification/SubmissionDomain.v ===== *)
(** * The submission entity (internal/domain/submission/entity.go)

    A submission's status, per-test results and the reductions over them
    done by [SetResults]: the overall status ([calculateStatus]), the
    total runtime ([calculateTotalRuntime], a Go [int] sum kept at 64
    bits with wrap-around), and the counters [PassedCount] and
    [TotalCount].  The theorems at the end show that the status is
    Accepted exactly when every test passed, and is never anything but
    Accepted or Wrong Answer, unlike the spec's priority verdicts
    (spec §4.5). *)

From S2P Require Import Prelude ProblemDomain.

Module Submission.

Import Problem.

(** [type Status string], with its constants. *)
Definition Status := string.
Definition StatusPending : Status := "Pending".
Definition StatusRunning : Status := "Running".
Definition StatusAccepted : Status := "Accepted".
Definition StatusWrong : Status := "Wrong Answer".
Definition StatusError : Status := "Runtime Error".
Definition StatusTimeout : Status := "Time Limit Exceeded".

Record TestResult := mkTestResult {
  TR_Input : string;
  TR_Expected : string;
  Actual : string;
  Passed : bool;
  TR_Runtime : Z
}.

Record Submission := mkSubmission {
  SID : string;
  S_ProblemID : N;
  Language : string;
  Code : string;
  SStatus : Status;
  Runtime : Z;
  Memory : Z;
  Output : string;
  Results : list TestResult;
  S_CreatedAt : Time
}.

(** [NewSubmission]: status Pending, the clock's current time, the zero
    value of every other field. *)
Definition NewSubmission (id : string) (problemID : N) (language code : string)
    : ST Time Submission :=
  now ← time_Now;
  mret {| SID := id; S_ProblemID := problemID; Language := language; Code := code;
          SStatus := StatusPending; Runtime := 0; Memory := 0; Output := "";
          Results := []; S_CreatedAt := now |}.

(** The loop of [calculateStatus]: the first result that did not pass
    returns [StatusWrong]; otherwise [StatusAccepted]. *)
Fixpoint calculateStatus_loop (rs : list TestResult) : Status :=
  match rs with
  | [] => StatusAccepted
  | r :: rest => if negb (Passed r) then StatusWrong else calculateStatus_loop rest
  end.

Definition calculateStatus (s : Submission) : Status := calculateStatus_loop (Results s).

(** The loop of [calculateTotalRuntime]: [total += r.Runtime] on [int]. *)
Fixpoint total_loop (total : Z) (rs : list TestResult) : Z :=
  match rs with
  | [] => total
  | r :: rest => total_loop (total +ᵢ TR_Runtime r)%go rest
  end.

Definition calculateTotalRuntime (s : Submission) : Z := total_loop 0 (Results s).

(** The loop of [PassedCount]: [count++] on [int] for every passed result. *)
Fixpoint passed_loop (count : Z) (rs : list TestResult) : Z :=
  match rs with
  | [] => count
  | r :: rest => passed_loop (if Passed r then (count +ᵢ 1)%go else count) rest
  end.

Definition PassedCount (s : Submission) : Z := passed_loop 0 (Results s).

Definition TotalCount (s : Submission) : Z := Z.of_nat (length (Results s)).

(** [s.SetResults(results)]: the three assignments in order, each
    reduction reading the [Results] field just written. *)
Definition SetResults (s : Submission) (results : list TestResult) : Submission :=
  let s1 := {| SID := SID s; S_ProblemID := S_ProblemID s; Language := Language s;
               Code := Code s; SStatus := SStatus s; Runtime := Runtime s;
               Memory := Memory s; Output := Output s; Results := results;
               S_CreatedAt := S_CreatedAt s |} in
  let s2 := {| SID := SID s1; S_ProblemID := S_ProblemID s1; Language := Language s1;
               Code := Code s1; SStatus := calculateStatus s1; Runtime := Runtime s1;
               Memory := Memory s1; Output := Output s1; Results := Results s1;
               S_CreatedAt := S_CreatedAt s1 |} in
  {| SID := SID s2; S_ProblemID := S_ProblemID s2; Language := Language s2;
     Code := Code s2; SStatus := SStatus s2; Runtime := calculateTotalRuntime s2;
     Memory := Memory s2; Output := Output s2; Results := Results s2;
     S_CreatedAt := S_CreatedAt s2 |}.

End Submission.

(** ** Theorems on the submission entity *)

Module SubmissionTheory.

Import Problem Submission.

(** A Go [int] accumulator loop [acc += f x] computes the wrapped sum. *)
Lemma foldl_int_add {A} (f : A → Z) acc l :
  in_int acc → foldl (λ t x, (t +ᵢ f x)%go) acc l = wrap64 (acc + sumZ f l).
Proof.
  revert acc. induction l as [|x l IH]; intros acc Hacc; simpl.
  - by rewrite Z.add_0_r, wrap64_small.
  - rewrite IH by auto with judge. unfold int_add.
    rewrite wrap64_add_l. f_equal. lia.
Qed.

Lemma total_loop_foldl acc rs :
  total_loop acc rs = foldl (λ t r, (t +ᵢ TR_Runtime r)%go) acc rs.
Proof. revert acc. induction rs; simpl; auto. Qed.

Lemma passed_loop_foldl acc rs :
  in_int acc →
  passed_loop acc rs = foldl (λ t r, (t +ᵢ (if Passed r then 1 else 0))%go) acc rs.
Proof.
  revert acc. induction rs as [|r rs IH]; intros acc Hacc; simpl; [done|].
  destruct (Passed r); [|rewrite (int_add_0_r acc Hacc)]; rewrite IH; auto with judge.
Qed.

Lemma calculateStatus_loop_forallb rs :
  calculateStatus_loop rs = if forallb Passed rs then StatusAccepted else StatusWrong.
Proof. induction rs as [|r rs IH]; simpl; [done|]. by destruct (Passed r). Qed.

Lemma SetResults_Results s rs : Results (SetResults s rs) = rs.
Proof. done. Qed.

Lemma SetResults_SStatus s rs : SStatus (SetResults s rs) = calculateStatus_loop rs.
Proof. done. Qed.

Lemma SetResults_Runtime s rs : Runtime (SetResults s rs) = total_loop 0 rs.
Proof. done. Qed.

(** ** Claims *)

(** C5: [SetResults] sets the status to Accepted exactly when every
    test result passed (spec §3: [overallStatus == Accepted] iff every
    outcome has [passed == true]). *)
Theorem SetResults_accepted_iff s rs :
  SStatus (SetResults s rs) = StatusAccepted ↔ Forall (λ r, Passed r = true) rs.
Proof.
  rewrite SetResults_SStatus, calculateStatus_loop_forallb, <- forallb_Forall.
  destruct (forallb Passed rs); split; done.
Qed.

(** C15: the status [SetResults] computes is never Runtime Error nor Time
    Limit Exceeded: the legacy rule reports every failure as Wrong
    Answer, whatever made the test fail. *)
Theorem SetResults_status_legacy s rs :
  SStatus (SetResults s rs) = StatusAccepted ∨ SStatus (SetResults s rs) = StatusWrong.
Proof.
  rewrite SetResults_SStatus, calculateStatus_loop_forallb.
  destruct (forallb Passed rs); auto.
Qed.

(** the total runtime [SetResults] records is the sum of the tests'
    runtimes wrapped to a 64-bit Go [int]; it is the exact sum whenever
    that sum fits in an [int], even if a partial sum overflowed. *)
Theorem SetResults_Runtime_sum s rs :
  Runtime (SetResults s rs) = wrap64 (sumZ TR_Runtime rs) ∧
  (in_int (sumZ TR_Runtime rs) → Runtime (SetResults s rs) = sumZ TR_Runtime rs).
Proof.
  rewrite SetResults_Runtime, total_loop_foldl, foldl_int_add
    by (unfold in_int, int_min, int_max; lia).
  split; [done|]. intros H. by apply wrap64_small.
Qed.

(** [PassedCount] is the number of passed results, as long as the
    number of results fits in an [int]. *)
Theorem PassedCount_spec s :
  (Z.of_nat (length (Results s)) ≤ int_max)%Z →
  PassedCount s = Z.of_nat (length (filter (λ r, Passed r = true) (Results s))).
Proof.
  intros Hlen. unfold PassedCount.
  rewrite passed_loop_foldl, foldl_int_add
    by (unfold in_int, int_min, int_max; lia).
  assert (Hsum : ∀ rs, sumZ (λ r, if Passed r then 1 else 0)%Z rs =
                       Z.of_nat (length (filter (λ r, Passed r = true) rs))).
  { induction rs as [|r rs IH]; [done|]. rewrite filter_cons. simpl.
    destruct (Passed r); simpl; lia. }
  rewrite Z.add_0_l, Hsum. apply wrap64_small.
  pose proof (length_filter (λ r, Passed r = true) (Results s)).
  unfold in_int, int_min, int_max in *. lia.
Qed.

(** ** Witnesses *)

Definition sub_example : Submission :=
  {| SID := "s1"; S_ProblemID := 1; Language := "python"; Code := "def twoSum(a, t): pass";
     SStatus := StatusPending; Runtime := 0%Z; Memory := 0%Z; Output := ""; Results := [];
     S_CreatedAt := 0%Z |}.

Definition results_example : list TestResult :=
  [{| TR_Input := "[2,7,11,15],9"; TR_Expected := "[0,1]"; Actual := "[0,1]";
      Passed := true; TR_Runtime := 3%Z |};
   {| TR_Input := "[3,3],6"; TR_Expected := "[0,1]"; Actual := "Time Limit Exceeded";
      Passed := false; TR_Runtime := 5000%Z |}].

Lemma PassedCount_spec_witness :
  PassedCount (SetResults sub_example results_example) = 1%Z.
Proof.
  rewrite PassedCount_spec; [vm_compute; reflexivity | vm_compute; congruence].
Defined.

End SubmissionTheory.
