(* ===== verification/GoStrings.v ===== *)
(** * Go library routines the engine calls: strings.TrimSpace and fmt.Sprintf

    The engine compares [strings.TrimSpace] of the program's output with
    [strings.TrimSpace] of the expected output, and builds every harness
    and error message with [fmt.Sprintf] / [fmt.Errorf].  Both routines
    live in Go's standard library, not under src/, so they are modelled
    from the library's documented behaviour.

    A Go string is a sequence of bytes; here a byte is an [ascii] (an
    8-bit character) and a string is a Rocq [string].  [TrimSpace]
    removes leading and trailing runes for which [unicode.IsSpace] holds.
    In UTF-8 each such rune is a fixed byte sequence ([space_runes]), and
    Go's decoder recognises one at the front ([DecodeRuneInString]) or at
    the back ([DecodeLastRuneInString]) exactly when the string starts or
    ends with its encoding.  Trimming is therefore a loop that strips a
    member of [space_runes] while one is a prefix, then the mirror loop on
    suffixes.  Go's ASCII fast path computes the same function.

    The trimming lemmas are proved once, in the section [RuneTrim], for
    any rune set that is nonempty, prefix-free and in which no rune
    straddles a rune boundary.  Those three conditions are decidable, and
    [space_runes] and its mirror image satisfy them by computation. *)

From S2P Require Import Prelude.

Module GoStrings.

(** ** Trimming a set of runes from the front of a byte string *)

Section RuneTrimDef.
Variable R : list (list ascii).

(** The rune of [R] that [s] starts with, if any. *)
Definition rune_prefix (s : list ascii) : option (list ascii) :=
  find (λ e, bool_decide (e `prefix_of` s)) R.

(** [TrimLeftFunc], with fuel: each iteration strips one rune. *)
Fixpoint trim_left_fuel (fuel : nat) (s : list ascii) : list ascii :=
  match fuel with
  | O => s
  | S f =>
      match rune_prefix s with
      | Some e => trim_left_fuel f (drop (length e) s)
      | None => s
      end
  end.

(** The length of [s] is enough fuel ([trim_left_fuel_enough]). *)
Definition trim_left (s : list ascii) : list ascii := trim_left_fuel (length s) s.

(** The conditions under which trimming behaves as on UTF-8 text. *)
Definition runes_nonempty : Prop := Forall (λ e, e ≠ []) R.
Definition runes_prefix_free : Prop :=
  Forall (λ e, Forall (λ e', e `prefix_of` e' → e = e') R) R.
Definition runes_no_straddle : Prop :=
  Forall (λ e, Forall (λ r,
    Forall (λ k, ¬ (drop k e `prefix_of` r ∨ r `prefix_of` drop k e))
           (seq 1 (pred (length e)))) R) R.
End RuneTrimDef.

(** ** Go's white space *)

Definition byte (n : nat) : ascii := ascii_of_nat n.

(** [unicode.IsSpace]: '\t', '\n', '\v', '\f', '\r', ' ', U+0085, U+00A0,
    and the White_Space runes U+1680, U+2000 to U+200A, U+2028, U+2029,
    U+202F, U+205F and U+3000, each as its UTF-8 encoding. *)
Definition space_runes : list (list ascii) :=
  [[byte 9]; [byte 10]; [byte 11]; [byte 12]; [byte 13]; [byte 32];
   [byte 0xC2; byte 0x85]; [byte 0xC2; byte 0xA0];
   [byte 0xE1; byte 0x9A; byte 0x80]] ++
  ((λ n, [byte 0xE2; byte 0x80; byte n]) <$> seq 0x80 11) ++
  [[byte 0xE2; byte 0x80; byte 0xA8]; [byte 0xE2; byte 0x80; byte 0xA9];
   [byte 0xE2; byte 0x80; byte 0xAF]; [byte 0xE2; byte 0x81; byte 0x9F];
   [byte 0xE3; byte 0x80; byte 0x80]].

(** The same runes read backwards, for trimming from the end. *)
Definition space_runes_rev : list (list ascii) := reverse <$> space_runes.

(** [strings.TrimLeftFunc(s, unicode.IsSpace)]. *)
Definition TrimLeftSpace (s : list ascii) : list ascii := trim_left space_runes s.

(** [strings.TrimRightFunc(s, unicode.IsSpace)]: the loop on the last rune,
    run on the reversed string. *)
Definition TrimRightSpace (s : list ascii) : list ascii :=
  reverse (trim_left space_runes_rev (reverse s)).

(** [strings.TrimSpace]. *)
Definition TrimSpace (s : string) : string :=
  string_of_list_ascii (TrimRightSpace (TrimLeftSpace (list_ascii_of_string s))).

(** ** [fmt.Sprintf] on string arguments *)

(** The formatting loop of [fmt.Sprintf] when every argument is a
    string.  It returns the output and the arguments left unused.  [%s]
    and [%v] print the next argument as it is, and [%%] prints one
    percent sign.  Any other verb prints Go's bad-verb form
    [%!c(string=arg)], and a verb with no argument left prints
    [%!c(MISSING)].  A [%] at the very end prints [%!(NOVERB)].  Flags,
    widths, precisions and the verbs [q], [x] and [X] (which Go also
    accepts for strings) are outside the model: the source uses none of
    them. *)
Fixpoint sprintf_loop (fmt : list ascii) (args : list string) : list ascii * list string :=
  match fmt with
  | [] => ([], args)
  | c :: rest =>
      if decide (c = "%"%char) then
        match rest with
        | [] => (list_ascii_of_string "%!(NOVERB)", args)
        | v :: rest' =>
            if decide (v = "%"%char) then
              let '(out, extra) := sprintf_loop rest' args in ("%"%char :: out, extra)
            else
              match args with
              | a :: args' =>
                  let '(out, extra) := sprintf_loop rest' args' in
                  if decide (v = "s"%char ∨ v = "v"%char)
                  then (list_ascii_of_string a ++ out, extra)
                  else (list_ascii_of_string ("%!" +:+ String v ("(string=" +:+ a +:+ ")"))
                          ++ out, extra)
              | [] =>
                  let '(out, extra) := sprintf_loop rest' [] in
                  (list_ascii_of_string ("%!" +:+ String v "(MISSING)") ++ out, extra)
              end
        end
      else let '(out, extra) := sprintf_loop rest args in (c :: out, extra)
  end.

(** Unused arguments are reported as [%!(EXTRA string=a, string=b)]. *)
Definition extra_args (extra : list string) : string :=
  match extra with
  | [] => ""
  | _ => "%!(EXTRA " +:+ String.concat ", " ((λ a, "string=" +:+ a) <$> extra) +:+ ")"
  end.

(** [fmt.Sprintf(format, args...)]. *)
Definition Sprintf (format : string) (args : list string) : string :=
  let '(out, extra) := sprintf_loop (list_ascii_of_string format) args in
  string_of_list_ascii out +:+ extra_args extra.

(** [fmt.Errorf(format, args...).Error()]: the message is [Sprintf]'s. *)
Definition Errorf (format : string) (args : list string) : string := Sprintf format args.

(** The literal pieces of a format whose only directives are [%s], or
    [None] when it has another one. *)
Fixpoint fmt_pieces (fmt : list ascii) : option (list (list ascii)) :=
  match fmt with
  | [] => Some [[]]
  | c :: rest =>
      if decide (c = "%"%char) then
        match rest with
        | v :: rest' =>
            if decide (v = "s"%char) then ps ← fmt_pieces rest'; Some ([] :: ps) else None
        | [] => None
        end
      else
        ps ← fmt_pieces rest;
        match ps with p :: ps' => Some ((c :: p) :: ps') | [] => None end
  end.

(** The pieces with the arguments spliced in between. *)
Fixpoint interleave (ps : list (list ascii)) (args : list string) : list ascii :=
  match ps, args with
  | p :: ps', a :: args' => p ++ list_ascii_of_string a ++ interleave ps' args'
  | [p], [] => p
  | _, _ => []
  end.

(** ** Trimming lemmas for a rune set with the UTF-8 properties *)

Section RuneTrim.
Context (R : list (list ascii)).
Hypothesis HR_nonempty : runes_nonempty R.
Hypothesis HR_prefix_free : runes_prefix_free R.
Hypothesis HR_no_straddle : runes_no_straddle R.

Lemma rune_nonempty e : e ∈ R → e ≠ [].
Proof. intros Hin. by eapply Forall_forall in HR_nonempty. Qed.

Lemma rune_prefix_free e e' : e ∈ R → e' ∈ R → e `prefix_of` e' → e = e'.
Proof.
  intros Hin Hin'. eapply Forall_forall in HR_prefix_free; [|exact Hin].
  by eapply Forall_forall in HR_prefix_free.
Qed.

Lemma rune_no_straddle e r k :
  e ∈ R → r ∈ R → 0 < k < length e →
  ¬ (drop k e `prefix_of` r ∨ r `prefix_of` drop k e).
Proof.
  intros Hin Hr Hk. eapply Forall_forall in HR_no_straddle; [|exact Hin].
  eapply Forall_forall in HR_no_straddle; [|exact Hr].
  eapply Forall_forall in HR_no_straddle; [exact HR_no_straddle|].
  apply elem_of_seq. lia.
Qed.

Lemma rune_prefix_Some s e : rune_prefix R s = Some e → e ∈ R ∧ e `prefix_of` s.
Proof.
  unfold rune_prefix. intros H. apply find_some in H as [Hin Hp].
  split; [by apply list_elem_of_In | by apply bool_decide_eq_true in Hp].
Qed.

Lemma rune_prefix_None s e : rune_prefix R s = None → e ∈ R → ¬ e `prefix_of` s.
Proof.
  unfold rune_prefix. intros H Hin Hp.
  eapply find_none in H; [|by apply list_elem_of_In].
  rewrite bool_decide_eq_true_2 in H; [discriminate | done].
Qed.

(** A rune of [R] at the front of [s] is the one [rune_prefix] finds. *)
Lemma rune_prefix_unique s e : e ∈ R → e `prefix_of` s → rune_prefix R s = Some e.
Proof.
  intros Hin Hp. destruct (rune_prefix R s) as [e'|] eqn:E.
  - apply rune_prefix_Some in E as [Hin' Hp']. f_equal.
    destruct (prefix_weak_total e' e s Hp' Hp) as [H|H].
    + by apply rune_prefix_free.
    + symmetry. by apply rune_prefix_free.
  - by apply (rune_prefix_None s e) in Hp.
Qed.

Lemma rune_prefix_nil : rune_prefix R [] = None.
Proof.
  destruct (rune_prefix R []) as [e|] eqn:E; [|done].
  apply rune_prefix_Some in E as [Hin Hp%prefix_nil_inv].
  by apply rune_nonempty in Hin.
Qed.

Lemma rune_prefix_shrinks s e :
  rune_prefix R s = Some e → length (drop (length e) s) < length s.
Proof.
  intros (Hin & Hp)%rune_prefix_Some. apply rune_nonempty in Hin.
  apply prefix_length in Hp. rewrite length_drop.
  destruct e; [done|]. simpl in *. lia.
Qed.

Lemma trim_left_fuel_stable f1 f2 s :
  length s ≤ f1 → length s ≤ f2 → trim_left_fuel R f1 s = trim_left_fuel R f2 s.
Proof.
  revert f2 s. induction f1 as [|f1 IH]; intros [|f2] s H1 H2; simpl; [done| | |].
  - by rewrite (nil_length_inv s), rune_prefix_nil by lia.
  - by rewrite (nil_length_inv s), rune_prefix_nil by lia.
  - destruct (rune_prefix R s) eqn:E; [|done].
    pose proof (rune_prefix_shrinks s _ E). apply IH; lia.
Qed.

Lemma trim_left_fuel_enough f s : length s ≤ f → trim_left_fuel R f s = trim_left R s.
Proof. intros H. by apply trim_left_fuel_stable. Qed.

(** One iteration of the trimming loop. *)
Lemma trim_left_unfold s :
  trim_left R s =
    match rune_prefix R s with
    | Some e => trim_left R (drop (length e) s)
    | None => s
    end.
Proof.
  unfold trim_left at 1. destruct (length s) as [|n] eqn:Hn; simpl.
  - by rewrite (nil_length_inv s), rune_prefix_nil.
  - destruct (rune_prefix R s) eqn:E; [|done].
    pose proof (rune_prefix_shrinks s _ E). apply trim_left_fuel_enough. lia.
Qed.

(** Induction following the loop: strip one rune, or stop. *)
Lemma trim_left_ind (P : list ascii → Prop) :
  (∀ s, rune_prefix R s = None → P s) →
  (∀ s e, rune_prefix R s = Some e → P (drop (length e) s) → P s) →
  ∀ s, P s.
Proof.
  intros Hnone Hsome s. remember (length s) as n eqn:Hn.
  assert (Hn' : length s ≤ n) by lia. clear Hn. revert s Hn'.
  induction n as [|n IH]; intros s Hs.
  - rewrite (nil_length_inv s) by lia. apply Hnone, rune_prefix_nil.
  - destruct (rune_prefix R s) eqn:E; [|by apply Hnone].
    apply (Hsome s l E). pose proof (rune_prefix_shrinks s _ E). apply IH. lia.
Qed.

Lemma trim_left_none s : rune_prefix R s = None → trim_left R s = s.
Proof. intros H. by rewrite trim_left_unfold, H. Qed.

Lemma trim_left_no_rune s : rune_prefix R (trim_left R s) = None.
Proof.
  induction s as [s Hs|s e Hs IH] using trim_left_ind.
  - by rewrite trim_left_none.
  - by rewrite trim_left_unfold, Hs.
Qed.

Lemma trim_left_idem s : trim_left R (trim_left R s) = trim_left R s.
Proof. apply trim_left_none, trim_left_no_rune. Qed.

Lemma trim_left_suffix s : trim_left R s `suffix_of` s.
Proof.
  induction s as [s Hs|s e Hs IH] using trim_left_ind.
  - by rewrite trim_left_none.
  - rewrite trim_left_unfold, Hs. etrans; [exact IH | apply suffix_drop].
Qed.

Lemma trim_left_app_rune e t : e ∈ R → trim_left R (e ++ t) = trim_left R t.
Proof.
  intros Hin. rewrite trim_left_unfold, (rune_prefix_unique (e ++ t) e Hin)
    by by apply prefix_app_r.
  by rewrite drop_app_length.
Qed.

(** Runes in front of a string are all stripped. *)
Lemma trim_left_concat ws t :
  Forall (λ e, e ∈ R) ws → trim_left R (concat ws ++ t) = trim_left R t.
Proof.
  induction 1 as [|e ws Hin _ IH]; simpl; [done|].
  by rewrite <- app_assoc, trim_left_app_rune.
Qed.

(** A string that trims to nothing is made of runes. *)
Lemma trim_left_nil_concat s :
  trim_left R s = [] → ∃ ws, Forall (λ e, e ∈ R) ws ∧ s = concat ws.
Proof.
  induction s as [s Hs|s e Hs IH] using trim_left_ind; intros Hnil.
  - rewrite trim_left_none in Hnil by done. subst. by exists [].
  - rewrite trim_left_unfold, Hs in Hnil.
    destruct (IH Hnil) as (ws & Hws & Heq).
    apply rune_prefix_Some in Hs as [Hin [k ->]].
    rewrite drop_app_length in Heq. subst k.
    exists (e :: ws). split; [by constructor | done].
Qed.

(** No rune straddles the end of a string that does not trim to
    nothing and the start of a run of runes. *)
Lemma rune_prefix_app_clean s ws :
  Forall (λ e, e ∈ R) ws → s ≠ [] → rune_prefix R s = None →
  rune_prefix R (s ++ concat ws) = None.
Proof.
  intros Hws Hs Hnone. destruct (rune_prefix R (s ++ concat ws)) as [e|] eqn:E; [|done].
  exfalso. apply rune_prefix_Some in E as [Hin Hp].
  destruct (prefix_weak_total e s (s ++ concat ws) Hp (prefix_app_r s s _ (reflexivity _)))
    as [Hes|[u ->]]; [by apply (rune_prefix_None s e) in Hes|].
  apply prefix_app_inv in Hp.
  destruct u as [|x u].
  { rewrite app_nil_r in Hin. by apply (rune_prefix_None s s Hnone Hin). }
  destruct ws as [|r ws]; simpl in Hp; [by apply prefix_nil_not in Hp|].
  apply Forall_cons in Hws as [Hr _].
  apply (rune_no_straddle (s ++ x :: u) r (length s)); [done | done | |].
  - rewrite length_app. simpl. destruct s; [done|]. simpl. lia.
  - rewrite drop_app_length.
    exact (prefix_weak_total _ _ _ Hp (prefix_app_r r r _ (reflexivity _))).
Qed.

(** Runes after a string that does not trim to nothing stay. *)
Lemma trim_left_app_clean s ws :
  Forall (λ e, e ∈ R) ws → trim_left R s ≠ [] →
  trim_left R (s ++ concat ws) = trim_left R s ++ concat ws.
Proof.
  intros Hws. induction s as [s Hs|s e Hs IH] using trim_left_ind; intros Hne.
  - rewrite (trim_left_none s Hs) in *.
    by apply trim_left_none, rune_prefix_app_clean.
  - rewrite (trim_left_unfold s), Hs in *.
    apply rune_prefix_Some in Hs as [Hin Hp].
    rewrite trim_left_unfold, (rune_prefix_unique _ e Hin) by by apply prefix_app_r.
    rewrite drop_app_le by by apply prefix_length. by apply IH.
Qed.
End RuneTrim.

(** ** Go's white-space runes are a self-synchronising set *)

Lemma space_runes_nonempty : runes_nonempty space_runes.
Proof. unfold runes_nonempty. apply (bool_decide_unpack _). by vm_compute. Qed.
Lemma space_runes_prefix_free : runes_prefix_free space_runes.
Proof. unfold runes_prefix_free. apply (bool_decide_unpack _). by vm_compute. Qed.
Lemma space_runes_no_straddle : runes_no_straddle space_runes.
Proof. unfold runes_no_straddle. apply (bool_decide_unpack _). by vm_compute. Qed.
Lemma space_runes_rev_nonempty : runes_nonempty space_runes_rev.
Proof. unfold runes_nonempty. apply (bool_decide_unpack _). by vm_compute. Qed.
Lemma space_runes_rev_prefix_free : runes_prefix_free space_runes_rev.
Proof. unfold runes_prefix_free. apply (bool_decide_unpack _). by vm_compute. Qed.
Lemma space_runes_rev_no_straddle : runes_no_straddle space_runes_rev.
Proof. unfold runes_no_straddle. apply (bool_decide_unpack _). by vm_compute. Qed.

#[export] Hint Resolve space_runes_nonempty space_runes_prefix_free space_runes_no_straddle
  space_runes_rev_nonempty space_runes_rev_prefix_free space_runes_rev_no_straddle : judge.

(** ** From the loops to [TrimSpace] *)

Lemma rune_prefix_of_prefix R y z :
  z `prefix_of` y → rune_prefix R y = None → rune_prefix R z = None.
Proof.
  intros Hzy Hy. destruct (rune_prefix R z) as [e|] eqn:E; [|done].
  apply rune_prefix_Some in E as [Hin Hp].
  by destruct (rune_prefix_None R y e Hy Hin); etrans.
Qed.

Lemma reverse_concat_runes {A} (ws : list (list A)) :
  reverse (concat ws) = concat (reverse (reverse <$> ws)).
Proof.
  induction ws as [|w ws IH]; [done|]. simpl.
  by rewrite reverse_app, IH, reverse_cons, concat_app; simpl; rewrite app_nil_r.
Qed.

Lemma runes_rev_Forall ws :
  Forall (λ e, e ∈ space_runes) ws →
  Forall (λ e, e ∈ space_runes_rev) (reverse (reverse <$> ws)).
Proof.
  intros Hws. apply Forall_reverse, Forall_fmap.
  eapply Forall_impl; [exact Hws|]. intros e He. simpl.
  by apply list_elem_of_fmap_2.
Qed.

Lemma runes_unrev_Forall ws :
  Forall (λ e, e ∈ space_runes_rev) ws →
  Forall (λ e, e ∈ space_runes) (reverse (reverse <$> ws)).
Proof.
  intros Hws. apply Forall_reverse, Forall_fmap.
  eapply Forall_impl; [exact Hws|]. intros e He. simpl.
  apply list_elem_of_fmap in He as (e' & -> & He'). by rewrite reverse_involutive.
Qed.

Lemma TrimRightSpace_app_runes x ws :
  Forall (λ e, e ∈ space_runes) ws → TrimRightSpace (x ++ concat ws) = TrimRightSpace x.
Proof.
  intros Hws. unfold TrimRightSpace.
  rewrite reverse_app, reverse_concat_runes, trim_left_concat; auto with judge.
  by apply runes_rev_Forall.
Qed.

Lemma TrimRightSpace_prefix x : TrimRightSpace x `prefix_of` x.
Proof.
  unfold TrimRightSpace. apply prefix_suffix_reverse.
  rewrite !reverse_involutive. apply trim_left_suffix; auto with judge.
Qed.

Lemma TrimRightSpace_idem x : TrimRightSpace (TrimRightSpace x) = TrimRightSpace x.
Proof.
  unfold TrimRightSpace. rewrite reverse_involutive, trim_left_idem; auto with judge.
Qed.

Lemma TrimLeftSpace_no_rune x : rune_prefix space_runes (TrimLeftSpace x) = None.
Proof. apply trim_left_no_rune; auto with judge. Qed.

(** Right-trimming a left-trimmed string leaves it left-trimmed. *)
Lemma TrimLeft_TrimRight_TrimLeft x :
  TrimLeftSpace (TrimRightSpace (TrimLeftSpace x)) = TrimRightSpace (TrimLeftSpace x).
Proof.
  apply trim_left_none; auto with judge.
  eapply rune_prefix_of_prefix; [apply TrimRightSpace_prefix | apply TrimLeftSpace_no_rune].
Qed.

Lemma TrimSpace_list s :
  list_ascii_of_string (TrimSpace s) = TrimRightSpace (TrimLeftSpace (list_ascii_of_string s)).
Proof. apply list_ascii_of_string_of_list_ascii. Qed.

Lemma string_eq_list s1 s2 : list_ascii_of_string s1 = list_ascii_of_string s2 → s1 = s2.
Proof.
  intros H. by rewrite <- (string_of_list_ascii_of_string s1), H, string_of_list_ascii_of_string.
Qed.

(** A string that [TrimSpace] maps to "" is made of white-space runes. *)
Lemma TrimSpace_empty_runes w :
  TrimSpace w = ""%string →
  ∃ ws, Forall (λ e, e ∈ space_runes) ws ∧ list_ascii_of_string w = concat ws.
Proof.
  intros Hw. apply (f_equal list_ascii_of_string) in Hw.
  rewrite TrimSpace_list in Hw. simpl in Hw.
  apply trim_left_nil_concat; auto with judge.
  set (y := TrimLeftSpace (list_ascii_of_string w)) in *.
  unfold TrimRightSpace in Hw. apply (f_equal reverse) in Hw.
  rewrite reverse_involutive in Hw. simpl in Hw.
  apply trim_left_nil_concat in Hw as (ws' & Hws' & Hy); auto with judge.
  apply (f_equal reverse) in Hy. rewrite reverse_involutive, reverse_concat_runes in Hy.
  pose proof (TrimLeftSpace_no_rune (list_ascii_of_string w)) as Hnone. fold y in Hnone.
  apply runes_unrev_Forall in Hws'.
  destruct (reverse (reverse <$> ws')) as [|e ws] eqn:E; [done|].
  apply Forall_cons in Hws' as [He _]. exfalso.
  apply (rune_prefix_None space_runes y e Hnone He). rewrite Hy. simpl.
  by apply prefix_app_r.
Qed.

(** ** [Sprintf] on [%s]-only formats *)

Lemma fmt_pieces_cons_nonempty fmt ps : fmt_pieces fmt = Some ps → ps ≠ [].
Proof.
  intros H ->. destruct fmt as [|c rest]; simpl in H; [discriminate|].
  repeat case_match; simplify_eq/=; destruct (fmt_pieces _) as [[]|]; simplify_eq/=.
Qed.

(** With one argument per [%s], [Sprintf] splices the arguments between
    the literal pieces, in order, and reports nothing extra. *)
Lemma sprintf_loop_pieces fmt ps args :
  fmt_pieces fmt = Some ps → length ps = S (length args) →
  sprintf_loop fmt args = (interleave ps args, []).
Proof.
  remember (length fmt) as n eqn:Hn. assert (Hle : length fmt ≤ n) by lia. clear Hn.
  revert fmt ps args Hle. induction n as [|n IH]; intros fmt ps args Hle Hp Hlen.
  { destruct fmt; [|simpl in Hle; lia]. simpl in Hp. simplify_eq.
    destruct args; [done | simpl in Hlen; lia]. }
  destruct fmt as [|c rest]; simpl in Hp.
  { simplify_eq. destruct args; [done | simpl in Hlen; lia]. }
  simpl in Hle. simpl. destruct (decide (c = "%"%char)) as [Hc|Hc].
  - destruct rest as [|v rest']; [congruence|].
    destruct (decide (v = "s"%char)) as [Hv|Hv]; [|congruence].
    destruct (fmt_pieces rest') as [ps'|] eqn:E; simplify_eq/=.
    destruct args as [|a args].
    { pose proof (fmt_pieces_cons_nonempty _ _ E). destruct ps'; simpl in *; [done | lia]. }
    rewrite (IH rest' ps' args); [by destruct ps' | lia | exact E | simpl in Hlen; lia].
  - destruct (fmt_pieces rest) as [ps'|] eqn:E; simplify_eq/=.
    destruct ps' as [|p ps'']; simplify_eq/=.
    rewrite (IH rest (p :: ps'') args); [|lia | exact E | simpl; lia].
    destruct args as [|a args], ps''; simpl in *; done || lia.
Qed.

Lemma Sprintf_pieces format ps args :
  fmt_pieces (list_ascii_of_string format) = Some ps → length ps = S (length args) →
  list_ascii_of_string (Sprintf format args) = interleave ps args.
Proof.
  intros Hp Hlen. unfold Sprintf. rewrite (sprintf_loop_pieces _ ps args Hp Hlen).
  by rewrite list_ascii_of_string_app, list_ascii_of_string_of_list_ascii, app_nil_r.
Qed.

(** [Sprintf "%s" [a]] is [a], whatever [a] contains. *)
Lemma Sprintf_s a : Sprintf "%s" [a] = a.
Proof.
  apply string_eq_list. rewrite (Sprintf_pieces _ [[]; []]) by done. simpl.
  by rewrite app_nil_r.
Qed.

(** ** Properties of [TrimSpace] *)

(** [strings.TrimSpace] is idempotent: trimming the output or the
    expected value twice compares the same as trimming once. *)
Theorem TrimSpace_idempotent s : TrimSpace (TrimSpace s) = TrimSpace s.
Proof.
  apply string_eq_list. rewrite !TrimSpace_list.
  by rewrite TrimLeft_TrimRight_TrimLeft, TrimRightSpace_idem.
Qed.

(** White space at the ends is insignificant: padding a string on
    either side with strings that [TrimSpace] maps to "" (any mix of
    ASCII and Unicode white-space runes) does not change its trimmed
    form (spec §4.3 rule 3, §8). *)
Theorem TrimSpace_pad w1 s w2 :
  TrimSpace w1 = ""%string → TrimSpace w2 = ""%string →
  TrimSpace (w1 ++ s ++ w2) = TrimSpace s.
Proof.
  intros (ws1 & Hws1 & H1)%TrimSpace_empty_runes (ws2 & Hws2 & H2)%TrimSpace_empty_runes.
  apply string_eq_list. rewrite !TrimSpace_list, !list_ascii_of_string_app, H1, H2.
  unfold TrimLeftSpace. rewrite trim_left_concat; auto with judge.
  destruct (decide (trim_left space_runes (list_ascii_of_string s) = [])) as [Hnil|Hne].
  - rewrite Hnil. apply trim_left_nil_concat in Hnil as (wss & Hwss & Hs); auto with judge.
    rewrite Hs, <- concat_app, <- (app_nil_r (concat (wss ++ ws2))).
    rewrite trim_left_concat by first [by apply Forall_app | auto with judge].
    rewrite trim_left_none; auto with judge.
  - rewrite trim_left_app_clean by auto with judge. by apply TrimRightSpace_app_runes.
Qed.

(** [TrimSpace] leaves a string unchanged exactly when the string
    neither starts nor ends with a white-space rune.  Inner white space
    is never touched, so "1,2" and "1, 2" stay different. *)
Theorem TrimSpace_fixed_iff s :
  TrimSpace s = s ↔
    rune_prefix space_runes (list_ascii_of_string s) = None ∧
    rune_prefix space_runes_rev (reverse (list_ascii_of_string s)) = None.
Proof.
  split.
  - intros Hfix. apply (f_equal list_ascii_of_string) in Hfix.
    rewrite TrimSpace_list in Hfix. rewrite <- Hfix. split.
    + rewrite <- TrimLeft_TrimRight_TrimLeft. apply TrimLeftSpace_no_rune.
    + unfold TrimRightSpace. rewrite reverse_involutive.
      apply trim_left_no_rune; auto with judge.
  - intros [Hl Hr]. apply string_eq_list. rewrite TrimSpace_list.
    unfold TrimLeftSpace, TrimRightSpace.
    rewrite (trim_left_none space_runes); auto with judge.
    rewrite (trim_left_none space_runes_rev); auto with judge.
    apply reverse_involutive.
Qed.

(** ** Witnesses *)

(** U+00A0, no-break space, as UTF-8. *)
Definition nbsp : string := String (byte 0xC2) (String (byte 0xA0) EmptyString).
Definition newline : string := String (byte 10) EmptyString.

(** Output padded with a no-break space in front and a newline behind
    trims to the bare value. *)
Lemma TrimSpace_pad_example :
  TrimSpace (nbsp ++ "[0,1]" ++ newline)%string = "[0,1]"%string.
Proof. rewrite TrimSpace_pad; [reflexivity | vm_compute; reflexivity | vm_compute; reflexivity]. Defined.

(** "1, 2" is already trimmed: its inner space stays, so it never equals
    the trimmed "1,2". *)
Lemma TrimSpace_fixed_iff_example :
  TrimSpace "1, 2" = "1, 2"%string ∧ TrimSpace "1,2" ≠ TrimSpace "1, 2".
Proof.
  split; [apply TrimSpace_fixed_iff; split; vm_compute; reflexivity | vm_compute; discriminate].
Defined.

End GoStrings.
