(* ===== verification/AppErrors.v ===== *)
(** * Application errors (pkg/apperrors/errors.go)

    [AppError] carries a code, a message and an optional wrapped error.
    Its [Error()] text is built with [fmt.Sprintf], modelled in
    [GoStrings.v].  A wrapped [error] is represented by the text of its
    own [Error()], and a nil one by [None]. *)

From S2P Require Import Prelude GoStrings.

Module AppErrors.

Import GoStrings.

Record AppError := mkAppError {
  AE_Code : string;
  AE_Message : string;
  AE_Err : option string
}.

Definition ErrCodeNotFound : string := "NOT_FOUND".
Definition ErrCodeValidation : string := "VALIDATION".
Definition ErrCodeInternal : string := "INTERNAL".
Definition ErrCodeUnauthorized : string := "UNAUTHORIZED".

(** [e.Error()]: ["%s: %s - %v"] with a wrapped error, ["%s: %s"]
    without. *)
Definition AppError_Error (e : AppError) : string :=
  match AE_Err e with
  | Some err => Sprintf "%s: %s - %v" [AE_Code e; AE_Message e; err]
  | None => Sprintf "%s: %s" [AE_Code e; AE_Message e]
  end.

(** [e.Unwrap()]. *)
Definition AppError_Unwrap (e : AppError) : option string := AE_Err e.

Definition NewNotFound (message : string) : AppError :=
  {| AE_Code := ErrCodeNotFound; AE_Message := message; AE_Err := None |}.

Definition NewValidation (message : string) : AppError :=
  {| AE_Code := ErrCodeValidation; AE_Message := message; AE_Err := None |}.

Definition NewInternal (message : string) (err : option string) : AppError :=
  {| AE_Code := ErrCodeInternal; AE_Message := message; AE_Err := err |}.

(** ** Claims *)

(** [Error()] is the code, a colon and a space, the message, and,
    when an error is wrapped, a spaced dash and the wrapped error's
    text.  The text is spliced verbatim, whatever it contains. *)
Theorem AppError_Error_format e :
  list_ascii_of_string (AppError_Error e) =
    list_ascii_of_string (AE_Code e) ++ list_ascii_of_string ": " ++
    list_ascii_of_string (AE_Message e) ++
    match AE_Err e with
    | Some err => list_ascii_of_string " - " ++ list_ascii_of_string err
    | None => []
    end.
Proof.
  unfold AppError_Error, Sprintf.
  destruct (AE_Err e) as [err|]; simpl;
    rewrite list_ascii_of_string_app, list_ascii_of_string_of_list_ascii; simpl;
    rewrite ?app_nil_r, <- ?app_assoc; done.
Qed.

(** A witness: an internal error that wraps "disk full". *)
Lemma AppError_Error_format_witness :
  list_ascii_of_string (AppError_Error (NewInternal "save failed" (Some "disk full"))) =
    list_ascii_of_string "INTERNAL: save failed - disk full".
Proof. rewrite AppError_Error_format. reflexivity. Defined.

End AppErrors.
