(* ===== verification/Json.v ===== *)
(** * JSON text as Go's encoding/json writes and reads it

    The submission table keeps a submission's test results as the JSON
    text [json.Marshal] produces, and reads them back with
    [json.Unmarshal] (persistence/sqlite/submission_repo.go).  The HTTP
    layer answers with [json.Marshal] of its response structs.  This
    file models the library (it is not under src/) at the level of JSON
    values:
    - [JValue] is a JSON value.  A number keeps its literal text, as
      [json.Number] does.
    - [encode] is the compact form [json.Marshal] writes.  Strings are
      escaped by Go's [appendString] with HTML escaping on (Go 1.22 and
      later): a backslash before the double quote and the backslash,
      the escapes [\b], [\f], [\n], [\r] and [\t], [\u00XX] for the other control bytes and for [<], [>] and [&],
      [\ufffd] for a byte that starts no valid UTF-8 sequence, and
      [\u2028] and [\u2029].
    - [decode] is [json.Unmarshal]'s reading of the text: the scanner's
      grammar (a value, then only white space), the string unquoting of
      [unquoteBytes], including surrogate pairs and the coercion of
      invalid UTF-8 to U+FFFD.  Numbers are scanned by the JSON number
      grammar.
    Integers are printed in decimal by [itoa] ([strconv.AppendInt]) and
    read by [parse_int64] ([strconv.ParseInt(s, 10, 64)]).

    UTF-8 is read the way [utf8.DecodeRune] reads it: [utf8_len] accepts
    exactly the well-formed sequences (no overlongs, no surrogates,
    nothing above U+10FFFF), and [chunks] splits a byte string into
    ASCII bytes, well-formed multi-byte runes and stray bytes. *)

From S2P Require Import Prelude.

Module Json.

Definition b2n (b : ascii) : N := N_of_ascii b.
Definition chr (n : N) : ascii := ascii_of_N n.

Inductive JValue :=
  | JNull
  | JBool (b : bool)
  | JNumber (lit : string)
  | JString (s : string)
  | JArray (vs : list JValue)
  | JObject (kvs : list (string * JValue)).

(** ** UTF-8, as [utf8.DecodeRune] reads it *)

Definition is_cont (b : ascii) : bool := bool_decide (0x80 ≤ b2n b < 0xC0)%N.
Definition in_range (lo hi : N) (b : ascii) : bool := bool_decide (lo ≤ b2n b ≤ hi)%N.

(** The length of the well-formed rune at the head of [s], or [None]
    when [DecodeRune] returns [(RuneError, 1)] there. *)
Definition utf8_len (s : list ascii) : option nat :=
  match s with
  | [] => None
  | b0 :: r =>
      let x := b2n b0 in
      if bool_decide (x < 0x80)%N then Some 1
      else if bool_decide (x < 0xC2)%N then None
      else if bool_decide (x < 0xE0)%N then
        match r with b1 :: _ => if is_cont b1 then Some 2 else None | _ => None end
      else if bool_decide (x < 0xF0)%N then
        match r with
        | b1 :: b2 :: _ =>
            let ok1 := if bool_decide (x = 0xE0)%N then in_range 0xA0 0xBF b1
                       else if bool_decide (x = 0xED)%N then in_range 0x80 0x9F b1
                       else is_cont b1 in
            if ok1 && is_cont b2 then Some 3 else None
        | _ => None
        end
      else if bool_decide (x < 0xF5)%N then
        match r with
        | b1 :: b2 :: b3 :: _ =>
            let ok1 := if bool_decide (x = 0xF0)%N then in_range 0x90 0xBF b1
                       else if bool_decide (x = 0xF4)%N then in_range 0x80 0x8F b1
                       else is_cont b1 in
            if ok1 && is_cont b2 && is_cont b3 then Some 4 else None
        | _ => None
        end
      else None
  end.

(** The pieces a UTF-8 scan meets, one per step of Go's loops. *)
Inductive chunk :=
  | CAscii (b : ascii)
  | CRune (bs : list ascii)
  | CBad (b : ascii).

Fixpoint chunks_fuel (fuel : nat) (s : list ascii) : list chunk :=
  match fuel, s with
  | _, [] => []
  | O, _ => []
  | S f, b :: s' =>
      if bool_decide (b2n b < 0x80)%N then CAscii b :: chunks_fuel f s'
      else match utf8_len s with
           | Some n => CRune (take n s) :: chunks_fuel f (drop n s)
           | None => CBad b :: chunks_fuel f s'
           end
  end.

Definition chunks (s : list ascii) : list chunk := chunks_fuel (length s) s.

Definition chunk_bytes (c : chunk) : list ascii :=
  match c with CAscii b => [b] | CRune bs => bs | CBad b => [b] end.

(** U+FFFD, as UTF-8. *)
Definition replacement : list ascii := [chr 0xEF; chr 0xBF; chr 0xBD].

(** What a decoder makes of a chunk: stray bytes become U+FFFD. *)
Definition san_chunk (c : chunk) : list ascii :=
  match c with CAscii b => [b] | CRune bs => bs | CBad _ => replacement end.

Definition utf8_sanitize (s : list ascii) : list ascii := concat (san_chunk <$> chunks s).

Definition is_bad (c : chunk) : bool := match c with CBad _ => true | _ => false end.

(** Well-formed UTF-8: the scan meets no stray byte. *)
Definition utf8_valid (s : list ascii) : bool := forallb (negb ∘ is_bad) (chunks s).

(** ** Encoding: [appendString] with [escapeHTML] *)

Definition hexd (n : N) : ascii := chr (if bool_decide (n < 10)%N then 48 + n else 87 + n)%N.

(** [htmlSafeSet]: printable ASCII but the double quote, the backslash, [<], [>] and [&]. *)
Definition html_safe (x : N) : bool :=
  bool_decide (32 ≤ x ∧ x ≠ 34 ∧ x ≠ 92 ∧ x ≠ 60 ∧ x ≠ 62 ∧ x ≠ 38)%N.

Definition esc_ascii (b : ascii) : list ascii :=
  let x := b2n b in
  if html_safe x then [b]
  else if bool_decide (x = 92 ∨ x = 34)%N then [chr 92; b]
  else if bool_decide (x = 8)%N then [chr 92; chr 98]
  else if bool_decide (x = 12)%N then [chr 92; chr 102]
  else if bool_decide (x = 10)%N then [chr 92; chr 110]
  else if bool_decide (x = 13)%N then [chr 92; chr 114]
  else if bool_decide (x = 9)%N then [chr 92; chr 116]
  else [chr 92; chr 117; chr 48; chr 48; hexd (x / 16); hexd (x mod 16)].

(** U+2028 and U+2029, the only runes above ASCII that are escaped. *)
Definition line_sep (bs : list ascii) : option N :=
  match bs with
  | [b0; b1; b2] =>
      if bool_decide (b2n b0 = 0xE2 ∧ b2n b1 = 0x80 ∧ (b2n b2 = 0xA8 ∨ b2n b2 = 0xA9))%N
      then Some (b2n b2 - 0xA0)%N else None
  | _ => None
  end.

Definition esc_chunk (c : chunk) : list ascii :=
  match c with
  | CAscii b => esc_ascii b
  | CRune bs =>
      match line_sep bs with
      | Some d => [chr 92; chr 117; chr 50; chr 48; chr 50; hexd d]
      | None => bs
      end
  | CBad _ => [chr 92; chr 117; chr 102; chr 102; chr 102; chr 100]
  end.

Definition quote : ascii := chr 34.

Definition encode_string (s : string) : list ascii :=
  quote :: concat (esc_chunk <$> chunks (list_ascii_of_string s)) ++ [quote].

Fixpoint join_with (sep : list ascii) (xs : list (list ascii)) : list ascii :=
  match xs with
  | [] => []
  | [x] => x
  | x :: xs' => x ++ sep ++ join_with sep xs'
  end.

(** [json.Marshal]'s compact text. *)
Fixpoint encode (v : JValue) : list ascii :=
  match v with
  | JNull => list_ascii_of_string "null"
  | JBool true => list_ascii_of_string "true"
  | JBool false => list_ascii_of_string "false"
  | JNumber lit => list_ascii_of_string lit
  | JString s => encode_string s
  | JArray vs => chr 91 :: join_with [chr 44] (List.map encode vs) ++ [chr 93]
  | JObject kvs =>
      chr 123 :: join_with [chr 44]
        (List.map (λ kv, encode_string kv.1 ++ chr 58 :: encode kv.2) kvs) ++ [chr 125]
  end.

Definition Marshal (v : JValue) : string := string_of_list_ascii (encode v).

(** ** Integers: [strconv.AppendInt] and [strconv.ParseInt] *)

Definition digit (n : N) : ascii := chr (48 + n).

Fixpoint utoa_go (fuel : nat) (n : N) (acc : list ascii) : list ascii :=
  match fuel with
  | O => acc
  | S f => if bool_decide (n < 10)%N then digit n :: acc
           else utoa_go f (n / 10) (digit (n mod 10) :: acc)
  end.

Definition utoa (n : N) : list ascii := utoa_go (N.to_nat (N.log2 n) + 1) n [].

Definition itoa (z : Z) : list ascii :=
  match z with
  | Zneg p => chr 45 :: utoa (Npos p)
  | _ => utoa (Z.to_N z)
  end.

Definition is_digit (b : ascii) : bool := bool_decide (48 ≤ b2n b ≤ 57)%N.

Fixpoint digits_value (acc : N) (ds : list ascii) : N :=
  match ds with [] => acc | d :: ds' => digits_value (acc * 10 + (b2n d - 48))%N ds' end.

(** [strconv.ParseInt(s, 10, 64)]: an optional sign, at least one digit,
    and the value in range. *)
Definition parse_int64 (s : list ascii) : option Z :=
  let '(neg, ds) := match s with
                    | b :: r => if bool_decide (b2n b = 45)%N then (true, r)
                                else if bool_decide (b2n b = 43)%N then (false, r)
                                else (false, s)
                    | [] => (false, [])
                    end in
  if bool_decide (ds ≠ [] ∧ Forall (λ d, is_digit d = true) ds) then
    let z := if neg then (- Z.of_N (digits_value 0 ds))%Z else Z.of_N (digits_value 0 ds) in
    if bool_decide (int_min ≤ z ≤ int_max)%Z then Some z else None
  else None.

(** ** Decoding: the scanner's grammar and [unquoteBytes] *)

(** JSON white space. *)
Definition is_ws (b : ascii) : bool := bool_decide (b2n b = 32 ∨ b2n b = 9 ∨ b2n b = 10 ∨ b2n b = 13)%N.

Fixpoint skip_ws (s : list ascii) : list ascii :=
  match s with b :: s' => if is_ws b then skip_ws s' else s | [] => [] end.

Definition hexval (b : ascii) : option N :=
  let x := b2n b in
  if bool_decide (48 ≤ x ≤ 57)%N then Some (x - 48)%N
  else if bool_decide (97 ≤ x ≤ 102)%N then Some (x - 87)%N
  else if bool_decide (65 ≤ x ≤ 70)%N then Some (x - 55)%N
  else None.

(** [getu4]'s reading of the four hex digits after [\u]. *)
Definition hex4 (s : list ascii) : option (N * list ascii) :=
  match s with
  | a :: b :: c :: d :: r =>
      x1 ← hexval a; x2 ← hexval b; x3 ← hexval c; x4 ← hexval d;
      Some (((x1 * 16 + x2) * 16 + x3) * 16 + x4, r)%N
  | _ => None
  end.

(** [utf8.EncodeRune]: surrogates and values past U+10FFFF become U+FFFD. *)
Definition utf8_encode (r : N) : list ascii :=
  if bool_decide (r < 0x80)%N then [chr r]
  else if bool_decide (r < 0x800)%N then [chr (0xC0 + r / 64); chr (0x80 + r mod 64)]
  else if bool_decide (0xD800 ≤ r ≤ 0xDFFF)%N then replacement
  else if bool_decide (r < 0x10000)%N then
    [chr (0xE0 + r / 4096); chr (0x80 + (r / 64) mod 64); chr (0x80 + r mod 64)]
  else if bool_decide (r ≤ 0x10FFFF)%N then
    [chr (0xF0 + r / 262144); chr (0x80 + (r / 4096) mod 64);
     chr (0x80 + (r / 64) mod 64); chr (0x80 + r mod 64)]
  else replacement.

Definition is_byte (n : N) (b : ascii) : bool := bool_decide (b2n b = n).

Definition app_fst {A B} (x : list A) (r : option (list A * B)) : option (list A * B) :=
  (λ '(y, b), (x ++ y, b)) <$> r.

(** The body of a string literal up to its closing quote: its bytes
    unquoted, and what follows.  [None] where the scanner rejects the
    text: an unknown escape, a bad [\u] or a control byte. *)
Fixpoint parse_str (fuel : nat) (s : list ascii) : option (list ascii * list ascii) :=
  match fuel with
  | O => None
  | S f =>
    match s with
    | [] => None
    | b :: s' =>
      let x := b2n b in
      if bool_decide (x = 34)%N then Some ([], s')
      else if bool_decide (x = 92)%N then
        match s' with
        | [] => None
        | c :: s'' =>
          let y := b2n c in
          if bool_decide (y = 34 ∨ y = 92 ∨ y = 47)%N then app_fst [c] (parse_str f s'')
          else if bool_decide (y = 98)%N then app_fst [chr 8] (parse_str f s'')
          else if bool_decide (y = 102)%N then app_fst [chr 12] (parse_str f s'')
          else if bool_decide (y = 110)%N then app_fst [chr 10] (parse_str f s'')
          else if bool_decide (y = 114)%N then app_fst [chr 13] (parse_str f s'')
          else if bool_decide (y = 116)%N then app_fst [chr 9] (parse_str f s'')
          else if bool_decide (y = 117)%N then
            match hex4 s'' with
            | None => None
            | Some (r, s3) =>
              if bool_decide (0xD800 ≤ r < 0xE000)%N then
                match s3 with
                | b1 :: b2 :: s4 =>
                    match (if is_byte 92 b1 && is_byte 117 b2 then hex4 s4 else None) with
                    | Some (r2, s5) =>
                        if bool_decide (0xD800 ≤ r < 0xDC00 ∧ 0xDC00 ≤ r2 < 0xE000)%N
                        then app_fst (utf8_encode ((r - 0xD800) * 1024 + (r2 - 0xDC00) + 0x10000))
                               (parse_str f s5)
                        else app_fst replacement (parse_str f s3)
                    | None => app_fst replacement (parse_str f s3)
                    end
                | _ => app_fst replacement (parse_str f s3)
                end
              else app_fst (utf8_encode r) (parse_str f s3)
            end
          else None
        end
      else if bool_decide (x < 32)%N then None
      else if bool_decide (x < 128)%N then app_fst [b] (parse_str f s')
      else match utf8_len s with
           | Some n => app_fst (take n s) (parse_str f (drop n s))
           | None => app_fst replacement (parse_str f s')
           end
    end
  end.

Fixpoint span_digits (s : list ascii) : list ascii * list ascii :=
  match s with
  | d :: s' => if is_digit d then let '(ds, r) := span_digits s' in (d :: ds, r) else ([], s)
  | [] => ([], [])
  end.

(** One or more digits. *)
Definition digits1 (s : list ascii) : option (list ascii * list ascii) :=
  let '(ds, r) := span_digits s in if bool_decide (ds = []) then None else Some (ds, r).

(** The stages of a number literal
    [-? (0 | [1-9][0-9]* ) (. [0-9]+)? ([eE] [+-]? [0-9]+)?]. *)
Definition scan_sign (s : list ascii) : list ascii * list ascii :=
  match s with
  | b :: r => if is_byte 45 b then ([b], r) else ([], s)
  | [] => ([], [])
  end.

Definition scan_int (s : list ascii) : option (list ascii * list ascii) :=
  match s with
  | d :: r => if is_byte 48 d then Some ([d], r)
              else if is_digit d then let '(ds, r') := span_digits r in Some (d :: ds, r')
              else None
  | [] => None
  end.

Definition scan_frac (s : list ascii) : option (list ascii * list ascii) :=
  match s with
  | p :: r => if is_byte 46 p then '(ds, r') ← digits1 r; Some (p :: ds, r') else Some ([], s)
  | [] => Some ([], [])
  end.

Definition scan_exp (s : list ascii) : option (list ascii * list ascii) :=
  match s with
  | e :: r =>
      if is_byte 101 e || is_byte 69 e then
        let '(sg, r1) := match r with
                         | g :: r' => if is_byte 43 g || is_byte 45 g then ([g], r') else ([], r)
                         | [] => ([], [])
                         end in
        '(ds, r') ← digits1 r1; Some (e :: sg ++ ds, r')
      else Some ([], s)
  | [] => Some ([], [])
  end.

(** A number literal, and what follows it. *)
Definition scan_number (s : list ascii) : option (list ascii * list ascii) :=
  let '(sign, s1) := scan_sign s in
  '(ip, s2) ← scan_int s1;
  '(fp, s3) ← scan_frac s2;
  '(ep, s4) ← scan_exp s3;
  Some (sign ++ ip ++ fp ++ ep, s4).

Definition prefix_of (w : string) (s : list ascii) : option (list ascii) :=
  let l := list_ascii_of_string w in
  if bool_decide (take (length l) s = l) then Some (drop (length l) s) else None.

Fixpoint parse_value (fuel : nat) (s : list ascii) : option (JValue * list ascii) :=
  match fuel with
  | O => None
  | S f =>
    match skip_ws s with
    | [] => None
    | b :: s' =>
      let x := b2n b in
      if bool_decide (x = 110)%N then r ← prefix_of "ull" s'; Some (JNull, r)
      else if bool_decide (x = 116)%N then r ← prefix_of "rue" s'; Some (JBool true, r)
      else if bool_decide (x = 102)%N then r ← prefix_of "alse" s'; Some (JBool false, r)
      else if bool_decide (x = 34)%N then
        '(str, r) ← parse_str f s'; Some (JString (string_of_list_ascii str), r)
      else if bool_decide (x = 91)%N then
        match skip_ws s' with
        | c :: r => if is_byte 93 c then Some (JArray [], r)
                    else '(vs, r') ← parse_elems f s'; Some (JArray vs, r')
        | [] => None
        end
      else if bool_decide (x = 123)%N then
        match skip_ws s' with
        | c :: r => if is_byte 125 c then Some (JObject [], r)
                    else '(kvs, r') ← parse_members f s'; Some (JObject kvs, r')
        | [] => None
        end
      else if bool_decide (x = 45 ∨ 48 ≤ x ≤ 57)%N then
        '(lit, r) ← scan_number (b :: s'); Some (JNumber (string_of_list_ascii lit), r)
      else None
    end
  end
with parse_elems (fuel : nat) (s : list ascii) : option (list JValue * list ascii) :=
  match fuel with
  | O => None
  | S f =>
    '(v, r) ← parse_value f s;
    match skip_ws r with
    | c :: r' => if is_byte 44 c then '(vs, r'') ← parse_elems f r'; Some (v :: vs, r'')
                 else if is_byte 93 c then Some ([v], r')
                 else None
    | [] => None
    end
  end
with parse_members (fuel : nat) (s : list ascii) : option (list (string * JValue) * list ascii) :=
  match fuel with
  | O => None
  | S f =>
    match skip_ws s with
    | q :: r =>
      if is_byte 34 q then
        '(k, r1) ← parse_str f r;
        match skip_ws r1 with
        | c :: r2 =>
          if is_byte 58 c then
            '(v, r3) ← parse_value f r2;
            match skip_ws r3 with
            | d :: r4 => if is_byte 44 d then
                           '(kvs, r5) ← parse_members f r4;
                           Some ((string_of_list_ascii k, v) :: kvs, r5)
                         else if is_byte 125 d then Some ([(string_of_list_ascii k, v)], r4)
                         else None
            | [] => None
            end
          else None
        | [] => None
        end
      else None
    | [] => None
    end
  end.

(** The text [json.Unmarshal] accepts: one value, then white space. *)
Definition decode (text : string) : option JValue :=
  let s := list_ascii_of_string text in
  match parse_value (S (length s)) s with
  | Some (v, r) => if bool_decide (skip_ws r = []) then Some v else None
  | None => None
  end.

(** ** What a round trip preserves *)

Definition sanitize_str (s : string) : string :=
  string_of_list_ascii (utf8_sanitize (list_ascii_of_string s)).

(** A value with every string replaced by what decoding its encoding
    yields. *)
Fixpoint sanitize (v : JValue) : JValue :=
  match v with
  | JString s => JString (sanitize_str s)
  | JArray vs => JArray (List.map sanitize vs)
  | JObject kvs => JObject (List.map (λ kv, (sanitize_str kv.1, sanitize kv.2)) kvs)
  | _ => v
  end.

(** Number literals that are whole JSON numbers. *)
Fixpoint wf_json (v : JValue) : bool :=
  match v with
  | JNumber lit => bool_decide (scan_number (list_ascii_of_string lit) =
                                Some (list_ascii_of_string lit, []))
  | JArray vs => forallb wf_json vs
  | JObject kvs => forallb (λ kv, wf_json kv.2) kvs
  | _ => true
  end.

(** Strings that are well-formed UTF-8, everywhere in a value. *)
Fixpoint utf8_json (v : JValue) : bool :=
  match v with
  | JString s => utf8_valid (list_ascii_of_string s)
  | JArray vs => forallb utf8_json vs
  | JObject kvs => forallb (λ kv, utf8_valid (list_ascii_of_string kv.1) && utf8_json kv.2) kvs
  | _ => true
  end.

(** Induction over values, with a hypothesis for each element of an
    array or member of an object. *)
Section JValue_rect.
Variable P : JValue → Prop.
Hypothesis HNull : P JNull.
Hypothesis HBool : ∀ b, P (JBool b).
Hypothesis HNumber : ∀ lit, P (JNumber lit).
Hypothesis HString : ∀ s, P (JString s).
Hypothesis HArray : ∀ vs, Forall P vs → P (JArray vs).
Hypothesis HObject : ∀ kvs, Forall (λ kv, P kv.2) kvs → P (JObject kvs).

Fixpoint JValue_ind' (v : JValue) : P v :=
  match v with
  | JNull => HNull
  | JBool b => HBool b
  | JNumber lit => HNumber lit
  | JString s => HString s
  | JArray vs =>
      HArray vs ((fix go (l : list JValue) : Forall P l :=
                    match l with
                    | [] => Forall_nil_2 _
                    | x :: l' => Forall_cons_2 _ x l' (JValue_ind' x) (go l')
                    end) vs)
  | JObject kvs =>
      HObject kvs ((fix go (l : list (string * JValue)) : Forall (λ kv, P kv.2) l :=
                      match l with
                      | [] => Forall_nil_2 _
                      | kv :: l' => Forall_cons_2 _ kv l' (JValue_ind' kv.2) (go l')
                      end) kvs)
  end.
End JValue_rect.

(** ** Lemmas *)

Local Arguments utf8_len : simpl never.


Lemma utf8_len_bounds s n :
  utf8_len s = Some n → 1 ≤ n ≤ length s ∧ (n = 1 ↔ ∃ b r, s = b :: r ∧ (b2n b < 0x80)%N).
Proof.
  unfold utf8_len. destruct s as [|b0 [|b1 [|b2 [|b3 r]]]]; [done|..];
    repeat (case_bool_decide || case_match); intros; simplify_eq; simpl; split; try lia;
    split; intros; try naive_solver lia.
Qed.

Lemma utf8_len_app bs t :
  utf8_len bs = Some (length bs) → utf8_len (bs ++ t) = Some (length bs).
Proof.
  unfold utf8_len. destruct bs as [|b0 [|b1 [|b2 [|b3 [|b4 r]]]]]; [done|..]; simpl;
    repeat (case_bool_decide || case_match); intros; simplify_eq; try done.
Qed.

Lemma utf8_len_take s n : utf8_len s = Some n → utf8_len (take n s) = Some n.
Proof.
  intros H. pose proof (utf8_len_bounds _ _ H) as [[Hn1 Hn2] _]. revert H.
  destruct s as [|b0 [|b1 [|b2 [|b3 r]]]]; simpl in Hn2; try lia;
    destruct n as [|[|[|[|[|n]]]]]; try lia; cbn [firstn]; unfold utf8_len;
    repeat (case_bool_decide || case_match); intros; simplify_eq; done.
Qed.

(** The chunks a scan produces. *)
Definition proper_chunk (c : chunk) : Prop :=
  match c with
  | CAscii b => (b2n b < 0x80)%N
  | CRune bs => utf8_len bs = Some (length bs) ∧ 2 ≤ length bs
  | CBad b => (0x80 ≤ b2n b)%N
  end.

Lemma chunks_fuel_spec f s :
  length s ≤ f →
  concat (chunk_bytes <$> chunks_fuel f s) = s ∧ Forall proper_chunk (chunks_fuel f s).
Proof.
  revert s. induction f as [|f IH]; intros [|b s] Hl; simpl in *; try ((split; [done|constructor]) || lia).
  case_bool_decide.
  { destruct (IH s) as [H1 H2]; [lia|]. csimpl. rewrite H1. split; [done|by constructor]. }
  destruct (utf8_len (b :: s)) as [n|] eqn:Hu.
  - pose proof (utf8_len_bounds _ _ Hu) as ([Hn1 Hn2] & Hn3). simpl in Hn2.
    destruct (IH (drop n (b :: s))) as [H1 H2]; [rewrite length_drop; simpl; lia|].
    csimpl. rewrite H1, take_drop. split; [done|]. constructor; [|done]. simpl.
    assert (n ≠ 1) by (intros ->; destruct Hn3 as [[b' [r [[= <- <-] ?]]] _]; done).
    rewrite length_take_le by (simpl; lia). split; [by apply utf8_len_take | lia].
  - destruct (IH s) as [H1 H2]; [lia|]. csimpl. rewrite H1. split; [done|].
    constructor; [simpl; lia|done].
Qed.

Lemma chunks_spec s : concat (chunk_bytes <$> chunks s) = s ∧ Forall proper_chunk (chunks s).
Proof. by apply chunks_fuel_spec. Qed.

Lemma chr_b2n b : chr (b2n b) = b.
Proof. apply ascii_N_embedding. Qed.

Lemma esc_ascii_parse b f t :
  (b2n b < 0x80)%N → parse_str (S f) (esc_ascii b ++ t) = app_fst [b] (parse_str f t).
Proof.
  intros H. destruct b as [[] [] [] [] [] [] [] []]; vm_compute in H; try discriminate;
    reflexivity.
Qed.

Lemma utf8_len_head bs : utf8_len bs = Some (length bs) → 2 ≤ length bs →
  ∃ b0 bs', bs = b0 :: bs' ∧ (0x80 ≤ b2n b0)%N.
Proof.
  intros H Hl. pose proof (utf8_len_bounds _ _ H) as [_ Hn].
  destruct bs as [|b0 bs']; [simpl in Hl; lia|]. exists b0, bs'. split; [done|].
  destruct (decide (b2n b0 < 0x80)%N) as [Hb|Hb]; [|lia].
  assert (length (b0 :: bs') = 1) by (apply Hn; eauto). lia.
Qed.

Lemma esc_chunk_parse c f t :
  proper_chunk c → parse_str (S f) (esc_chunk c ++ t) = app_fst (san_chunk c) (parse_str f t).
Proof.
  destruct c as [b|bs|b]; simpl; intros Hc.
  - by apply esc_ascii_parse.
  - destruct Hc as [Hu Hl]. destruct (line_sep bs) as [d|] eqn:Hs.
    + destruct bs as [|b0 [|b1 [|b2 []]]]; simpl in Hs; try discriminate.
      case_bool_decide as Hb; [|discriminate]. injection Hs as <-.
      destruct Hb as (H0 & H1 & [H2|H2]);
        rewrite <- (chr_b2n b0), <- (chr_b2n b1), <- (chr_b2n b2), H0, H1, H2; reflexivity.
    + destruct (utf8_len_head bs Hu Hl) as (b0 & bs' & -> & Hb).
      cbn [parse_str app]. change (b0 :: bs' ++ t) with ((b0 :: bs') ++ t).
      repeat (rewrite bool_decide_false by lia).
      rewrite (utf8_len_app (b0 :: bs') t Hu).
      rewrite take_app_length, drop_app_length. done.
  - reflexivity.
Qed.

Lemma esc_chunks_parse cs f t :
  Forall proper_chunk cs → length cs ≤ f →
  parse_str (S f) (concat (esc_chunk <$> cs) ++ quote :: t) = Some (concat (san_chunk <$> cs), t).
Proof.
  intros Hcs. revert f. induction Hcs as [|c cs Hc Hcs IH]; intros f Hf; [reflexivity|].
  destruct f as [|f]; simpl in Hf; [lia|]. rewrite !fmap_cons, !concat_cons, <- app_assoc.
  rewrite esc_chunk_parse by done. rewrite IH by lia. done.
Qed.

Lemma chunks_length s : length (chunks s) ≤ length s.
Proof.
  destruct (chunks_spec s) as [Hc Hp]. rewrite <- Hc at 2. clear Hc.
  induction Hp as [|c cs Hc Hp IH]; csimpl; [done|]. rewrite length_app.
  destruct c as [b|bs|b]; simpl in *; lia.
Qed.

Lemma parse_value_string f s :
  parse_value (S f) (quote :: s) =
    '(str, r) ← parse_str f s; Some (JString (string_of_list_ascii str), r).
Proof. reflexivity. Qed.

(** Reading back a string [Marshal] wrote gives its UTF-8 sanitised bytes. *)
Lemma encode_string_parse s f t :
  length (list_ascii_of_string s) ≤ f →
  parse_value (S (S f)) (encode_string s ++ t) =
    Some (JString (string_of_list_ascii (utf8_sanitize (list_ascii_of_string s))), t).
Proof.
  intros Hf. unfold encode_string. rewrite <- app_comm_cons, <- app_assoc, parse_value_string.
  destruct (chunks_spec (list_ascii_of_string s)) as [_ Hp].
  pose proof (chunks_length (list_ascii_of_string s)).
  change ([quote] ++ t) with (quote :: t).
  rewrite esc_chunks_parse by (done || lia). done.
Qed.

(** What can follow a value in [Marshal]'s output: nothing, a comma,
    or the end of an array or an object. *)
Definition delim (t : list ascii) : Prop :=
  match t with [] => True | c :: _ => (b2n c = 44 ∨ b2n c = 93 ∨ b2n c = 125)%N end.

Lemma delim_not_digit t : delim t → span_digits t = ([], t).
Proof.
  destruct t as [|c t]; [done|]. simpl. unfold is_digit. case_bool_decide; [lia|done].
Qed.

Lemma span_digits_app l t :
  span_digits t = ([], t) →
  span_digits (l ++ t) = ((span_digits l).1, (span_digits l).2 ++ t).
Proof.
  intros Ht. induction l as [|d l IH]; simpl; [done|].
  destruct (is_digit d); [|done]. rewrite IH. by destruct (span_digits l).
Qed.

Lemma digits1_app l t a r :
  span_digits t = ([], t) → digits1 l = Some (a, r) → digits1 (l ++ t) = Some (a, r ++ t).
Proof.
  unfold digits1. intros Ht. rewrite (span_digits_app l t Ht).
  destruct (span_digits l) as [ds r']. simpl. case_bool_decide; [done|]. by intros [= <- <-].
Qed.

Lemma scan_sign_app l t : delim t →
  scan_sign (l ++ t) = ((scan_sign l).1, (scan_sign l).2 ++ t).
Proof.
  intros Ht. destruct l as [|b l]; simpl; [|by destruct (is_byte 45 b)].
  destruct t as [|c t]; [done|]. unfold scan_sign, is_byte. simpl in Ht. case_bool_decide; [lia|done].
Qed.

Lemma scan_int_app l t a r : delim t →
  scan_int l = Some (a, r) → scan_int (l ++ t) = Some (a, r ++ t).
Proof.
  intros Ht. pose proof (delim_not_digit t Ht) as Hd.
  destruct l as [|d l]; simpl; [done|].
  destruct (is_byte 48 d); [by intros [= <- <-]|]. destruct (is_digit d); [|done].
  rewrite (span_digits_app l t Hd). destruct (span_digits l). by intros [= <- <-].
Qed.

Lemma scan_frac_app l t a r : delim t →
  scan_frac l = Some (a, r) → scan_frac (l ++ t) = Some (a, r ++ t).
Proof.
  intros Ht. pose proof (delim_not_digit t Ht) as Hd.
  destruct l as [|p l]; simpl.
  - intros [= <- <-]. destruct t as [|c t]; [done|]. simpl in Ht. unfold scan_frac, is_byte.
    case_bool_decide; [lia|done].
  - destruct (is_byte 46 p); [|by intros [= <- <-]].
    destruct (digits1 l) as [[ds r']|] eqn:E; [|done]. intros [= <- <-].
    by rewrite (digits1_app l t ds r' Hd E).
Qed.

Lemma scan_exp_app l t a r : delim t →
  scan_exp l = Some (a, r) → scan_exp (l ++ t) = Some (a, r ++ t).
Proof.
  intros Ht. pose proof (delim_not_digit t Ht) as Hd.
  destruct l as [|e l]; simpl.
  - intros [= <- <-]. destruct t as [|c t]; [done|]. simpl in Ht. unfold scan_exp, is_byte.
    repeat case_bool_decide; simpl; lia || done.
  - destruct (is_byte 101 e || is_byte 69 e); [|by intros [= <- <-]].
    destruct l as [|g l]; [done|]. simpl.
    destruct (is_byte 43 g || is_byte 45 g).
    + destruct (digits1 l) as [[ds r']|] eqn:E; [|done]. intros [= <- <-].
      by rewrite (digits1_app l t ds r' Hd E).
    + destruct (digits1 (g :: l)) as [[ds r']|] eqn:E; [|done]. intros [= <- <-].
      change (g :: l ++ t) with ((g :: l) ++ t). by rewrite (digits1_app (g :: l) t ds r' Hd E).
Qed.

Lemma scan_number_app l t :
  scan_number l = Some (l, []) → delim t → scan_number (l ++ t) = Some (l, t).
Proof.
  intros Hl Ht. unfold scan_number in *. rewrite (scan_sign_app l t Ht).
  destruct (scan_sign l) as [sign s1]. simpl.
  destruct (scan_int s1) as [[ip s2]|] eqn:E1; [|done]. rewrite (scan_int_app _ _ _ _ Ht E1). simpl in *.
  destruct (scan_frac s2) as [[fp s3]|] eqn:E2; [|done]. rewrite (scan_frac_app _ _ _ _ Ht E2). simpl in *.
  destruct (scan_exp s3) as [[ep s4]|] eqn:E3; [|done]. rewrite (scan_exp_app _ _ _ _ Ht E3). simpl in *.
  by injection Hl as -> ->.
Qed.

Definition string_body (s : string) : list ascii :=
  concat (esc_chunk <$> chunks (list_ascii_of_string s)).

Lemma encode_string_body s : encode_string s = quote :: string_body s ++ [quote].
Proof. done. Qed.

Lemma esc_chunk_length c : proper_chunk c → 1 ≤ length (chunk_bytes c) ≤ length (esc_chunk c).
Proof.
  destruct c as [b|bs|b]; simpl; intros Hc.
  - unfold esc_ascii. repeat case_match; simpl; lia.
  - destruct Hc as [_ Hl]. destruct (line_sep bs) as [d|] eqn:E; simpl; [|lia].
    destruct bs as [|b0 [|b1 [|b2 []]]]; simpl in *; try discriminate; lia.
  - lia.
Qed.

Lemma string_body_length s : length (list_ascii_of_string s) ≤ length (string_body s).
Proof.
  unfold string_body. destruct (chunks_spec (list_ascii_of_string s)) as [Hc Hp].
  rewrite <- Hc at 1. clear Hc. induction Hp as [|c cs Hc Hp IH]; [done|].
  rewrite !fmap_cons, !concat_cons, !length_app. pose proof (esc_chunk_length c Hc). lia.
Qed.

Lemma parse_str_body s f t :
  length (list_ascii_of_string s) ≤ f →
  parse_str (S f) (string_body s ++ quote :: t) = Some (utf8_sanitize (list_ascii_of_string s), t).
Proof.
  intros Hf. destruct (chunks_spec (list_ascii_of_string s)) as [_ Hp].
  pose proof (chunks_length (list_ascii_of_string s)).
  apply esc_chunks_parse; [done|lia].
Qed.

Lemma scan_number_head l a r :
  scan_number l = Some (a, r) → ∃ c l', l = c :: l' ∧ (b2n c = 45 ∨ 48 ≤ b2n c ≤ 57)%N.
Proof.
  intros H. destruct l as [|c l]; [done|]. exists c, l. split; [done|].
  destruct (decide (b2n c = 45 ∨ 48 ≤ b2n c ≤ 57)%N) as [|Hn]; [done|exfalso].
  revert H. unfold scan_number, scan_sign, scan_int, is_byte, is_digit.
  repeat (case_bool_decide || case_match); simplify_eq; lia || done.
Qed.

Lemma parse_value_number f c s : (b2n c = 45 ∨ 48 ≤ b2n c ≤ 57)%N →
  parse_value (S f) (c :: s) =
    '(lit, r) ← scan_number (c :: s); Some (JNumber (string_of_list_ascii lit), r).
Proof.
  intros H. cbn [parse_value skip_ws]. unfold is_ws.
  repeat (case_bool_decide; try lia). done.
Qed.

Lemma parse_value_array f s :
  parse_value (S f) (chr 91 :: s) =
    match skip_ws s with
    | c :: r => if is_byte 93 c then Some (JArray [], r)
                else '(vs, r') ← parse_elems f s; Some (JArray vs, r')
    | [] => None
    end.
Proof. reflexivity. Qed.

Lemma parse_value_object f s :
  parse_value (S f) (chr 123 :: s) =
    match skip_ws s with
    | c :: r => if is_byte 125 c then Some (JObject [], r)
                else '(kvs, r') ← parse_members f s; Some (JObject kvs, r')
    | [] => None
    end.
Proof. reflexivity. Qed.

(** Every encoding starts with a byte that is no white space and closes
    no array or object. *)
Lemma encode_head v : wf_json v = true →
  ∃ c r, encode v = c :: r ∧ is_ws c = false ∧ b2n c ≠ 93%N ∧ b2n c ≠ 125%N.
Proof.
  destruct v as [|[]|lit|s|vs|kvs]; simpl; intros Hwf; try by eexists _, _.
  apply bool_decide_eq_true in Hwf. destruct (scan_number_head _ _ _ Hwf) as (c & l & -> & Hc).
  exists c, l. unfold is_ws. split; [done|]. case_bool_decide; split; lia.
Qed.

Lemma join_with_cons sep x xs :
  join_with sep (x :: xs) = x ++ match xs with [] => [] | _ => sep ++ join_with sep xs end.
Proof. destruct xs; simpl; by rewrite ?app_nil_r. Qed.

Lemma skip_ws_head c r : is_ws c = false → skip_ws (c :: r) = c :: r.
Proof. simpl. by intros ->. Qed.

Lemma encode_length v : wf_json v = true → 1 ≤ length (encode v).
Proof. intros H. destruct (encode_head v H) as (c & r & -> & _). simpl. lia. Qed.

Definition roundtrips (v : JValue) : Prop :=
  ∀ f t, delim t → length (encode v) < f → parse_value f (encode v ++ t) = Some (sanitize v, t).

Lemma parse_elems_ok vs f t :
  Forall (λ v, wf_json v = true ∧ roundtrips v) vs → vs ≠ [] →
  S (length (join_with [chr 44] (List.map encode vs))) < f →
  parse_elems f (join_with [chr 44] (List.map encode vs) ++ chr 93 :: t) = Some (List.map sanitize vs, t).
Proof.
  intros Hvs. revert f. induction Hvs as [|v vs [Hwf Hv] Hvs IH]; intros f Hne Hf; [done|].
  destruct f as [|f]; [lia|]. simpl List.map in *. rewrite join_with_cons in *.
  pose proof (encode_length v Hwf). rewrite length_app in Hf.
  destruct vs as [|v2 vs].
  - rewrite app_nil_r in *. simpl. rewrite Hv by (simpl; lia || done). reflexivity.
  - simpl. rewrite <- app_assoc. simpl. rewrite Hv by (simpl in *; lia || done).
    simpl. rewrite IH by (done || (simpl in *; lia)). reflexivity.
Qed.

Definition member (kv : string * JValue) : list ascii := encode_string kv.1 ++ chr 58 :: encode kv.2.

Lemma parse_members_step f s :
  parse_members (S f) (quote :: s) =
    '(k, r1) ← parse_str f s;
    match skip_ws r1 with
    | c :: r2 =>
      if is_byte 58 c then
        '(v, r3) ← parse_value f r2;
        match skip_ws r3 with
        | d :: r4 => if is_byte 44 d then
                       '(kvs, r5) ← parse_members f r4;
                       Some ((string_of_list_ascii k, v) :: kvs, r5)
                     else if is_byte 125 d then Some ([(string_of_list_ascii k, v)], r4)
                     else None
        | [] => None
        end
      else None
    | [] => None
    end.
Proof. reflexivity. Qed.

Lemma join_with_rest c xs : xs ≠ [] →
  match xs with [] => [] | _ :: _ => c :: join_with [c] xs end = c :: join_with [c] xs.
Proof. by destruct xs. Qed.

Lemma parse_members_ok kvs f t :
  Forall (λ kv, wf_json kv.2 = true ∧ roundtrips kv.2) kvs → kvs ≠ [] →
  S (length (join_with [chr 44] (List.map member kvs))) < f →
  parse_members f (join_with [chr 44] (List.map member kvs) ++ chr 125 :: t) =
    Some (List.map (λ kv, (sanitize_str kv.1, sanitize kv.2)) kvs, t).
Proof.
  intros Hkvs. revert f. induction Hkvs as [|[k v] kvs [Hwf Hv] Hkvs IH]; intros f Hne Hf; [done|].
  destruct f as [|f]; [lia|]. simpl List.map in *. rewrite join_with_cons in *.
  pose proof (encode_length v Hwf). pose proof (string_body_length k).
  unfold member in *. simpl fst in *; simpl snd in *. rewrite encode_string_body in *.
  rewrite !length_app in Hf. simpl in Hf. rewrite length_app in Hf. simpl in Hf.
  rewrite <- !app_assoc. cbn [app]. rewrite parse_members_step.
  destruct f as [|f]; [lia|]. rewrite <- ?app_assoc. cbn [app]. rewrite parse_str_body by lia. cbn [mbind option_bind].
  rewrite skip_ws_head by reflexivity. cbn iota beta. change (is_byte 58 (chr 58)) with true.
  cbn iota. unfold sanitize_str.
  destruct kvs as [|kv2 kvs].
  - rewrite Hv by (simpl; lia || done). reflexivity.
  - rewrite join_with_rest by done.
    rewrite Hv by (simpl in *; lia || done). cbn [mbind option_bind].
    rewrite <- app_comm_cons, skip_ws_head by reflexivity. change (is_byte 44 (chr 44)) with true. cbn iota.
    rewrite IH by (done || (simpl in *; rewrite ?length_app in *; simpl in *; lia)).
    reflexivity.
Qed.


Lemma encode_roundtrips v : wf_json v = true → roundtrips v.
Proof.
  induction v as [| b | lit | s | vs IH | kvs IH] using JValue_ind'; simpl; intros Hwf f t Ht Hf;
    cbn [encode sanitize] in *; destruct f as [|f]; try (rewrite ?length_app in Hf; lia).
  - reflexivity.
  - destruct b; reflexivity.
  - apply bool_decide_eq_true in Hwf.
    destruct (scan_number_head _ _ _ Hwf) as (c & l & Hl & Hc).
    rewrite Hl, <- app_comm_cons, parse_value_number by done.
    rewrite app_comm_cons, <- Hl, (scan_number_app _ _ Hwf Ht). simpl. by rewrite string_of_list_ascii_of_string.
  - destruct f as [|f]; [simpl in Hf; lia|].
    pose proof (string_body_length s). rewrite encode_string_body in *. simpl in Hf.
    rewrite length_app in Hf. simpl in Hf.
    rewrite <- app_comm_cons, <- app_assoc, parse_value_string. cbn [app].
    rewrite parse_str_body by lia. reflexivity.
  - rewrite <- app_comm_cons, <- app_assoc, parse_value_array. cbn [app].
    destruct vs as [|v vs]; [reflexivity|].
    apply forallb_Forall in Hwf.
    assert (Hall : Forall (λ v, wf_json v = true ∧ roundtrips v) (v :: vs)).
    { apply Forall_and; split; [done|]. eapply Forall_impl; [apply Forall_and; split; [exact IH|exact Hwf]|].
      intros x [Hx Hw]. by apply Hx. }
    pose proof Hall as Hv. apply Forall_cons_1 in Hv as [[Hw _] _].
    destruct (encode_head v Hw) as (c & r & Hcr & Hcw & Hc93 & _).
    assert (Hb : ∃ r', join_with [chr 44] (List.map encode (v :: vs)) ++ chr 93 :: t = c :: r').
    { simpl List.map. rewrite join_with_cons, Hcr. eexists. by rewrite <- !app_comm_cons. }
    destruct Hb as [r' Hr']. rewrite Hr', skip_ws_head by done.
    unfold is_byte. rewrite bool_decide_false by done. rewrite <- Hr'.
    rewrite length_cons, length_app in Hf. cbn [length] in Hf.
    rewrite (parse_elems_ok (v :: vs)) by (done || lia). reflexivity.
  - rewrite <- app_comm_cons, <- app_assoc, parse_value_object. cbn [app].
    destruct kvs as [|[k v] kvs]; [reflexivity|].
    apply forallb_Forall in Hwf.
    assert (Hall : Forall (λ kv, wf_json kv.2 = true ∧ roundtrips kv.2) ((k, v) :: kvs)).
    { apply Forall_and; split; [done|]. eapply Forall_impl; [apply Forall_and; split; [exact IH|exact Hwf]|].
      intros x [Hx Hw]. by apply Hx. }
    change (List.map (λ kv, encode_string kv.1 ++ chr 58 :: encode kv.2) ?l)
      with (List.map member l) in *.
    assert (Hb : ∃ r', join_with [chr 44] (List.map member ((k, v) :: kvs)) ++ chr 125 :: t =
                       quote :: r').
    { simpl List.map. rewrite join_with_cons. unfold member. rewrite encode_string_body.
      eexists. by rewrite <- !app_comm_cons. }
    destruct Hb as [r' Hr']. rewrite Hr', skip_ws_head by done.
    unfold is_byte. rewrite bool_decide_false by done. rewrite <- Hr'.
    rewrite length_cons, length_app in Hf. cbn [length] in Hf.
    rewrite (parse_members_ok ((k, v) :: kvs)) by (done || lia). reflexivity.
Qed.

Theorem decode_Marshal v : wf_json v = true → decode (Marshal v) = Some (sanitize v).
Proof.
  intros Hwf. unfold decode, Marshal. rewrite list_ascii_of_string_of_list_ascii.
  pose proof (encode_roundtrips v Hwf (S (length (encode v))) [] I) as H.
  rewrite app_nil_r in H. rewrite H by lia. done.
Qed.

Lemma utf8_sanitize_valid s : utf8_valid s = true → utf8_sanitize s = s.
Proof.
  unfold utf8_valid, utf8_sanitize. intros Hv. apply forallb_Forall in Hv.
  destruct (chunks_spec s) as [Hc _]. rewrite <- Hc at 2. clear Hc.
  induction Hv as [|c cs Hc Hcs IH]; [done|]. rewrite !fmap_cons, !concat_cons, IH.
  by destruct c.
Qed.

Lemma sanitize_str_valid s : utf8_valid (list_ascii_of_string s) = true → sanitize_str s = s.
Proof.
  intros H. unfold sanitize_str. rewrite utf8_sanitize_valid by done.
  apply string_of_list_ascii_of_string.
Qed.

Lemma sanitize_id v : utf8_json v = true → sanitize v = v.
Proof.
  induction v as [| b | lit | s | vs IH | kvs IH] using JValue_ind'; simpl; intros Hv; try done.
  - by rewrite sanitize_str_valid.
  - f_equal. apply forallb_Forall in Hv. induction IH as [|x vs Hx IH' IHvs]; [done|].
    apply Forall_cons in Hv as [Hx' Hv]. simpl. by rewrite Hx, IHvs.
  - f_equal. apply forallb_Forall in Hv. induction IH as [|[k x] kvs Hx IH' IHkvs]; [done|].
    apply Forall_cons in Hv as [Hx' Hv]. apply andb_true_iff in Hx' as [Hk Hx'].
    simpl in *. by rewrite Hx, sanitize_str_valid, IHkvs.
Qed.

(** *** Integers *)


Lemma b2n_digit n : (n < 10)%N → b2n (digit n) = (48 + n)%N.
Proof. intros H. unfold b2n, digit, chr. apply N_ascii_embedding. lia. Qed.

Lemma digits_value_app a l1 l2 : digits_value a (l1 ++ l2) = digits_value (digits_value a l1) l2.
Proof. revert a. induction l1; simpl; auto. Qed.

(** The decimal digits [utoa_go] emits. *)
Lemma utoa_go_spec fuel n acc :
  fuel ≠ 0 → (n < 10 ^ N.of_nat fuel)%N →
  ∃ ds, utoa_go fuel n acc = ds ++ acc ∧
        Forall (λ d, is_digit d = true) ds ∧ digits_value 0 ds = n ∧
        ∃ d ds', ds = d :: ds' ∧ (ds' = [] ∨ b2n d ≠ 48%N).
Proof.
  revert n acc. induction fuel as [|f IH]; intros n acc Hf Hn; [done|].
  simpl. case_bool_decide as H10.
  - exists [digit n]. split; [done|]. split; [constructor; [|done]; unfold is_digit;
      rewrite b2n_digit by done; apply bool_decide_eq_true; lia|].
    split; [simpl; rewrite b2n_digit by done; lia|]. eauto.
  - destruct (IH (n / 10)%N (digit (n mod 10)%N :: acc)) as (ds & Hds & Hd & Hv & d & ds' & -> & Hlead).
    { destruct f; [simpl in Hn; lia|done]. }
    { rewrite Nat2N.inj_succ, N.pow_succ_r' in Hn. apply N.Div0.div_lt_upper_bound; lia. }
    exists ((d :: ds') ++ [digit (n mod 10)%N]). rewrite <- app_assoc. split; [done|].
    assert (Hm : (n mod 10 < 10)%N) by (apply N.mod_lt; lia).
    split; [apply Forall_app; split; [done|constructor; [|done]];
            unfold is_digit; rewrite b2n_digit by done; apply bool_decide_eq_true; clear -Hm; revert Hm; generalize (n mod 10)%N; intros; lia|].
    split.
    + rewrite digits_value_app, Hv. simpl. rewrite b2n_digit by done.
      pose proof (N.div_mod n 10 ltac:(lia)) as Hdm.
      set (q := (n / 10)%N) in *. set (m := (n mod 10)%N) in *. lia.
    + exists d, (ds' ++ [digit (n mod 10)%N]). split; [done|]. right.
      destruct Hlead as [->|Hd0]; [|done]. simpl in Hv. intros Hd0.
      rewrite Hd0 in Hv. assert (n / 10 = 0)%N by lia.
      apply H10. apply (N.div_small_iff n 10); lia.
Qed.

Lemma utoa_spec n :
  Forall (λ d, is_digit d = true) (utoa n) ∧ digits_value 0 (utoa n) = n ∧
  ∃ d ds', utoa n = d :: ds' ∧ (ds' = [] ∨ b2n d ≠ 48%N).
Proof.
  unfold utoa. destruct (utoa_go_spec (N.to_nat (N.log2 n) + 1) n []) as (ds & -> & H); [lia| |].
  - rewrite Nat2N.inj_add, N2Nat.id. simpl N.of_nat.
    destruct (decide (n = 0%N)) as [->|Hn]; [simpl; lia|].
    apply (N.lt_le_trans _ (2 ^ (N.log2 n + 1))).
    + rewrite N.add_1_r. apply N.log2_spec; lia.
    + apply N.pow_le_mono_l. lia.
  - by rewrite app_nil_r.
Qed.

Lemma span_digits_all ds : Forall (λ d, is_digit d = true) ds → span_digits ds = (ds, []).
Proof. induction 1 as [|d ds Hd _ IH]; simpl; [done|]. by rewrite Hd, IH. Qed.

Lemma scan_int_utoa n : scan_int (utoa n) = Some (utoa n, []).
Proof.
  destruct (utoa_spec n) as (Hd & _ & d & ds' & Hu & Hlead). rewrite Hu in *.
  apply Forall_cons in Hd as [Hd Hds]. simpl.
  destruct (is_byte 48 d) eqn:E0.
  - destruct Hlead as [->|Hne]; [done|]. unfold is_byte in E0. by apply bool_decide_eq_true in E0.
  - rewrite Hd, span_digits_all by done. done.
Qed.

(** [itoa] writes a JSON number literal. *)
Lemma scan_number_itoa z : scan_number (itoa z) = Some (itoa z, []).
Proof.
  assert (Hnot : ∀ n, scan_sign (utoa n) = ([], utoa n)).
  { intros n. destruct (utoa_spec n) as (Hd & _ & d & ds' & Hu & _). rewrite Hu in *.
    apply Forall_cons in Hd as [Hd _]. unfold is_digit in Hd. simpl. unfold is_byte.
    apply bool_decide_eq_true in Hd. case_bool_decide; [lia|done]. }
  unfold scan_number. destruct z as [|p|p]; [reflexivity| |]; simpl itoa.
  - rewrite Hnot, scan_int_utoa. simpl. by rewrite !app_nil_r.
  - cbn [scan_sign]. unfold is_byte. rewrite bool_decide_true by done.
    rewrite scan_int_utoa. simpl. by rewrite !app_nil_r.
Qed.

Lemma parse_int64_itoa z : in_int z → parse_int64 (itoa z) = Some z.
Proof.
  intros Hz. unfold parse_int64, in_int in *.
  destruct z as [|p|p]; simpl itoa.
  - reflexivity.
  - destruct (utoa_spec (Npos p)) as (Hd & Hv & d & ds' & Hu & _).
    assert (Hd' : (48 ≤ b2n d ≤ 57)%N).
    { rewrite Hu in Hd. apply Forall_cons in Hd as [Hd' _]. by apply bool_decide_eq_true in Hd'. }
    rewrite Hu. cbn iota beta. unfold is_byte. case_bool_decide; [lia|]. case_bool_decide; [lia|].
    rewrite <- Hu. rewrite bool_decide_true by (split; [by rewrite Hu|done]).
    rewrite Hv. rewrite bool_decide_true by (simpl; lia). done.
  - cbn iota beta. unfold is_byte. rewrite bool_decide_true by done.
    destruct (utoa_spec (Npos p)) as (Hd & Hv & d & ds' & Hu & _).
    rewrite bool_decide_true by (split; [by rewrite Hu|done]).
    rewrite Hv. rewrite bool_decide_true by (simpl; lia). done.
Qed.

End Json.
