(* ===== verification/Persistence.v ===== *)
(** * Rows of the SQLite store (internal/infrastructure/persistence/sqlite)

    The repositories convert between domain entities and GORM rows with
    four mappers.  [toModelSubmission] writes a [Submission] as a
    [SubmissionModel], with its results as JSON text and its creation
    time as Unix seconds.  [toDomainSubmission] reads it back.  Reading
    back sets [CreatedAt] to the zero [time.Time], and it ignores the
    error of [json.Unmarshal].  [toModelProblem] and [toDomainProblem]
    do the same for a problem with its test cases and topics.

    [json.Marshal] and [json.Unmarshal] of [[]TestResult] go through
    [Json.v].  [TestResult] has no JSON tags, so its members are named
    after its fields.  The decoder matches a key to a field
    case-insensitively, the way [foldName] does, and skips a value of
    the wrong JSON type.  [gorm.Model] is its four columns: [ID],
    [CreatedAt], [UpdatedAt] and the soft-delete mark [DeletedAt]. *)

From S2P Require Import Prelude ProblemDomain SubmissionDomain Json.
From Stdlib Require Import PrimFloat.

Module Rows.

Import Problem Submission Json.

(** The zero [time.Time], January 1 of year 1, in nanoseconds since the
    Unix epoch. *)
Definition zero_time : Time := (-62135596800 * 1000000000)%Z.

(** [t.Unix()]: whole seconds, rounded down. *)
Definition time_Unix (t : Time) : Z := (t / 1000000000)%Z.

(** ** Submissions (submission_repo.go) *)

Record SubmissionModel := mkSubmissionModel {
  SM_ID : string;
  SM_ProblemID : N;
  SM_Language : string;
  SM_Code : string;
  SM_Status : string;
  SM_Runtime : Z;
  SM_Memory : Z;
  SM_Output : string;
  SM_Results : string;
  SM_CreatedAt : Z
}.

(** [json.Marshal] of a [TestResult]: its fields, in order, under their
    Go names. *)
Definition TestResult_to_json (r : TestResult) : JValue :=
  JObject [("Input", JString (TR_Input r)); ("Expected", JString (TR_Expected r));
           ("Actual", JString (Actual r)); ("Passed", JBool (Passed r));
           ("Runtime", JNumber (string_of_list_ascii (itoa (TR_Runtime r))))].

(** [json.Marshal] of a [[]TestResult].  The service only stores the
    slices [Execute] makes, which are never nil, so the text is always
    an array. *)
Definition results_to_json (rs : list TestResult) : JValue :=
  JArray (TestResult_to_json <$> rs).

(** [foldName] on the chunks of a key: ASCII letters upper-cased, and
    the three non-ASCII runes whose folding upper-cases to an ASCII
    letter (U+0131, U+017F and U+212A).  Any other non-ASCII rune folds
    to a non-ASCII one, which matches no field name here: [None]. *)
Definition fold_chunk (c : chunk) : option (list ascii) :=
  match c with
  | CAscii b => Some [if bool_decide (97 ≤ b2n b ≤ 122)%N then chr (b2n b - 32) else b]
  | CRune bs =>
      if bool_decide (bs = [chr 0xC4; chr 0xB1]) then Some [chr 73]
      else if bool_decide (bs = [chr 0xC5; chr 0xBF]) then Some [chr 83]
      else if bool_decide (bs = [chr 0xE2; chr 0x84; chr 0xAA]) then Some [chr 75]
      else None
  | CBad _ => None
  end.

Definition fold_name (k : string) : option (list ascii) :=
  @concat ascii <$> mapM fold_chunk (chunks (list_ascii_of_string k)).

Inductive TRField := FInput | FExpected | FActual | FPassed | FRuntime.

(** The field a JSON key names: [byExactName], then [byFoldedName]. *)
Definition tr_field (k : string) : option TRField :=
  match fold_name k with
  | Some f =>
      if bool_decide (f = list_ascii_of_string "INPUT") then Some FInput
      else if bool_decide (f = list_ascii_of_string "EXPECTED") then Some FExpected
      else if bool_decide (f = list_ascii_of_string "ACTUAL") then Some FActual
      else if bool_decide (f = list_ascii_of_string "PASSED") then Some FPassed
      else if bool_decide (f = list_ascii_of_string "RUNTIME") then Some FRuntime
      else None
  | None => None
  end.

Definition zero_TestResult : TestResult :=
  {| TR_Input := ""; TR_Expected := ""; Actual := ""; Passed := false; TR_Runtime := 0 |}.

(** Decoding one member into the field it names.  [null] and a value
    of the wrong JSON type leave the field as it is (the latter is an
    [UnmarshalTypeError], which the caller ignores); unknown keys are
    skipped. *)
Definition set_TR_field (r : TestResult) (kv : string * JValue) : TestResult :=
  match tr_field kv.1, kv.2 with
  | Some FInput, JString s =>
      {| TR_Input := s; TR_Expected := TR_Expected r; Actual := Actual r;
         Passed := Passed r; TR_Runtime := TR_Runtime r |}
  | Some FExpected, JString s =>
      {| TR_Input := TR_Input r; TR_Expected := s; Actual := Actual r;
         Passed := Passed r; TR_Runtime := TR_Runtime r |}
  | Some FActual, JString s =>
      {| TR_Input := TR_Input r; TR_Expected := TR_Expected r; Actual := s;
         Passed := Passed r; TR_Runtime := TR_Runtime r |}
  | Some FPassed, JBool b =>
      {| TR_Input := TR_Input r; TR_Expected := TR_Expected r; Actual := Actual r;
         Passed := b; TR_Runtime := TR_Runtime r |}
  | Some FRuntime, JNumber lit =>
      match parse_int64 (list_ascii_of_string lit) with
      | Some z => {| TR_Input := TR_Input r; TR_Expected := TR_Expected r; Actual := Actual r;
                     Passed := Passed r; TR_Runtime := z |}
      | None => r
      end
  | _, _ => r
  end.

(** An element of the array, decoded into a zero [TestResult]. *)
Definition json_to_TestResult (v : JValue) : TestResult :=
  match v with
  | JObject kvs => foldl set_TR_field zero_TestResult kvs
  | _ => zero_TestResult
  end.

(** Into a nil slice: an array gives its elements, anything else
    (including [null]) leaves the slice nil. *)
Definition json_to_results (v : JValue) : list TestResult :=
  match v with
  | JArray vs => json_to_TestResult <$> vs
  | _ => []
  end.

(** [json.Unmarshal([]byte(text), &results)]: text that is not JSON
    leaves [results] nil. *)
Definition Unmarshal_results (text : string) : list TestResult :=
  match decode text with Some v => json_to_results v | None => [] end.

(** [toModelSubmission(s)]. *)
Definition toModelSubmission (s : Submission) : SubmissionModel :=
  {| SM_ID := SID s; SM_ProblemID := S_ProblemID s; SM_Language := Language s;
     SM_Code := Code s; SM_Status := SStatus s; SM_Runtime := Runtime s;
     SM_Memory := Memory s; SM_Output := Output s;
     SM_Results := Marshal (results_to_json (Results s));
     SM_CreatedAt := time_Unix (S_CreatedAt s) |}.

(** [toDomainSubmission(m)]: [CreatedAt] is not set, so it is the zero
    time. *)
Definition toDomainSubmission (m : SubmissionModel) : Submission :=
  let results := if bool_decide (SM_Results m = "") then [] else Unmarshal_results (SM_Results m) in
  {| SID := SM_ID m; S_ProblemID := SM_ProblemID m; Language := SM_Language m;
     Code := SM_Code m; SStatus := SM_Status m; Runtime := SM_Runtime m;
     Memory := SM_Memory m; Output := SM_Output m; Results := results;
     S_CreatedAt := zero_time |}.

(** The [Error()] message of [gorm.ErrRecordNotFound], what [First]
    returns when no row matches. *)
Definition ErrRecordNotFound : string := "record not found".

(** ** Problems (problem_repo.go) *)

(** [gorm.Model]. *)
Record GormModel := mkGormModel {
  GM_ID : N;
  GM_CreatedAt : Time;
  GM_UpdatedAt : Time;
  GM_DeletedAt : option Time
}.

(** [gorm.Model{ID: id}]. *)
Definition gorm_model_id (id : N) : GormModel :=
  {| GM_ID := id; GM_CreatedAt := zero_time; GM_UpdatedAt := zero_time; GM_DeletedAt := None |}.

Record TestCaseModel := mkTestCaseModel {
  TCM_Model : GormModel;
  TCM_ProblemID : N;
  TCM_Input : string;
  TCM_Expected : string;
  TCM_IsHidden : bool
}.

Record TopicModel := mkTopicModel {
  TM_Model : GormModel;
  TM_Name : string;
  TM_Slug : string
}.

(** A problem row, with the associations [Preload] fills in. *)
Record ProblemModel := mkProblemModel {
  PM_Model : GormModel;
  PM_Slug : string;
  PM_Title : string;
  PM_Difficulty : string;
  PM_Category : string;
  PM_Description : string;
  PM_Examples : string;
  PM_Constraints : string;
  PM_StarterCode : string;
  PM_AcceptanceRate : float;
  PM_Submissions : Z;
  PM_Accepted : Z;
  PM_IsPremium : bool;
  PM_TestCases : list TestCaseModel;
  PM_Topics : list TopicModel
}.

Definition toDomainTestCase (tc : TestCaseModel) : TestCase :=
  {| TC_ID := GM_ID (TCM_Model tc); TC_ProblemID := TCM_ProblemID tc; Input := TCM_Input tc;
     Expected := TCM_Expected tc; IsHidden := TCM_IsHidden tc |}.

Definition toDomainTopic (t : TopicModel) : Topic :=
  {| Topic_ID := GM_ID (TM_Model t); Topic_Name := TM_Name t; Topic_Slug := TM_Slug t;
     Topic_Count := 0 |}.

(** [toDomainProblem(m)]. *)
Definition toDomainProblem (m : ProblemModel) : Problem :=
  {| ID := GM_ID (PM_Model m); Slug := PM_Slug m; Title := PM_Title m;
     PDifficulty := PM_Difficulty m; PCategory := PM_Category m;
     Description := PM_Description m; Examples := PM_Examples m;
     Constraints := PM_Constraints m; StarterCode := PM_StarterCode m;
     AcceptanceRate := PM_AcceptanceRate m; Submissions := PM_Submissions m;
     Accepted := PM_Accepted m; IsPremium := PM_IsPremium m;
     Topics := toDomainTopic <$> PM_Topics m; TestCases := toDomainTestCase <$> PM_TestCases m;
     CreatedAt := GM_CreatedAt (PM_Model m); UpdatedAt := GM_UpdatedAt (PM_Model m) |}.

(** [toModelProblem(p)]: test cases lose their ids and take the
    problem's id; topics keep only id, name and slug. *)
Definition toModelProblem (p : Problem) : ProblemModel :=
  {| PM_Model := gorm_model_id (ID p); PM_Slug := Slug p; PM_Title := Title p;
     PM_Difficulty := PDifficulty p; PM_Category := PCategory p;
     PM_Description := Description p; PM_Examples := Examples p;
     PM_Constraints := Constraints p; PM_StarterCode := StarterCode p;
     PM_AcceptanceRate := AcceptanceRate p; PM_Submissions := Submissions p;
     PM_Accepted := Accepted p; PM_IsPremium := IsPremium p;
     PM_TestCases := (λ tc, {| TCM_Model := gorm_model_id 0; TCM_ProblemID := ID p;
                               TCM_Input := Input tc; TCM_Expected := Expected tc;
                               TCM_IsHidden := IsHidden tc |}) <$> TestCases p;
     PM_Topics := (λ t, {| TM_Model := gorm_model_id (Topic_ID t); TM_Name := Topic_Name t;
                           TM_Slug := Topic_Slug t |}) <$> Topics p |}.

(** ** Round trips *)

(** What a result reads back as: its strings with stray bytes replaced
    by U+FFFD. *)
Definition sanitize_result (r : TestResult) : TestResult :=
  {| TR_Input := sanitize_str (TR_Input r); TR_Expected := sanitize_str (TR_Expected r);
     Actual := sanitize_str (Actual r); Passed := Passed r; TR_Runtime := TR_Runtime r |}.

Lemma wf_results_to_json rs : wf_json (results_to_json rs) = true.
Proof.
  unfold results_to_json. cbn [wf_json]. induction rs as [|r rs IH]; [done|].
  rewrite fmap_cons. cbn [forallb]. rewrite IH, andb_true_r. simpl.
  rewrite list_ascii_of_string_of_list_ascii, scan_number_itoa. by rewrite bool_decide_true.
Qed.

Lemma Marshal_results_nonempty rs : Marshal (results_to_json rs) ≠ ""%string.
Proof. done. Qed.

Lemma TestResult_keys :
  sanitize_str "Input" = "Input"%string ∧ sanitize_str "Expected" = "Expected"%string ∧
  sanitize_str "Actual" = "Actual"%string ∧ sanitize_str "Passed" = "Passed"%string ∧
  sanitize_str "Runtime" = "Runtime"%string.
Proof. vm_compute. repeat split. Qed.

Lemma TestResult_fields :
  tr_field "Input" = Some FInput ∧ tr_field "Expected" = Some FExpected ∧
  tr_field "Actual" = Some FActual ∧ tr_field "Passed" = Some FPassed ∧
  tr_field "Runtime" = Some FRuntime.
Proof. vm_compute. repeat split. Qed.

Lemma set_TR_Input r s : set_TR_field r ("Input", JString s) =
  {| TR_Input := s; TR_Expected := TR_Expected r; Actual := Actual r;
     Passed := Passed r; TR_Runtime := TR_Runtime r |}.
Proof. unfold set_TR_field. cbn [fst snd]. by destruct TestResult_fields as (-> & _). Qed.

Lemma set_TR_Expected r s : set_TR_field r ("Expected", JString s) =
  {| TR_Input := TR_Input r; TR_Expected := s; Actual := Actual r;
     Passed := Passed r; TR_Runtime := TR_Runtime r |}.
Proof. unfold set_TR_field. cbn [fst snd]. by destruct TestResult_fields as (_ & -> & _). Qed.

Lemma set_TR_Actual r s : set_TR_field r ("Actual", JString s) =
  {| TR_Input := TR_Input r; TR_Expected := TR_Expected r; Actual := s;
     Passed := Passed r; TR_Runtime := TR_Runtime r |}.
Proof. unfold set_TR_field. cbn [fst snd]. by destruct TestResult_fields as (_ & _ & -> & _). Qed.

Lemma set_TR_Passed r b : set_TR_field r ("Passed", JBool b) =
  {| TR_Input := TR_Input r; TR_Expected := TR_Expected r; Actual := Actual r;
     Passed := b; TR_Runtime := TR_Runtime r |}.
Proof. unfold set_TR_field. cbn [fst snd]. by destruct TestResult_fields as (_ & _ & _ & -> & _). Qed.

Lemma set_TR_Runtime r z : in_int z →
  set_TR_field r ("Runtime", JNumber (string_of_list_ascii (itoa z))) =
  {| TR_Input := TR_Input r; TR_Expected := TR_Expected r; Actual := Actual r;
     Passed := Passed r; TR_Runtime := z |}.
Proof.
  intros Hz. unfold set_TR_field. cbn [fst snd]. destruct TestResult_fields as (_ & _ & _ & _ & ->).
  by rewrite list_ascii_of_string_of_list_ascii, parse_int64_itoa.
Qed.

Lemma TestResult_roundtrip r :
  in_int (TR_Runtime r) →
  json_to_TestResult (sanitize (TestResult_to_json r)) = sanitize_result r.
Proof.
  intros Hr. cbn [TestResult_to_json sanitize List.map json_to_TestResult foldl fst snd].
  destruct TestResult_keys as (-> & -> & -> & -> & ->).
  rewrite set_TR_Input, set_TR_Expected, set_TR_Actual, set_TR_Passed, set_TR_Runtime by done.
  reflexivity.
Qed.

Lemma results_roundtrip rs :
  Forall (λ r, in_int (TR_Runtime r)) rs →
  Unmarshal_results (Marshal (results_to_json rs)) = sanitize_result <$> rs.
Proof.
  intros Hrs. unfold Unmarshal_results. rewrite decode_Marshal by apply wf_results_to_json.
  unfold results_to_json. cbn [sanitize json_to_results].
  induction Hrs as [|r rs Hr Hrs IH]; [done|]. rewrite fmap_cons. cbn [List.map].
  rewrite fmap_cons, TestResult_roundtrip by done. rewrite fmap_cons. by f_equal.
Qed.

Lemma sanitize_result_valid r :
  utf8_valid (list_ascii_of_string (TR_Input r)) = true →
  utf8_valid (list_ascii_of_string (TR_Expected r)) = true →
  utf8_valid (list_ascii_of_string (Actual r)) = true →
  sanitize_result r = r.
Proof. intros H1 H2 H3. unfold sanitize_result. rewrite !sanitize_str_valid by done. by destruct r. Qed.

(** C27: writing a submission with [toModelSubmission] and reading it
    back with [toDomainSubmission] gives every field back except two:
    [CreatedAt] becomes the zero time, and the results' strings come
    back with their stray bytes replaced by U+FFFD (the results go
    through [json.Marshal] and [json.Unmarshal]). *)
Theorem toDomain_toModel_Submission s :
  Forall (λ r, in_int (TR_Runtime r)) (Results s) →
  toDomainSubmission (toModelSubmission s) =
    {| SID := SID s; S_ProblemID := S_ProblemID s; Language := Language s; Code := Code s;
       SStatus := SStatus s; Runtime := Runtime s; Memory := Memory s; Output := Output s;
       Results := sanitize_result <$> Results s; S_CreatedAt := zero_time |}.
Proof.
  intros Hrs. unfold toDomainSubmission, toModelSubmission. cbn [SM_Results].
  rewrite bool_decide_false by apply Marshal_results_nonempty.
  by rewrite results_roundtrip.
Qed.

(** writing a problem with [toModelProblem] and reading it back
    with [toDomainProblem] keeps every column.  It loses the test cases'
    ids, which become 0, gives every test case the problem's id as its
    [ProblemID], drops the topics' counts, and zeroes both timestamps. *)
Theorem toDomain_toModel_Problem p :
  toDomainProblem (toModelProblem p) =
    {| ID := ID p; Slug := Slug p; Title := Title p; PDifficulty := PDifficulty p;
       PCategory := PCategory p; Description := Description p; Examples := Examples p;
       Constraints := Constraints p; StarterCode := StarterCode p;
       AcceptanceRate := AcceptanceRate p; Submissions := Submissions p;
       Accepted := Accepted p; IsPremium := IsPremium p;
       Topics := (λ t, {| Topic_ID := Topic_ID t; Topic_Name := Topic_Name t;
                          Topic_Slug := Topic_Slug t; Topic_Count := 0 |}) <$> Topics p;
       TestCases := (λ tc, {| TC_ID := 0; TC_ProblemID := ID p; Input := Input tc;
                              Expected := Expected tc; IsHidden := IsHidden tc |}) <$> TestCases p;
       CreatedAt := zero_time; UpdatedAt := zero_time |}.
Proof. unfold toDomainProblem, toModelProblem. simpl. by rewrite <- !list_fmap_compose. Qed.

(** ** Witnesses *)

(** A submission created in November 2023 with one passed test. *)
Definition sub_row_example : Submission :=
  {| SID := "s1"; S_ProblemID := 1; Language := "python"; Code := "def f(x): return x";
     SStatus := StatusAccepted; Runtime := 3%Z; Memory := 0%Z; Output := "";
     Results := [{| TR_Input := "[1]"; TR_Expected := "1"; Actual := "1"; Passed := true;
                    TR_Runtime := 3%Z |}];
     S_CreatedAt := 1700000000000000000%Z |}.

Lemma toDomain_toModel_Submission_witness :
  Results (toDomainSubmission (toModelSubmission sub_row_example)) = Results sub_row_example ∧
  S_CreatedAt (toDomainSubmission (toModelSubmission sub_row_example)) = zero_time.
Proof.
  rewrite toDomain_toModel_Submission; [split; [vm_compute; reflexivity | reflexivity]|].
  constructor; [|constructor]. vm_compute. split; congruence.
Defined.

End Rows.
