(* ===== verification/Catalog.v ===== *)
(** * The problem catalog (persistence/sqlite/problem_repo.go, application/problem/service.go)

    The problem repository answers four queries over the SQLite tables:
    - [FindAll]: filter, count, paginate;
    - [FindBySlug] and [FindByID]: one problem with its test cases and
      topics preloaded;
    - [GetTopics]: topics with their problem counts.
    The problem service passes these queries through, and [GetProblem]
    keeps only the visible test cases.

    The database is its four tables: problems, test_cases, topics and
    the join table problem_topics.  Each table is the list of its rows
    in rowid order, which is the order SQLite scans them in.  A problem
    row carries no associations; [Preload] fills them in from the other
    tables.  GORM's default scope skips soft-deleted rows of the model
    being queried.  It skips nothing in raw [Joins] and in
    [Table("topics")], which names no model.

    [FindAll]'s SQL is modelled clause by clause:
    - [difficulty = ?] and [category = ?] are byte equality;
    - [LOWER(...) LIKE ?] uses SQLite's ASCII-only [LOWER] and its [LIKE]
      over characters as [sqlite3Utf8Read] reads them;
    - the topic joins keep one row per matching (join row, topic) pair;
    - [Offset] and [Limit] follow GORM's SQLite dialect: a negative
      limit means no limit, and an offset that is not positive means
      no offset.
    [strings.ToLower] of the search term is Go's: an ASCII fast path,
    and otherwise [strings.Map(unicode.ToLower)].  The Unicode case
    tables are the one thing left as a parameter, [lower_rune]. *)

From S2P Require Import Prelude ProblemDomain Json Persistence.
From Stdlib Require Import PrimFloat.
From Stdlib Require Import Sorted.

Module Catalog.

Import Problem Json Rows.

(** ** The tables *)

Record Tables := mkTables {
  t_problems : list ProblemModel;
  t_test_cases : list TestCaseModel;
  t_topics : list TopicModel;
  t_problem_topics : list (N * N)   (* (problem_model_id, topic_model_id) *)
}.

(** The default scope's [deleted_at IS NULL]. *)
Definition gm_live (g : GormModel) : bool :=
  match GM_DeletedAt g with None => true | Some _ => false end.

Definition pm_id (m : ProblemModel) : N := GM_ID (PM_Model m).
Definition tm_id (t : TopicModel) : N := GM_ID (TM_Model t).

Definition with_assoc (m : ProblemModel) (tcs : list TestCaseModel) (ts : list TopicModel)
    : ProblemModel :=
  {| PM_Model := PM_Model m; PM_Slug := PM_Slug m; PM_Title := PM_Title m;
     PM_Difficulty := PM_Difficulty m; PM_Category := PM_Category m;
     PM_Description := PM_Description m; PM_Examples := PM_Examples m;
     PM_Constraints := PM_Constraints m; PM_StarterCode := PM_StarterCode m;
     PM_AcceptanceRate := PM_AcceptanceRate m; PM_Submissions := PM_Submissions m;
     PM_Accepted := PM_Accepted m; PM_IsPremium := PM_IsPremium m;
     PM_TestCases := tcs; PM_Topics := ts |}.

(** [Preload("TestCases")]: the live test-case rows whose [problem_id]
    is the problem's, in rowid order. *)
Definition preload_TestCases (db : Tables) (pid : N) : list TestCaseModel :=
  filter (λ tc, TCM_ProblemID tc = pid ∧ gm_live (TCM_Model tc) = true) (t_test_cases db).

(** [Preload("Topics")] through problem_topics: the live topics joined
    to the problem, in id order. *)
Definition preload_Topics (db : Tables) (pid : N) : list TopicModel :=
  filter (λ t, gm_live (TM_Model t) = true ∧ (pid, tm_id t) ∈ t_problem_topics db) (t_topics db).

Definition preload (db : Tables) (m : ProblemModel) : ProblemModel :=
  with_assoc m (preload_TestCases db (pm_id m)) (preload_Topics db (pm_id m)).

(** The live problem rows, in rowid order. *)
Definition live_problems (db : Tables) : list ProblemModel :=
  filter (λ m, gm_live (PM_Model m) = true) (t_problems db).

(** [First]: the first live row in primary-key order that satisfies the
    condition, or [gorm.ErrRecordNotFound]. *)
Definition first_where (db : Tables) (P : ProblemModel → bool) : Result ProblemModel :=
  match list_find (λ m, P m = true) (live_problems db) with
  | Some (_, m) => Ok m
  | None => Err ErrRecordNotFound
  end.

Definition result_map {A B} (f : A → B) (r : Result A) : Result B :=
  match r with Ok a => Ok (f a) | Err e => Err e end.

(** [ProblemRepository.FindBySlug]: [Preload("TestCases")],
    [Preload("Topics")], [Where("slug = ?", slug)], [First]; then
    [toDomainProblem]. *)
Definition FindBySlug (db : Tables) (slug : string) : Result Problem :=
  result_map (λ m, toDomainProblem (preload db m))
    (first_where db (λ m, bool_decide (PM_Slug m = slug))).

(** [ProblemRepository.FindByID]: [First(&model, id)] with both
    preloads. *)
Definition FindByID (db : Tables) (id : N) : Result Problem :=
  result_map (λ m, toDomainProblem (preload db m))
    (first_where db (λ m, bool_decide (pm_id m = id))).

(** ** Find options and pagination (domain/problem/repository.go) *)

Record FindOptions := mkFindOptions {
  FO_Page : Z;
  FO_Limit : Z;
  FO_Difficulty : Difficulty;
  FO_Category : Category;
  FO_TopicSlug : string;
  FO_Search : string
}.

Definition DefaultFindOptions : FindOptions :=
  {| FO_Page := 1; FO_Limit := 50; FO_Difficulty := ""; FO_Category := "";
     FO_TopicSlug := ""; FO_Search := "" |}.

(** [Offset(offset).Limit(limit)] in GORM's SQLite dialect: an offset is
    applied only when positive, a limit only when not negative. *)
Definition paginate {A} (offset limit : Z) (rows : list A) : list A :=
  let rest := if bool_decide (0 < offset)%Z then drop (Z.to_nat offset) rows else rows in
  if bool_decide (0 ≤ limit)%Z then take (Z.to_nat limit) rest else rest.

(** [offset := (opts.Page - 1) * opts.Limit], in Go [int]. *)
Definition page_offset (opts : FindOptions) : Z :=
  ((FO_Page opts -ᵢ 1) *ᵢ FO_Limit opts)%go.

(** ** Case folding: Go's [strings.ToLower] and SQLite's [LOWER] *)

Definition ascii_lower (b : ascii) : ascii :=
  if bool_decide (65 ≤ b2n b ≤ 90)%N then chr (b2n b + 32) else b.

(** SQLite's [LOWER(x)] without ICU: [sqlite3Tolower] on every byte,
    which changes only [A] to [Z]. *)
Definition sql_LOWER (s : string) : string :=
  string_of_list_ascii (ascii_lower <$> list_ascii_of_string s).

(** The code point of a well-formed UTF-8 sequence of one to four
    bytes, as [range] over a string decodes it. *)
Definition rune_value (bs : list ascii) : N :=
  match bs with
  | [b0] => b2n b0
  | [b0; b1] => N.land (b2n b0) 0x1F * 64 + N.land (b2n b1) 0x3F
  | [b0; b1; b2] =>
      N.land (b2n b0) 0x0F * 4096 + N.land (b2n b1) 0x3F * 64 + N.land (b2n b2) 0x3F
  | [b0; b1; b2; b3] =>
      N.land (b2n b0) 0x07 * 262144 + N.land (b2n b1) 0x3F * 4096 +
      N.land (b2n b2) 0x3F * 64 + N.land (b2n b3) 0x3F
  | _ => 0xFFFD
  end%N.

Section ToLower.

(** [unicode.ToLower] above ASCII: Go's case tables. *)
Variable lower_rune : N → N.

(** [unicode.ToLower]: the ASCII branch, then the tables. *)
Definition unicode_ToLower (r : N) : N :=
  if bool_decide (r < 128)%N then (if bool_decide (65 ≤ r ≤ 90)%N then r + 32 else r)%N
  else lower_rune r.

(** One step of [strings.Map(unicode.ToLower, s)]: a stray byte reads as
    [utf8.RuneError], and the mapped rune is written with [WriteRune]. *)
Definition lower_chunk (c : chunk) : list ascii :=
  match c with
  | CAscii b => [ascii_lower b]
  | CRune bs => utf8_encode (unicode_ToLower (rune_value bs))
  | CBad _ => utf8_encode (unicode_ToLower 0xFFFD)
  end.

(** [strings.ToLower]: when every byte is ASCII, lower [A] to [Z] byte
    by byte; otherwise [Map(unicode.ToLower, s)]. *)
Definition ToLower (s : string) : string :=
  let bs := list_ascii_of_string s in
  if forallb (λ b, bool_decide (b2n b < 128)%N) bs then string_of_list_ascii (ascii_lower <$> bs)
  else string_of_list_ascii (mjoin (lower_chunk <$> chunks bs)).

End ToLower.

(** ** SQLite's [LIKE] *)

(** [sqlite3_value_text] hands [LIKE] a C string: the text up to its
    first NUL byte. *)
Fixpoint cstr (s : list ascii) : list ascii :=
  match s with
  | [] => []
  | b :: s' => if bool_decide (b2n b = 0)%N then [] else b :: cstr s'
  end.

(** [sqlite3Utf8Trans1]: the payload bits of a lead byte from 0xC0 up. *)
Definition utf8_trans1 (x : N) : N :=
  if bool_decide (x < 0xE0)%N then x - 0xC0
  else if bool_decide (x < 0xF0)%N then x - 0xE0
  else if bool_decide (x < 0xF8)%N then x - 0xF0
  else if bool_decide (x < 0xFC)%N then x - 0xF8
  else if bool_decide (x < 0xFE)%N then x - 0xFC
  else 0.

(** The end of [sqlite3Utf8Read]: an overlong, surrogate or noncharacter
    value reads as U+FFFD. *)
Definition utf8_finish (c : N) : N :=
  if bool_decide (c < 0x80 ∨ N.land c 0xFFFFF800 = 0xD800 ∨ N.land c 0xFFFFFFFE = 0xFFFE)%N
  then 0xFFFD else c.

(** The characters [patternCompare] reads with [sqlite3Utf8Read]: a byte
    below 0xC0 is one character; a lead byte from 0xC0 up takes every
    continuation byte after it, accumulating in 32 bits.  [pending] is
    the character being accumulated. *)
Fixpoint sql_chars_from (pending : option N) (s : list ascii) : list N :=
  match s with
  | [] => match pending with Some c => [utf8_finish c] | None => [] end
  | b :: s' =>
      let x := b2n b in
      let start := if bool_decide (0xC0 ≤ x)%N then sql_chars_from (Some (utf8_trans1 x)) s'
                   else x :: sql_chars_from None s' in
      match pending with
      | Some c =>
          if bool_decide (N.land x 0xC0 = 0x80)%N
          then sql_chars_from (Some ((c * 64 + N.land x 0x3F) mod 2 ^ 32)%N) s'
          else utf8_finish c :: start
      | None => start
      end
  end.

Definition sql_chars (s : string) : list N := sql_chars_from None (cstr (list_ascii_of_string s)).

(** [LIKE]'s comparison of a pattern character with a text character:
    equal, or equal after folding ASCII case. *)
Definition like_fold (c : N) : N := if bool_decide (65 ≤ c ≤ 90)%N then (c + 32)%N else c.

Definition like_eq (c c2 : N) : bool :=
  bool_decide (c = c2) || bool_decide (c < 128 ∧ c2 < 128 ∧ like_fold c = like_fold c2)%N.

(** [patternCompare] with [%] (37) matching any run of characters and
    [_] (95) any one character, and no escape character. *)
Fixpoint like (p s : list N) : bool :=
  match p with
  | [] => bool_decide (s = [])
  | c :: p' =>
      if bool_decide (c = 37)%N then existsb (λ k, like p' (drop k s)) (seq 0 (S (length s)))
      else match s with
           | [] => false
           | c2 :: s' => (bool_decide (c = 95)%N || like_eq c c2) && like p' s'
           end
  end.

(** [text LIKE pattern]. *)
Definition sql_like (text pattern : string) : bool := like (sql_chars pattern) (sql_chars text).

(** ** [ProblemRepository.FindAll] *)

Section FindAll.

Variable lower_rune : N → N.

(** [search := "%" + strings.ToLower(opts.Search) + "%"]. *)
Definition search_pattern (search : string) : string :=
  "%" +:+ ToLower lower_rune search +:+ "%".

(** The three [Where] clauses on the problem's own columns; the search
    clause is [LOWER(title) LIKE ? OR LOWER(slug) LIKE ?]. *)
Definition where_filters (opts : FindOptions) (m : ProblemModel) : bool :=
  (bool_decide (FO_Difficulty opts = "") || bool_decide (PM_Difficulty m = FO_Difficulty opts)) &&
  (bool_decide (FO_Category opts = "") || bool_decide (PM_Category m = FO_Category opts)) &&
  (bool_decide (FO_Search opts = "") ||
     (sql_like (sql_LOWER (PM_Title m)) (search_pattern (FO_Search opts)) ||
      sql_like (sql_LOWER (PM_Slug m)) (search_pattern (FO_Search opts)))).

(** The rows of [JOIN problem_topics ... JOIN topics ... WHERE
    topics.slug = ?] for one problem: one per join row and topic row
    that match. *)
Definition join_count (db : Tables) (slug : string) (m : ProblemModel) : nat :=
  length (filter (λ '(jt, t), jt.1 = pm_id m ∧ jt.2 = tm_id t ∧ TM_Slug t = slug)
            (list_prod (t_problem_topics db) (t_topics db))).

(** The rows the query selects, in [problems.id ASC] order. *)
Definition query_rows (db : Tables) (opts : FindOptions) : list ProblemModel :=
  flat_map (λ m, if where_filters opts m then
                   if bool_decide (FO_TopicSlug opts = "") then [m]
                   else replicate (join_count db (FO_TopicSlug opts) m) m
                 else [])
    (live_problems db).

(** The columns the [Select] names; the others keep their zero values. *)
Definition select_list (m : ProblemModel) : ProblemModel :=
  {| PM_Model := {| GM_ID := pm_id m; GM_CreatedAt := GM_CreatedAt (PM_Model m);
                    GM_UpdatedAt := zero_time; GM_DeletedAt := None |};
     PM_Slug := PM_Slug m; PM_Title := PM_Title m;
     PM_Difficulty := PM_Difficulty m; PM_Category := PM_Category m;
     PM_Description := ""; PM_Examples := ""; PM_Constraints := ""; PM_StarterCode := "";
     PM_AcceptanceRate := PM_AcceptanceRate m; PM_Submissions := PM_Submissions m;
     PM_Accepted := PM_Accepted m; PM_IsPremium := PM_IsPremium m;
     PM_TestCases := []; PM_Topics := [] |}.

(** A row of the page: the selected columns, [Preload("Topics")], then
    [toDomainProblem]. *)
Definition list_view (db : Tables) (m : ProblemModel) : Problem :=
  toDomainProblem (with_assoc (select_list m) [] (preload_Topics db (pm_id m))).

(** [FindAll]: [Count(&total)] over the filtered query, then the page. *)
Definition FindAll (db : Tables) (opts : FindOptions) : list Problem * Z :=
  let rows := query_rows db opts in
  (list_view db <$> paginate (page_offset opts) (FO_Limit opts) rows, Z.of_nat (length rows)).

End FindAll.

(** ** [ProblemRepository.GetTopics] *)

(** [COUNT(problem_topics.problem_model_id)] of the [LEFT JOIN]: the join
    rows that name the topic. *)
Definition topic_count (db : Tables) (t : TopicModel) : Z :=
  Z.of_nat (length (filter (λ jt, jt.2 = tm_id t) (t_problem_topics db))).

(** [ORDER BY count DESC]; rows with equal counts stay in id order. *)
Fixpoint insert_by_count (t : Topic) (l : list Topic) : list Topic :=
  match l with
  | [] => [t]
  | u :: l' => if bool_decide (Topic_Count u ≤ Topic_Count t)%Z then t :: l
               else u :: insert_by_count t l'
  end.

Definition sort_by_count (l : list Topic) : list Topic := foldr insert_by_count [] l.

(** [GetTopics]: every row of [topics], grouped with its count, then
    copied into [domain.Topic]. *)
Definition topic_row (db : Tables) (t : TopicModel) : Topic :=
  {| Topic_ID := tm_id t; Topic_Name := TM_Name t; Topic_Slug := TM_Slug t;
     Topic_Count := topic_count db t |}.

Definition GetTopics (db : Tables) : list Topic := sort_by_count (topic_row db <$> t_topics db).

(** ** The problem service (application/problem/service.go) *)

Definition ListProblems (lower_rune : N → N) (db : Tables) (opts : FindOptions)
    : list Problem * Z :=
  FindAll lower_rune db opts.

(** [GetProblem]: [FindBySlug], then only the visible test cases. *)
Definition GetProblem (db : Tables) (slug : string) : Result Problem :=
  match FindBySlug db slug with
  | Ok p => Ok (set_TestCases p (VisibleTestCases p))
  | Err e => Err e
  end.

Definition GetProblemWithAllTests (db : Tables) (id : N) : Result Problem := FindByID db id.

Definition Service_GetTopics (db : Tables) : list Topic := GetTopics db.

(** [ProblemRepository.Delete]: [Delete(&ProblemModel{}, id)] is GORM's
    soft delete, [UPDATE problems SET deleted_at = now WHERE id = ? AND
    deleted_at IS NULL].  Test cases and join rows stay. *)
Definition soft_delete (now : Time) (g : GormModel) : GormModel :=
  {| GM_ID := GM_ID g; GM_CreatedAt := GM_CreatedAt g; GM_UpdatedAt := GM_UpdatedAt g;
     GM_DeletedAt := Some now |}.

Definition set_model (m : ProblemModel) (g : GormModel) : ProblemModel :=
  {| PM_Model := g; PM_Slug := PM_Slug m; PM_Title := PM_Title m;
     PM_Difficulty := PM_Difficulty m; PM_Category := PM_Category m;
     PM_Description := PM_Description m; PM_Examples := PM_Examples m;
     PM_Constraints := PM_Constraints m; PM_StarterCode := PM_StarterCode m;
     PM_AcceptanceRate := PM_AcceptanceRate m; PM_Submissions := PM_Submissions m;
     PM_Accepted := PM_Accepted m; PM_IsPremium := PM_IsPremium m;
     PM_TestCases := PM_TestCases m; PM_Topics := PM_Topics m |}.

Definition Delete (now : Time) (id : N) (db : Tables) : Tables :=
  {| t_problems := (λ m, if bool_decide (pm_id m = id) && gm_live (PM_Model m)
                         then set_model m (soft_delete now (PM_Model m)) else m) <$> t_problems db;
     t_test_cases := t_test_cases db; t_topics := t_topics db;
     t_problem_topics := t_problem_topics db |}.

(** The live problems by id, as the problem service's callers see
    them: the first live row of each id, preloaded and converted. *)
Definition problems_by_id (db : Tables) : gmap N Problem :=
  list_to_map ((λ m, (pm_id m, toDomainProblem (preload db m))) <$> live_problems db).

(** ** Notions the theorems use *)

(** The same query at another page and limit. *)
Definition with_paging (opts : FindOptions) (page limit : Z) : FindOptions :=
  {| FO_Page := page; FO_Limit := limit; FO_Difficulty := FO_Difficulty opts;
     FO_Category := FO_Category opts; FO_TopicSlug := FO_TopicSlug opts;
     FO_Search := FO_Search opts |}.

(** Text of ASCII bytes with no NUL. *)
Definition ascii_text (s : string) : bool :=
  forallb (λ b, bool_decide (0 < b2n b < 128)%N) (list_ascii_of_string s).

(** A search term of ASCII bytes with no NUL and neither [%] nor [_]. *)
Definition plain_term (s : string) : bool :=
  forallb (λ b, bool_decide (0 < b2n b < 128 ∧ b2n b ≠ 37 ∧ b2n b ≠ 95)%N)
    (list_ascii_of_string s).

(** [ORDER BY count DESC] as a relation between neighbours. *)
Definition count_desc (a b : Topic) : Prop := (Topic_Count b ≤ Topic_Count a)%Z.

(** "É" (U+00C9) in UTF-8. *)
Definition E_acute : string := String (chr 0xC3) (String (chr 0x89) EmptyString).

(** ** Example tables *)

(** [unicode.ToLower] on Latin-1: À–Þ except × to their lower case. *)
Definition latin1_lower (r : N) : N :=
  if bool_decide (0xC0 ≤ r ≤ 0xDE ∧ r ≠ 0xD7)%N then (r + 32)%N else r.

Definition live_model (id : N) : GormModel :=
  {| GM_ID := id; GM_CreatedAt := 0%Z; GM_UpdatedAt := 0%Z; GM_DeletedAt := None |}.

Definition problem_row (id : N) (slug title difficulty : string) (deleted : option Time)
    : ProblemModel :=
  {| PM_Model := {| GM_ID := id; GM_CreatedAt := 0%Z; GM_UpdatedAt := 0%Z; GM_DeletedAt := deleted |};
     PM_Slug := slug; PM_Title := title; PM_Difficulty := difficulty;
     PM_Category := CategoryAlgorithms; PM_Description := "desc"; PM_Examples := "";
     PM_Constraints := ""; PM_StarterCode := ""; PM_AcceptanceRate := 0%float;
     PM_Submissions := 0%Z; PM_Accepted := 0%Z; PM_IsPremium := false;
     PM_TestCases := []; PM_Topics := [] |}.

Definition test_case_row (id pid : N) (input expected : string) (hidden : bool) : TestCaseModel :=
  {| TCM_Model := live_model id; TCM_ProblemID := pid; TCM_Input := input;
     TCM_Expected := expected; TCM_IsHidden := hidden |}.

Definition catalog_example : Tables :=
  {| t_problems := [problem_row 1 "two-sum" "Two Sum" Easy None;
                    problem_row 2 "add-two-numbers" "Add Two Numbers" Medium None;
                    problem_row 3 "three-sum" "3Sum" Medium (Some 5%Z);
                    problem_row 4 "e" E_acute Hard None];
     t_test_cases := [test_case_row 1 1 "[2,7],9" "[0,1]" false;
                      test_case_row 2 1 "[3,3],6" "[0,1]" true;
                      test_case_row 3 2 "[1],[2]" "[3]" false];
     t_topics := [{| TM_Model := live_model 1; TM_Name := "Array"; TM_Slug := "array" |};
                  {| TM_Model := live_model 2; TM_Name := "Math"; TM_Slug := "math" |}];
     t_problem_topics := [(1, 1); (2, 2); (3, 1)]%N |}.

(** ** Lemmas: pagination *)

Lemma FindAll_eq lr db opts :
  FindAll lr db opts =
    (list_view db <$> paginate (page_offset opts) (FO_Limit opts) (query_rows lr db opts),
     Z.of_nat (length (query_rows lr db opts))).
Proof. reflexivity. Qed.

Lemma query_rows_paging lr db opts p l :
  query_rows lr db (with_paging opts p l) = query_rows lr db opts.
Proof. reflexivity. Qed.

Lemma paginate_nonpos {A} (off lim : Z) (rows : list A) :
  (off ≤ 0)%Z → paginate off lim rows = paginate 0 lim rows.
Proof.
  intros. unfold paginate.
  by rewrite (bool_decide_false (0 < off)%Z), (bool_decide_false (0 < 0)%Z) by lia.
Qed.

Lemma paginate_block {A} (L : Z) (i : nat) (rows : list A) :
  (0 < L)%Z →
  paginate (Z.of_nat i * L) L rows = take (Z.to_nat L) (drop (i * Z.to_nat L) rows).
Proof.
  intros HL. unfold paginate. rewrite (bool_decide_true (0 ≤ L)%Z) by lia.
  destruct i as [|i]; [by rewrite bool_decide_false by lia|].
  rewrite bool_decide_true by nia. do 2 f_equal. rewrite Z2Nat.inj_mul by lia.
  by rewrite Nat2Z.id.
Qed.

Lemma take_blocks {A} (L k : nat) (l : list A) :
  mjoin ((λ i, take L (drop (i * L) l)) <$> seq 0 k) = take (k * L) l.
Proof.
  induction k as [|k IH]; [done|].
  rewrite seq_S, fmap_app, join_app, IH. simpl. rewrite app_nil_r, take_take_drop.
  f_equal. lia.
Qed.

Lemma page_offset_block opts (i : nat) (L : Z) :
  (0 < L)%Z → (Z.of_nat (S i) * L ≤ int_max)%Z →
  page_offset (with_paging opts (Z.of_nat i + 1) L) = (Z.of_nat i * L)%Z.
Proof.
  intros HL Hk. unfold page_offset, int_sub, int_mul. cbn [FO_Page FO_Limit with_paging].
  rewrite Nat2Z.inj_succ in Hk.
  assert (Z.of_nat i * L ≤ Z.succ (Z.of_nat i) * L)%Z by (apply Z.mul_le_mono_nonneg_r; lia).
  assert (Z.succ (Z.of_nat i) ≤ Z.succ (Z.of_nat i) * L)%Z.
  { rewrite <- (Z.mul_1_r (Z.succ (Z.of_nat i))) at 1. apply Z.mul_le_mono_nonneg_l; lia. }
  assert (0 ≤ Z.of_nat i * L)%Z by (apply Z.mul_nonneg_nonneg; lia).
  rewrite (wrap64_small (Z.of_nat i + 1 - 1)) by (apply in_int_nonneg; lia).
  rewrite Z.add_simpl_r. apply wrap64_small, in_int_nonneg. lia.
Qed.

Lemma page_offset_first opts (L : Z) : page_offset (with_paging opts 1 L) = 0%Z.
Proof. reflexivity. Qed.

(** A multiple of 2^64 in the int range is 0. *)
Lemma wrap64_mod_zero z : (z mod 2 ^ 64 = 0)%Z → wrap64 z = 0%Z.
Proof.
  intros H. pose proof (wrap64_in_int z) as Hr. pose proof (wrap64_mod z) as Hm.
  rewrite H in Hm. unfold in_int, int_min, int_max in Hr.
  apply Z.mod_divide in Hm; [|lia]. destruct Hm as [q Hq]. nia.
Qed.

(** ** Claims: pagination *)

(** C28: Consecutive pages partition the result.  For a positive limit
    L, pages 1 to k of [FindAll], concatenated, are the single page of
    size k·L starting at page 1, as long as k·L fits in an [int].  No
    row is skipped and none is shown twice. *)
Theorem FindAll_pages_partition lr db opts (L : Z) (k : nat) :
  (0 < L)%Z → (Z.of_nat k * L ≤ int_max)%Z →
  mjoin ((λ i, (FindAll lr db (with_paging opts (Z.of_nat i + 1) L)).1) <$> seq 0 k) =
  (FindAll lr db (with_paging opts 1 (Z.of_nat k * L))).1.
Proof.
  intros HL Hk. set (rows := query_rows lr db opts).
  transitivity (mjoin ((λ i, list_view db <$> take (Z.to_nat L) (drop (i * Z.to_nat L) rows))
                         <$> seq 0 k)).
  - f_equal. apply list_fmap_ext. intros j i Hi. apply lookup_seq in Hi as [-> Hj].
    assert (Z.of_nat (S j) * L ≤ Z.of_nat k * L)%Z by (apply Z.mul_le_mono_nonneg_r; lia).
    rewrite FindAll_eq, query_rows_paging, page_offset_block by lia. cbn [fst].
    by rewrite paginate_block.
  - rewrite FindAll_eq, query_rows_paging, page_offset_first. cbn [fst].
    unfold with_paging, paginate; cbn [FO_Limit]. rewrite (bool_decide_false (0 < 0)%Z), (bool_decide_true (0 ≤ _)%Z)
      by (lia || apply Z.mul_nonneg_nonneg; lia).
    rewrite Z2Nat.inj_mul, Nat2Z.id by lia.
    by rewrite <- take_blocks, fmap_join, <- list_fmap_compose.
Qed.

(** A page number below 1 reads page 1.  With a limit that is not
    negative, a page p ≤ 1 whose offset (p−1)·limit does not wrap
    returns exactly what page 1 returns. *)
Theorem FindAll_page_below_one lr db opts :
  (0 ≤ FO_Limit opts)%Z → (FO_Page opts ≤ 1)%Z →
  in_int (FO_Page opts - 1) → in_int ((FO_Page opts - 1) * FO_Limit opts) →
  FindAll lr db opts = FindAll lr db (with_paging opts 1 (FO_Limit opts)).
Proof.
  intros HL Hp H1 H2. rewrite !FindAll_eq, query_rows_paging, page_offset_first. simpl.
  unfold page_offset, int_sub, int_mul. rewrite (wrap64_small (_ - 1)), wrap64_small by done.
  by rewrite paginate_nonpos by nia.
Qed.

(** C32: The offset is computed in 64-bit [int] and wraps.  Whenever
    (page−1)·limit is a multiple of 2^64, [FindAll] returns page 1,
    however large the page number. *)
Theorem FindAll_offset_wraps lr db opts :
  (((FO_Page opts - 1) * FO_Limit opts) mod 2 ^ 64 = 0)%Z →
  FindAll lr db opts = FindAll lr db (with_paging opts 1 (FO_Limit opts)).
Proof.
  intros H. rewrite !FindAll_eq, query_rows_paging, page_offset_first. simpl.
  unfold page_offset, int_mul, int_sub. rewrite wrap64_mod_zero; [done|].
  rewrite Zmult_mod, wrap64_mod, <- Zmult_mod. done.
Qed.

(** The total is the number of rows the filters select, whatever
    the page and the limit.  A page holds at most [limit] rows when the
    limit is not negative. *)
Theorem FindAll_total_and_size lr db opts p l :
  (FindAll lr db (with_paging opts p l)).2 = (FindAll lr db opts).2 ∧
  (FindAll lr db opts).2 = Z.of_nat (length (query_rows lr db opts)) ∧
  ((0 ≤ FO_Limit opts)%Z → length (FindAll lr db opts).1 ≤ Z.to_nat (FO_Limit opts)).
Proof.
  rewrite !FindAll_eq, query_rows_paging. split_and!; [done..|]. intros HL. simpl.
  rewrite length_fmap. unfold paginate. rewrite (bool_decide_true (0 ≤ _)%Z) by done.
  rewrite length_take. lia.
Qed.

(** ** Lemmas: [LIKE] on plain ASCII *)

Lemma b2n_chr n : (n < 256)%N → b2n (chr n) = n.
Proof. apply N_ascii_embedding. Qed.

Lemma b2n_lt_256 b : (b2n b < 256)%N.
Proof. apply N_ascii_bounded. Qed.

Lemma b2n_inj : Inj (=) (=) b2n.
Proof. intros a b H. rewrite <- (ascii_N_embedding a), <- (ascii_N_embedding b). by f_equal. Qed.

Lemma cstr_id l : Forall (λ b, b2n b ≠ 0)%N l → cstr l = l.
Proof. induction 1; simpl; [done|]. rewrite bool_decide_false by done. by f_equal. Qed.

Lemma sql_chars_from_single l :
  Forall (λ b, b2n b < 0xC0)%N l → sql_chars_from None l = b2n <$> l.
Proof. induction 1; simpl; [done|]. rewrite bool_decide_false by lia. by f_equal. Qed.

(** Text whose bytes are all ASCII and not NUL reads as one character
    per byte. *)
Lemma sql_chars_ascii s :
  Forall (λ b, 0 < b2n b < 128)%N (list_ascii_of_string s) →
  sql_chars s = b2n <$> list_ascii_of_string s.
Proof.
  intros H. unfold sql_chars. rewrite cstr_id by (eapply Forall_impl; [done|]; simpl; lia).
  apply sql_chars_from_single. eapply Forall_impl; [done|]. simpl; lia.
Qed.

Lemma like_all s : like [37%N] s = true.
Proof.
  cbn [like]. rewrite bool_decide_true by done. apply existsb_exists. exists (length s).
  rewrite in_seq, drop_ge by done. split; [lia|]. by rewrite bool_decide_eq_true.
Qed.

(** [%] tries every split point. *)
Lemma like_pct p s :
  like (37%N :: p) s = true ↔ ∃ k, k ≤ length s ∧ like p (drop k s) = true.
Proof.
  cbn [like]. rewrite bool_decide_true by done. rewrite existsb_exists.
  setoid_rewrite in_seq. split; intros [k Hk]; exists k; naive_solver lia.
Qed.

(** A pattern of ordinary characters followed by [%] matches the texts
    that start with a match of those characters. *)
Lemma like_prefix (w s : list N) :
  Forall (λ c, c ≠ 37 ∧ c ≠ 95)%N w →
  like (w ++ [37%N]) s = true ↔
    ∃ u v, s = u ++ v ∧ Forall2 (λ c c2, like_eq c c2 = true) w u.
Proof.
  intros Hw. revert s. induction Hw as [|c w [H37 H95] Hw IH]; intros s; simpl.
  - split; [intros _; by exists [], s | intros _; apply like_all].
  - rewrite !bool_decide_false by done. destruct s as [|c2 s]; simpl.
    + split; [done|]. intros (u & v & Hs & Hf). inversion Hf; subst. done.
    + rewrite andb_true_iff, IH. split.
      * intros (Hc & u & v & -> & Hf). by exists (c2 :: u), v; split; [|constructor].
      * intros (u & v & Hs & Hf). inversion Hf as [|? c2' ? u' Hc Hf']; subst.
        injection Hs as -> ->. split; [done|]. by exists u', v.
Qed.

(** Characters already folded to lower case. *)
Definition folded (c : N) : Prop := (c < 128 ∧ ¬ (65 ≤ c ≤ 90))%N.

Lemma like_eq_folded c c2 : folded c → folded c2 → like_eq c c2 = true ↔ c = c2.
Proof.
  unfold folded, like_eq, like_fold. intros [? ?] [? ?].
  rewrite orb_true_iff, !bool_decide_eq_true, !bool_decide_false by lia. lia.
Qed.

Lemma Forall2_like_eq_folded w u :
  Forall folded w → Forall folded u →
  Forall2 (λ c c2, like_eq c c2 = true) w u ↔ w = u.
Proof.
  intros Hw. revert u. induction Hw as [|c w Hc Hw IH]; intros u Hu.
  - split; [by inversion 1|intros <-; constructor].
  - split.
    + inversion 1 as [|? c2 ? u' Hcc Hf]; subst. apply Forall_cons in Hu as [Hu1 Hu2].
      apply like_eq_folded in Hcc; [|done..]. subst. f_equal. by apply IH.
    + intros <-. apply Forall_cons in Hu as [Hu1 Hu2].
      constructor; [by apply like_eq_folded|]. by apply IH.
Qed.

(** [%w%] on folded characters is substring search. *)
Lemma like_infix (w t : list N) :
  Forall (λ c, c ≠ 37 ∧ c ≠ 95)%N w → Forall folded w → Forall folded t →
  like (37%N :: w ++ [37%N]) t = true ↔ infix w t.
Proof.
  intros Hp Hw Ht. rewrite like_pct. setoid_rewrite like_prefix; [|done]. split.
  - intros (k & Hk & u & v & Hs & Hf). exists (take k t), v.
    assert (Forall folded u).
    { apply (Forall_app _ u v). rewrite <- Hs. by apply Forall_drop. }
    apply Forall2_like_eq_folded in Hf; [|done..]. subst.
    by rewrite <- Hs, take_drop.
  - intros (a & b & ->). exists (length a). rewrite drop_app_length. split.
    + rewrite !length_app. lia.
    + exists w, b. split; [done|]. apply Forall2_like_eq_folded; [done..|].
      by apply Forall_app in Ht as [_ [? _]%Forall_app].
Qed.

Lemma infix_fmap_inj {A B} (f : A → B) `{!Inj (=) (=) f} (l1 l2 : list A) :
  infix (f <$> l1) (f <$> l2) ↔ infix l1 l2.
Proof.
  split.
  - intros (k1 & k2 & H).
    apply fmap_app_inv in H as (a & r & -> & H & ->). symmetry in H.
    apply fmap_app_inv in H as (w & b & Hw & -> & ->).
    apply (inj (fmap f)) in Hw as ->. by exists a, b.
  - intros (a & b & ->). exists (f <$> a), (f <$> b). by rewrite !fmap_app.
Qed.

Lemma folded_lower b : (b2n b < 128)%N → folded (b2n (ascii_lower b)).
Proof.
  intros H. unfold folded, ascii_lower. case_bool_decide; [|lia].
  rewrite b2n_chr by lia. lia.
Qed.

Lemma lower_lt b : (b2n b < 128)%N → (0 < b2n b)%N → (0 < b2n (ascii_lower b) < 128)%N.
Proof.
  intros H0 H1. unfold ascii_lower. case_bool_decide; [|lia]. rewrite b2n_chr by lia. lia.
Qed.

Lemma ToLower_ascii lr s :
  Forall (λ b, b2n b < 128)%N (list_ascii_of_string s) →
  list_ascii_of_string (ToLower lr s) = ascii_lower <$> list_ascii_of_string s.
Proof.
  intros H. unfold ToLower. rewrite (proj2 (forallb_Forall _ _)).
  - apply list_ascii_of_string_of_list_ascii.
  - eapply Forall_impl; [done|]. intros. by rewrite bool_decide_eq_true.
Qed.

Lemma plain_lower b :
  (0 < b2n b < 128 ∧ b2n b ≠ 37 ∧ b2n b ≠ 95)%N →
  (b2n (ascii_lower b) ≠ 37 ∧ b2n (ascii_lower b) ≠ 95)%N.
Proof. intros H. unfold ascii_lower. case_bool_decide; [|lia]. rewrite b2n_chr by lia. lia. Qed.

(** A [%c%] pattern with [c] above ASCII never matches ASCII text. *)
Lemma like_absent (c : N) (t : list N) :
  (128 ≤ c)%N → Forall (λ x, x < 128)%N t → like [37%N; c; 37%N] t = false.
Proof.
  intros Hc Ht. destruct (like _ t) eqn:E; [|done]. exfalso.
  apply like_pct in E as (k & _ & E).
  apply (like_prefix [c]) in E as (u & v & Hs & Hf); [|repeat constructor; lia].
  inversion Hf as [|? c2 ? ? Hcc]; subst. unfold like_eq in Hcc.
  apply orb_true_iff in Hcc as [Hcc|Hcc]; apply bool_decide_eq_true in Hcc; [|lia].
  subst. apply (Forall_drop _ k) in Ht. rewrite Hs in Ht. inversion Ht. lia.
Qed.

(** ** Lemmas: the rows the query selects *)

Lemma elem_of_query_rows lr db opts m :
  m ∈ query_rows lr db opts ↔
    m ∈ live_problems db ∧ where_filters lr opts m = true ∧
    (FO_TopicSlug opts = "" ∨ join_count db (FO_TopicSlug opts) m ≠ 0).
Proof.
  unfold query_rows. rewrite list_elem_of_In, in_flat_map. setoid_rewrite <- list_elem_of_In.
  split.
  - intros (m' & Hm' & Hin). destruct (where_filters lr opts m') eqn:Ef; [|by apply not_elem_of_nil in Hin].
    case_bool_decide as Ht.
    + apply list_elem_of_singleton in Hin as ->. auto.
    + apply elem_of_replicate in Hin as [-> ?]. auto.
  - intros (Hm & Ef & Ht). exists m. split; [done|]. rewrite Ef.
    case_bool_decide as Ht'; [by left|]. destruct Ht as [Ht|Ht]; [done|].
    by apply elem_of_replicate.
Qed.

Lemma elem_of_join_pairs db slug m jt t :
  (jt, t) ∈ filter (λ '(jt, t), jt.1 = pm_id m ∧ jt.2 = tm_id t ∧ TM_Slug t = slug)
              (list_prod (t_problem_topics db) (t_topics db)) ↔
    jt = (pm_id m, tm_id t) ∧ jt ∈ t_problem_topics db ∧ t ∈ t_topics db ∧ TM_Slug t = slug.
Proof.
  destruct jt as [a b]. rewrite list_elem_of_filter, list_elem_of_In, in_prod_iff, <- !list_elem_of_In.
  simpl. split; [intros [(-> & -> & ?) [? ?]]; auto|intros ([= -> ->] & ? & ? & ?); auto].
Qed.

Lemma join_count_spec db slug m :
  join_count db slug m ≠ 0 ↔
    ∃ t, t ∈ t_topics db ∧ (pm_id m, tm_id t) ∈ t_problem_topics db ∧ TM_Slug t = slug.
Proof.
  pose proof (elem_of_join_pairs db slug m) as Hx. unfold join_count.
  destruct (filter _ _) as [|[jt t] l] eqn:E; simpl.
  - split; [done|]. intros (t & Ht & Hjt & Hs).
    assert (((pm_id m, tm_id t), t) ∈ @nil ((N * N) * TopicModel)) as Hn by (apply Hx; auto).
    by apply not_elem_of_nil in Hn.
  - split; [|done]. intros _. assert ((jt, t) ∈ (jt, t) :: l) as Hin by left.
    apply Hx in Hin as (-> & ? & ? & ?). eauto.
Qed.

Lemma paginate_sublist {A} (off lim : Z) (rows : list A) : paginate off lim rows `sublist_of` rows.
Proof.
  unfold paginate. repeat case_bool_decide; try done; try apply sublist_take;
    try apply sublist_drop. etrans; [apply sublist_take|apply sublist_drop].
Qed.

(** ** Claims: filtering and search *)

(** C29: Every problem [FindAll] lists comes from a live row that passes
    each filter that is set: the difficulty, the category, the search
    term on the SQL-lowered title or slug, and a joined topic with the
    requested slug.  It is a list view: no description and no test
    cases, with the problem's live topics preloaded. *)
Theorem FindAll_filters_sound lr db opts p :
  p ∈ (FindAll lr db opts).1 →
  (∃ m, m ∈ live_problems db ∧ pm_id m = ID p) ∧
  (FO_Difficulty opts = "" ∨ PDifficulty p = FO_Difficulty opts) ∧
  (FO_Category opts = "" ∨ PCategory p = FO_Category opts) ∧
  (FO_Search opts = "" ∨
     sql_like (sql_LOWER (Title p)) (search_pattern lr (FO_Search opts)) = true ∨
     sql_like (sql_LOWER (Slug p)) (search_pattern lr (FO_Search opts)) = true) ∧
  (FO_TopicSlug opts = "" ∨
     ∃ t, t ∈ t_topics db ∧ (ID p, tm_id t) ∈ t_problem_topics db ∧
          TM_Slug t = FO_TopicSlug opts) ∧
  Description p = "" ∧ TestCases p = [] ∧
  Topics p = toDomainTopic <$> preload_Topics db (ID p).
Proof.
  rewrite FindAll_eq. cbn [fst]. intros (m & -> & Hm)%list_elem_of_fmap.
  apply (λ H, elem_of_sublist _ _ _ H (paginate_sublist _ _ _)), elem_of_query_rows in Hm
    as (Hlive & Hf & Ht).
  unfold where_filters in Hf. apply andb_true_iff in Hf as [Hf Hs].
  apply andb_true_iff in Hf as [Hd Hc]. apply orb_true_iff in Hd, Hc, Hs.
  rewrite !bool_decide_eq_true in Hd, Hc. rewrite bool_decide_eq_true, orb_true_iff in Hs.
  split_and!; [by exists m|done|done|done| |done..].
  destruct Ht as [Ht|Ht]; [by left|right]. by apply join_count_spec in Ht.
Qed.

(** C30: For a plain ASCII search term (no NUL, no [%], no [_]) and
    ASCII text, the search clause is case-insensitive substring search:
    [LOWER(text) LIKE '%term%'] holds exactly when the lower-cased term
    occurs in the lower-cased text. *)
Theorem search_ascii_infix lr (w text : string) :
  plain_term w = true → ascii_text text = true →
  sql_like (sql_LOWER text) (search_pattern lr w) = true ↔
  infix (ascii_lower <$> list_ascii_of_string w) (ascii_lower <$> list_ascii_of_string text).
Proof.
  intros Hw' Ht'. apply forallb_bool_decide in Hw', Ht'.
  assert (Hp : list_ascii_of_string (search_pattern lr w) =
                 "%"%char :: (ascii_lower <$> list_ascii_of_string w) ++ ["%"%char]).
  { unfold search_pattern. rewrite !list_ascii_of_string_app, ToLower_ascii; [done|].
    eapply Forall_impl; [done|]. simpl. lia. }
  assert (Hl : list_ascii_of_string (sql_LOWER text) = ascii_lower <$> list_ascii_of_string text)
    by apply list_ascii_of_string_of_list_ascii.
  unfold sql_like. rewrite !sql_chars_ascii, Hp, Hl.
  - rewrite fmap_cons, fmap_app. change (b2n "%"%char) with 37%N.
    rewrite like_infix, infix_fmap_inj; [done|apply b2n_inj|..];
      rewrite !Forall_fmap; (eapply Forall_impl; [done|]); intros b Hb; simpl in Hb |- *.
    + by apply plain_lower.
    + apply folded_lower. lia.
    + apply folded_lower. lia.
  - rewrite Hl, Forall_fmap. eapply Forall_impl; [done|]. intros b Hb. simpl in *. apply lower_lt; lia.
  - rewrite Hp. constructor; [simpl; lia|]. apply Forall_app. split; [|repeat constructor].
    rewrite Forall_fmap. eapply Forall_impl; [done|]. intros b Hb. simpl in *. apply lower_lt; lia.
Qed.

(** C31: The search term is lowered by Go's Unicode-aware
    [strings.ToLower], the title by SQLite's ASCII-only [LOWER].  So
    where [unicode.ToLower] maps É to é, searching for "É" misses a
    problem titled "É" whose slug is ASCII, although the title is
    exactly the search term. *)
Theorem search_non_ascii_miss lr db opts m :
  lr 0xC9%N = 0xE9%N → FO_Search opts = E_acute → PM_Title m = E_acute →
  ascii_text (PM_Slug m) = true →
  m ∉ query_rows lr db opts.
Proof.
  intros Hlr Hs Ht Hslug Hm. apply elem_of_query_rows in Hm as (_ & Hf & _).
  unfold where_filters, sql_like in Hf. rewrite Hs, Ht in Hf.
  assert (Hl : ToLower lr E_acute = string_of_list_ascii (utf8_encode (lr 0xC9%N) ++ []))
    by reflexivity.
  assert (Hp : sql_chars (search_pattern lr E_acute) = [37; 233; 37]%N)
    by (unfold search_pattern; rewrite Hl, Hlr; vm_compute; reflexivity).
  assert (Htitle : like [37; 233; 37]%N (sql_chars (sql_LOWER E_acute)) = false)
    by (vm_compute; reflexivity).
  apply forallb_bool_decide in Hslug.
  assert (Hlow : Forall (λ b, 0 < b2n b < 128)%N (list_ascii_of_string (sql_LOWER (PM_Slug m)))).
  { unfold sql_LOWER. rewrite list_ascii_of_string_of_list_ascii, Forall_fmap.
    eapply Forall_impl; [done|]. intros b Hb. simpl in *. apply lower_lt; lia. }
  assert (Hslug' : Forall (λ x, x < 128)%N (sql_chars (sql_LOWER (PM_Slug m)))).
  { rewrite sql_chars_ascii, Forall_fmap by done. eapply Forall_impl; [done|]. simpl. lia. }
  rewrite Hp, Htitle, (like_absent 233 _ ltac:(lia) Hslug'),
    (bool_decide_false (E_acute = "")) in Hf by done.
  cbn [orb] in Hf. by rewrite andb_false_r in Hf.
Qed.

(** ** Lemmas: sorting, soft delete, preloading *)

Lemma insert_by_count_perm t l : insert_by_count t l ≡ₚ t :: l.
Proof.
  induction l as [|u l IH]; simpl; [done|]. case_bool_decide; [done|].
  rewrite IH. by constructor.
Qed.

Lemma insert_by_count_sorted t l :
  Sorted count_desc l → Sorted count_desc (insert_by_count t l).
Proof.
  unfold count_desc. induction 1 as [|u l Hl IH Hhd]; simpl.
  - by repeat constructor.
  - case_bool_decide; [by repeat constructor|].
    constructor; [done|]. destruct l as [|v l]; simpl; [constructor; lia|].
    case_bool_decide; constructor; [lia|]. by inversion Hhd.
Qed.

Lemma sort_by_count_spec l : Sorted count_desc (sort_by_count l) ∧ sort_by_count l ≡ₚ l.
Proof.
  induction l as [|t l [IHs IHp]]; simpl; [split; [constructor|done]|].
  split; [by apply insert_by_count_sorted|]. by rewrite insert_by_count_perm, IHp.
Qed.

Lemma live_problems_Delete now id db :
  live_problems (Delete now id db) = filter (λ m, pm_id m ≠ id) (live_problems db).
Proof.
  unfold live_problems, Delete. simpl. induction (t_problems db) as [|m l IH]; [done|].
  rewrite fmap_cons, !filter_cons.
  destruct (gm_live (PM_Model m)) eqn:Hl; destruct (decide (pm_id m = id)) as [Hi|Hi];
    rewrite ?(bool_decide_true (pm_id m = id)), ?(bool_decide_false (pm_id m = id)) by done;
    simpl; rewrite ?Hl; repeat case_decide; simplify_eq/=; rewrite ?filter_cons;
    repeat case_decide; simplify_eq/=; try done; by f_equal.
Qed.

(** [first_where] keeps only the row [list_find] finds. *)
Lemma first_where_find db P :
  first_where db P =
    match snd <$> list_find (λ m, P m = true) (live_problems db) with
    | Some m => Ok m | None => Err ErrRecordNotFound
    end.
Proof. unfold first_where. by destruct (list_find _ _) as [[]|]. Qed.

Lemma preload_Delete now id db m : preload (Delete now id db) m = preload db m.
Proof. reflexivity. Qed.

(** ** Claims: topics, deletion, the visible test cases *)

(** C34: [GetTopics] lists every row of the topics table once, with the
    number of join rows that name it, ordered by that count from the
    largest down.  The count is taken over the join table alone, so
    soft-deleted topics are listed and soft-deleted problems are
    counted. *)
Theorem GetTopics_spec db :
  Sorted count_desc (GetTopics db) ∧ GetTopics db ≡ₚ topic_row db <$> t_topics db.
Proof. apply sort_by_count_spec. Qed.

(** C33: [Delete] is a soft delete.  Afterwards [FindByID] does not find
    the deleted id, and it finds every other problem exactly as before.
    [GetTopics] does not change: the deleted problem still counts
    towards its topics. *)
Theorem Delete_spec now id db :
  FindByID (Delete now id db) id = Err ErrRecordNotFound ∧
  (∀ id', id' ≠ id → FindByID (Delete now id db) id' = FindByID db id') ∧
  GetTopics (Delete now id db) = GetTopics db.
Proof.
  unfold FindByID. split_and!; [| |done].
  - rewrite first_where_find, live_problems_Delete.
    rewrite (proj2 (list_find_None _ _)); [done|].
    apply Forall_forall. intros m [Hm _]%list_elem_of_filter. by rewrite bool_decide_eq_true.
  - intros id' Hid. rewrite !first_where_find, live_problems_Delete, list_find_filter.
    + by destruct (snd <$> _).
    + intros m Hm%bool_decide_eq_true. congruence.
Qed.

(** [GetProblem] returns the problem with the requested slug and only
    its visible test cases: the live test-case rows of the problem that
    are not hidden, in rowid order. *)
Lemma GetProblem_visible_only db slug p :
  GetProblem db slug = Ok p →
  Slug p = slug ∧
  TestCases p = toDomainTestCase <$> filter (λ tc, TCM_IsHidden tc = false)
                                       (preload_TestCases db (ID p)) ∧
  Forall (λ tc, IsHidden tc = false) (TestCases p).
Proof.
  unfold GetProblem, FindBySlug. rewrite first_where_find.
  destruct (snd <$> _) as [m|] eqn:E; simpl; [|discriminate]. intros [= <-].
  apply fmap_Some in E as ([i m'] & E & Hm). simpl in Hm. subst m.
  apply list_find_Some in E as (_ & Hs & _).
  apply bool_decide_eq_true in Hs.
  assert (Hv : TestCases (set_TestCases (toDomainProblem (preload db m'))
                 (VisibleTestCases (toDomainProblem (preload db m')))) =
               toDomainTestCase <$> filter (λ tc, TCM_IsHidden tc = false)
                                      (preload_TestCases db (pm_id m'))).
  { rewrite set_TestCases_TestCases. unfold VisibleTestCases. simpl.
    by rewrite visible_loop_filter, filter_fmap_comm. }
  rewrite Hv. split_and!; [exact Hs|reflexivity|]. apply Forall_fmap, Forall_forall.
  intros tc Htc%list_elem_of_filter. apply Htc.
Qed.

(** ** [FindByID] as lookup in the map of live problems *)

Lemma list_to_map_lookup_find {K V} `{Countable K} (l : list (K * V)) k :
  (list_to_map l : gmap K V) !! k = (λ ip, ip.2.2) <$> list_find (λ p, p.1 = k) l.
Proof.
  induction l as [|[k' v] l IH]; [by rewrite list_to_map_nil, lookup_empty|].
  rewrite list_to_map_cons. simpl. case_decide as Hk; simpl in *.
  - subst. by rewrite lookup_insert_eq.
  - rewrite lookup_insert_ne, IH by done. by destruct (list_find _ l) as [[]|].
Qed.

(** [FindByID] is lookup in [problems_by_id]: it finds a problem
    exactly when the map of live problems has one under that id, and
    otherwise fails with [gorm.ErrRecordNotFound]. *)
Theorem FindByID_lookup db id :
  FindByID db id =
    match problems_by_id db !! id with Some p => Ok p | None => Err ErrRecordNotFound end.
Proof.
  unfold FindByID, problems_by_id. rewrite first_where_find, list_to_map_lookup_find, list_find_fmap.
  assert (Hf : ∀ o : option (nat * ProblemModel),
      (λ ip, ip.2.2) <$> (prod_map Datatypes.id (λ m, (pm_id m, toDomainProblem (preload db m))) <$> o) =
      (λ m, (toDomainProblem (preload db m))) <$> (snd <$> o)) by (intros [[]|]; done).
  rewrite Hf, (list_find_ext ((λ p : N * Problem, p.1 = id) ∘
                              (λ m, (pm_id m, toDomainProblem (preload db m))))
                 (λ m, bool_decide (pm_id m = id) = true));
    [by destruct (snd <$> _)|]. intros m. simpl. by rewrite bool_decide_eq_true.
Qed.

(** ** Witnesses *)

Lemma FindAll_pages_partition_witness :
  (0 < 1)%Z ∧ (Z.of_nat 2 * 1 ≤ int_max)%Z ∧
  mjoin ((λ i, (FindAll latin1_lower catalog_example
                  (with_paging DefaultFindOptions (Z.of_nat i + 1) 1)).1) <$> seq 0 2) =
  (FindAll latin1_lower catalog_example (with_paging DefaultFindOptions 1 (Z.of_nat 2 * 1))).1.
Proof.
  split; [lia|]. split; [unfold int_max; lia|]. apply FindAll_pages_partition; [lia|unfold int_max; lia].
Defined.

Lemma FindAll_page_below_one_witness :
  let opts := with_paging DefaultFindOptions 0 50 in
  (0 ≤ FO_Limit opts)%Z ∧ (FO_Page opts ≤ 1)%Z ∧ in_int (FO_Page opts - 1) ∧
  in_int ((FO_Page opts - 1) * FO_Limit opts) ∧
  FindAll latin1_lower catalog_example opts =
    FindAll latin1_lower catalog_example (with_paging opts 1 (FO_Limit opts)).
Proof.
  simpl. unfold in_int, int_min, int_max. split_and!; try lia.
  apply FindAll_page_below_one; simpl; unfold in_int, int_min, int_max; lia.
Defined.

Lemma FindAll_offset_wraps_witness :
  let opts := with_paging DefaultFindOptions (2 ^ 62 + 1) 4 in
  (((FO_Page opts - 1) * FO_Limit opts) mod 2 ^ 64 = 0)%Z ∧
  FindAll latin1_lower catalog_example opts =
    FindAll latin1_lower catalog_example (with_paging opts 1 (FO_Limit opts)).
Proof. simpl. split; [reflexivity|]. apply FindAll_offset_wraps. reflexivity. Defined.

Lemma FindAll_total_and_size_witness :
  (0 ≤ FO_Limit DefaultFindOptions)%Z ∧
  length (FindAll latin1_lower catalog_example DefaultFindOptions).1 ≤
    Z.to_nat (FO_Limit DefaultFindOptions).
Proof.
  split; [simpl; lia|].
  apply (FindAll_total_and_size latin1_lower catalog_example DefaultFindOptions 1 1).
  simpl; lia.
Defined.

Lemma FindAll_filters_sound_witness :
  let opts := {| FO_Page := 1; FO_Limit := 10; FO_Difficulty := Easy; FO_Category := "";
                 FO_TopicSlug := "array"; FO_Search := "sum" |} in
  let p := list_view catalog_example (problem_row 1 "two-sum" "Two Sum" Easy None) in
  p ∈ (FindAll latin1_lower catalog_example opts).1 ∧
  ((∃ m, m ∈ live_problems catalog_example ∧ pm_id m = ID p) ∧
   (FO_Difficulty opts = "" ∨ PDifficulty p = FO_Difficulty opts) ∧
   (FO_Category opts = "" ∨ PCategory p = FO_Category opts) ∧
   (FO_Search opts = "" ∨
      sql_like (sql_LOWER (Title p)) (search_pattern latin1_lower (FO_Search opts)) = true ∨
      sql_like (sql_LOWER (Slug p)) (search_pattern latin1_lower (FO_Search opts)) = true) ∧
   (FO_TopicSlug opts = "" ∨
      ∃ t, t ∈ t_topics catalog_example ∧ (ID p, tm_id t) ∈ t_problem_topics catalog_example ∧
           TM_Slug t = FO_TopicSlug opts) ∧
   Description p = "" ∧ TestCases p = [] ∧
   Topics p = toDomainTopic <$> preload_Topics catalog_example (ID p)).
Proof.
  simpl. assert (Hin : list_view catalog_example (problem_row 1 "two-sum" "Two Sum" Easy None) ∈
    (FindAll latin1_lower catalog_example
       {| FO_Page := 1; FO_Limit := 10; FO_Difficulty := Easy; FO_Category := "";
          FO_TopicSlug := "array"; FO_Search := "sum" |}).1) by (vm_compute; left).
  split; [exact Hin|]. exact (FindAll_filters_sound _ _ _ _ Hin).
Defined.

Lemma search_ascii_infix_witness :
  plain_term "sum" = true ∧ ascii_text "Two Sum" = true ∧
  (sql_like (sql_LOWER "Two Sum") (search_pattern latin1_lower "sum") = true ↔
   infix (ascii_lower <$> list_ascii_of_string "sum")
         (ascii_lower <$> list_ascii_of_string "Two Sum")).
Proof.
  split; [reflexivity|]. split; [reflexivity|]. apply search_ascii_infix; reflexivity.
Defined.

Lemma search_non_ascii_miss_witness :
  let opts := with_paging DefaultFindOptions 1 50 in
  let opts' := {| FO_Page := 1; FO_Limit := 50; FO_Difficulty := ""; FO_Category := "";
                  FO_TopicSlug := ""; FO_Search := E_acute |} in
  let m := problem_row 4 "e" E_acute Hard None in
  latin1_lower 0xC9%N = 0xE9%N ∧ FO_Search opts' = E_acute ∧ PM_Title m = E_acute ∧
  ascii_text (PM_Slug m) = true ∧ m ∉ query_rows latin1_lower catalog_example opts'.
Proof.
  simpl. split_and!; try reflexivity. apply search_non_ascii_miss; reflexivity.
Defined.

Lemma Delete_spec_witness :
  (2 ≠ 1)%N ∧ FindByID (Delete 7%Z 1 catalog_example) 2 = FindByID catalog_example 2.
Proof. split; [lia|]. apply (Delete_spec 7%Z 1 catalog_example). lia. Defined.


End Catalog.
