(* ===== verification/ProblemStore.v ===== *)
(** * Writing the problem tables (sqlite/problem_repo.go, sqlite/db.go, cmd/api/main.go)

    [ProblemRepository.Create] and [Update] go through GORM's [Create]
    and [Save] with the problem's associations, and [seedData] in
    main.go fills a fresh database with [FirstOrCreate] and [Create].
    The tables are [Catalog.Tables], each kept in rowid order.

    GORM's behaviour is modelled from its documentation and the SQLite
    dialect:
    - [Create] runs in a transaction.  It inserts the problem row, giving
      a zero id the next AUTOINCREMENT value, and stamps zero
      [CreatedAt] and [UpdatedAt] with the time of the call.  A taken id
      or slug fails the whole call.  The unique index on [slug] covers
      soft-deleted rows too.
    - The has-many [TestCases] are upserted with
      [ON CONFLICT (id) DO UPDATE SET problem_id]; [problem_id] is set to
      the parent's id first.
    - The many2many [Topics] are inserted with [ON CONFLICT DO NOTHING]:
      a topic that collides on its id, name or slug is left alone and
      keeps the id it came with.  The join rows are then inserted with
      [ON CONFLICT DO NOTHING].
    - [Save] with a zero id is [Create].  Otherwise it updates every
      column of the live row with that id: [created_at] takes the
      model's value, [updated_at] the time of the call.  When no live
      row is updated, it falls back to [Create] with
      [ON CONFLICT (id) DO UPDATE] of every column but [created_at].  In
      both cases it then saves the associations as [Create] does. *)

From S2P Require Import Prelude ProblemDomain Json Persistence Catalog.
From Stdlib Require Import PrimFloat.

Module Store.

Import Problem Rows Catalog.

(** ** Rows and ids *)

(** The largest id of a table, 0 when it is empty. *)
Definition max_id (ids : list N) : N := foldr N.max 0%N ids.

(** AUTOINCREMENT: one more than the largest id the table has held.
    Rows are never removed (deletes are soft), so that is the largest id
    present. *)
Definition next_id (ids : list N) : N := (max_id ids + 1)%N.

(** A row enters the list at its rowid's place. *)
Fixpoint insert_by_id {A} (key : A → N) (x : A) (l : list A) : list A :=
  match l with
  | [] => [x]
  | y :: l' => if bool_decide (key x < key y)%N then x :: l else y :: insert_by_id key x l'
  end.

Definition ErrUniqueProblemsID : string := "UNIQUE constraint failed: problems.id".
Definition ErrUniqueProblemsSlug : string := "UNIQUE constraint failed: problems.slug".

Definition tc_id (tc : TestCaseModel) : N := GM_ID (TCM_Model tc).

Definition set_gm_id (id : N) (g : GormModel) : GormModel :=
  {| GM_ID := id; GM_CreatedAt := GM_CreatedAt g; GM_UpdatedAt := GM_UpdatedAt g;
     GM_DeletedAt := GM_DeletedAt g |}.

(** GORM's create-time timestamps: a zero [CreatedAt] or [UpdatedAt]
    becomes the time of the call. *)
Definition stamp (now : Time) (g : GormModel) : GormModel :=
  {| GM_ID := GM_ID g;
     GM_CreatedAt := if bool_decide (GM_CreatedAt g = zero_time) then now else GM_CreatedAt g;
     GM_UpdatedAt := if bool_decide (GM_UpdatedAt g = zero_time) then now else GM_UpdatedAt g;
     GM_DeletedAt := GM_DeletedAt g |}.

(** What the problems table holds of a model: its columns. *)
Definition bare (m : ProblemModel) : ProblemModel := with_assoc m [] [].

Definition set_problems (ps : list ProblemModel) (db : Tables) : Tables :=
  {| t_problems := ps; t_test_cases := t_test_cases db; t_topics := t_topics db;
     t_problem_topics := t_problem_topics db |}.

Definition set_test_cases (tcs : list TestCaseModel) (db : Tables) : Tables :=
  {| t_problems := t_problems db; t_test_cases := tcs; t_topics := t_topics db;
     t_problem_topics := t_problem_topics db |}.

Definition set_topics (ts : list TopicModel) (js : list (N * N)) (db : Tables) : Tables :=
  {| t_problems := t_problems db; t_test_cases := t_test_cases db; t_topics := ts;
     t_problem_topics := js |}.

Definition set_tc (g : GormModel) (pid : N) (tc : TestCaseModel) : TestCaseModel :=
  {| TCM_Model := g; TCM_ProblemID := pid; TCM_Input := TCM_Input tc;
     TCM_Expected := TCM_Expected tc; TCM_IsHidden := TCM_IsHidden tc |}.

Definition set_tm_model (g : GormModel) (t : TopicModel) : TopicModel :=
  {| TM_Model := g; TM_Name := TM_Name t; TM_Slug := TM_Slug t |}.

(** ** Associations *)

(** One test case of the has-many association: [problem_id] is set to
    the parent's, then [INSERT ... ON CONFLICT (id) DO UPDATE SET
    problem_id = excluded.problem_id]. *)
Definition save_test_case (now : Time) (pid : N) (tcs : list TestCaseModel)
    (tc : TestCaseModel) : list TestCaseModel :=
  let id := tc_id tc in
  if bool_decide (id ≠ 0%N ∧ id ∈ tc_id <$> tcs) then
    (λ t, if bool_decide (tc_id t = id) then set_tc (TCM_Model t) pid t else t) <$> tcs
  else
    let id' := if bool_decide (id = 0%N) then next_id (tc_id <$> tcs) else id in
    insert_by_id tc_id (set_tc (stamp now (set_gm_id id' (TCM_Model tc))) pid tc) tcs.

(** A topic of the many2many association collides when its id (if set),
    its name or its slug is taken by some row, deleted or not. *)
Definition topic_collides (ts : list TopicModel) (t : TopicModel) : bool :=
  bool_decide ((tm_id t ≠ 0%N ∧ tm_id t ∈ tm_id <$> ts) ∨
               TM_Name t ∈ TM_Name <$> ts ∨ TM_Slug t ∈ TM_Slug <$> ts).

(** [INSERT INTO topics ... ON CONFLICT DO NOTHING]: a colliding topic
    is left alone and keeps its id; the id each topic ends with is what
    its join row names. *)
Definition save_topic (now : Time) (st : list TopicModel * list N) (t : TopicModel)
    : list TopicModel * list N :=
  let '(ts, ids) := st in
  if topic_collides ts t then (ts, ids ++ [tm_id t])
  else
    let id := if bool_decide (tm_id t = 0%N) then next_id (tm_id <$> ts) else tm_id t in
    (insert_by_id tm_id (set_tm_model (stamp now (set_gm_id id (TM_Model t))) t) ts, ids ++ [id]).

(** [INSERT INTO problem_topics ... ON CONFLICT DO NOTHING]. *)
Definition add_join (js : list (N * N)) (j : N * N) : list (N * N) :=
  if bool_decide (j ∈ js) then js else js ++ [j].

(** GORM's [SaveAfterAssociations] for a problem row with id [pid]. *)
Definition save_associations (now : Time) (pid : N) (m : ProblemModel) (db : Tables) : Tables :=
  let tcs := foldl (save_test_case now pid) (t_test_cases db) (PM_TestCases m) in
  let '(ts, ids) := foldl (save_topic now) (t_topics db, []) (PM_Topics m) in
  set_topics ts (foldl add_join (t_problem_topics db) ((λ tid, (pid, tid)) <$> ids))
    (set_test_cases tcs db).

(** ** GORM's [Create] and [Save] on a problem model *)

(** The INSERT of the problem row: its id, or the constraint it fails. *)
Definition insert_problem (now : Time) (m : ProblemModel) (db : Tables) : Result (N * Tables) :=
  let ids := pm_id <$> t_problems db in
  let id := if bool_decide (pm_id m = 0%N) then next_id ids else pm_id m in
  if bool_decide (id ∈ ids) then Err ErrUniqueProblemsID
  else if bool_decide (PM_Slug m ∈ PM_Slug <$> t_problems db) then Err ErrUniqueProblemsSlug
  else Ok (id, set_problems (insert_by_id pm_id
                               (bare (set_model m (stamp now (set_gm_id id (PM_Model m)))))
                               (t_problems db)) db).

(** [db.Create(&model)]: the row, then its associations; on an error the
    transaction is rolled back and the tables are unchanged. *)
Definition gorm_Create (now : Time) (m : ProblemModel) (db : Tables) : Result (N * Tables) :=
  match insert_problem now m db with
  | Ok (id, db1) => Ok (id, save_associations now id m db1)
  | Err e => Err e
  end.

(** Another row already has this slug. *)
Definition slug_clash (db : Tables) (id : N) (slug : string) : bool :=
  existsb (λ r, bool_decide (pm_id r ≠ id ∧ PM_Slug r = slug)) (t_problems db).

(** [UPDATE problems SET <every column but id> WHERE id = ? AND
    deleted_at IS NULL]: [created_at] and [deleted_at] from the model,
    [updated_at] now. *)
Definition update_row (now : Time) (m old : ProblemModel) : ProblemModel :=
  bare (set_model m {| GM_ID := pm_id old; GM_CreatedAt := GM_CreatedAt (PM_Model m);
                       GM_UpdatedAt := now; GM_DeletedAt := GM_DeletedAt (PM_Model m) |}).

(** [ON CONFLICT (id) DO UPDATE] of every column but the id and
    [created_at], [updated_at] now. *)
Definition upsert_row (now : Time) (m old : ProblemModel) : ProblemModel :=
  bare (set_model m {| GM_ID := pm_id old; GM_CreatedAt := GM_CreatedAt (PM_Model old);
                       GM_UpdatedAt := now; GM_DeletedAt := GM_DeletedAt (PM_Model m) |}).

(** [db.Save(&model)]. *)
Definition gorm_Save (now : Time) (m : ProblemModel) (db : Tables) : Result Tables :=
  if bool_decide (pm_id m = 0%N) then result_map snd (gorm_Create now m db)
  else match list_find (λ r, pm_id r = pm_id m) (t_problems db) with
       | Some (i, old) =>
           if slug_clash db (pm_id m) (PM_Slug m) then Err ErrUniqueProblemsSlug
           else
             let row := if gm_live (PM_Model old) then update_row now m old
                        else upsert_row now m old in
             Ok (save_associations now (pm_id m) m (set_problems (<[i := row]> (t_problems db)) db))
       | None => result_map snd (gorm_Create now m db)
       end.

(** ** The repository's operations *)

Definition set_ID (p : Problem) (id : N) : Problem :=
  {| ID := id; Slug := Slug p; Title := Title p; PDifficulty := PDifficulty p;
     PCategory := PCategory p; Description := Description p; Examples := Examples p;
     Constraints := Constraints p; StarterCode := StarterCode p;
     AcceptanceRate := AcceptanceRate p; Submissions := Submissions p; Accepted := Accepted p;
     IsPremium := IsPremium p; Topics := Topics p; TestCases := TestCases p;
     CreatedAt := CreatedAt p; UpdatedAt := UpdatedAt p |}.

(** [ProblemRepository.Create]: on success the problem gets the row's
    id, and only the id. *)
Definition Create (now : Time) (p : Problem) : ST Tables (Result Problem) :=
  λ db, match gorm_Create now (toModelProblem p) db with
        | Ok (id, db') => (Ok (set_ID p id), db')
        | Err e => (Err e, db)
        end.

(** [ProblemRepository.Update]: [Save] of [toModelProblem]. *)
Definition Update (now : Time) (p : Problem) : ST Tables (option string) :=
  λ db, match gorm_Save now (toModelProblem p) db with
        | Ok db' => (None, db')
        | Err e => (Some e, db)
        end.

(** ** The seed (cmd/api/main.go) *)

(** [NewDB] after [os.Remove]: [AutoMigrate] creates the tables empty. *)
Definition NewDB : Tables :=
  {| t_problems := []; t_test_cases := []; t_topics := []; t_problem_topics := [] |}.

(** [Where(TopicModel{Slug: slug}).First(&topic)]: the first live topic
    with the slug, and with the destination's id when it has one. *)
Definition topic_first (db : Tables) (t : TopicModel) : option TopicModel :=
  snd <$> list_find (λ r, gm_live (TM_Model r) = true ∧ TM_Slug r = TM_Slug t ∧
                          (tm_id t = 0%N ∨ tm_id r = tm_id t)) (t_topics db).

(** A plain [Create] of a topic: [None] when a unique constraint fails
    (the error, which [seedData] ignores, is not modelled). *)
Definition topic_Create (now : Time) (t : TopicModel) (db : Tables) : option (TopicModel * Tables) :=
  if topic_collides (t_topics db) t then None
  else
    let id := if bool_decide (tm_id t = 0%N) then next_id (tm_id <$> t_topics db) else tm_id t in
    let t' := set_tm_model (stamp now (set_gm_id id (TM_Model t))) t in
    Some (t', set_topics (insert_by_id tm_id t' (t_topics db)) (t_problem_topics db) db).

(** [db.FirstOrCreate(&topic, TopicModel{Slug: topic.Slug})]. *)
Definition FirstOrCreate (now : Time) (t : TopicModel) (db : Tables) : TopicModel * Tables :=
  match topic_first db t with
  | Some r => (r, db)
  | None => match topic_Create now t db with Some r => r | None => (t, db) end
  end.

Section Seed.

(** [sqlite.DefaultTopics()] and [sqlite.SeedProblems()] are not in the
    repository; they are parameters. *)
Variable DefaultTopics : list TopicModel.
Variable SeedProblems : list Problem.

(** One problem of the seed: created unless [FindBySlug] finds its
    slug; errors are ignored. *)
Definition seed_problem (now : Time) (db : Tables) (p : Problem) : Tables :=
  match FindBySlug db (Slug p) with
  | Ok _ => db
  | Err _ => (Create now p db).2
  end.

(** [seedData]: the topics, then the problems. *)
Definition seedData (now : Time) (db : Tables) : Tables :=
  let db1 := foldl (λ db t, (FirstOrCreate now t db).2) db DefaultTopics in
  foldl (seed_problem now) db1 SeedProblems.

End Seed.

(** ** Example data *)

Definition seed_tc (input expected : string) (hidden : bool) : TestCase :=
  {| TC_ID := 0; TC_ProblemID := 0; Input := input; Expected := expected; IsHidden := hidden |}.

Definition seed_problem_example (slug title : string) (tcs : list TestCase) : Problem :=
  {| ID := 0; Slug := slug; Title := title; PDifficulty := Easy; PCategory := CategoryAlgorithms;
     Description := "desc"; Examples := ""; Constraints := ""; StarterCode := "";
     AcceptanceRate := 0%float; Submissions := 0; Accepted := 0; IsPremium := false;
     Topics := []; TestCases := tcs; CreatedAt := zero_time; UpdatedAt := zero_time |}.

Definition anagram_example : Problem :=
  seed_problem_example "valid-anagram" "Valid Anagram"
    [seed_tc "anagram,nagaram" "true" false; seed_tc "rat,car" "false" true].

Definition seed_example : list Problem :=
  [anagram_example;
   seed_problem_example "climbing-stairs" "Climbing Stairs" [seed_tc "2" "2" false];
   seed_problem_example "valid-anagram" "Valid Anagram (again)" []].

Definition topic_example : TopicModel :=
  {| TM_Model := gorm_model_id 0; TM_Name := "Array"; TM_Slug := "array" |}.

(** [two-sum] as [FindByID] loads it. *)
Definition two_sum_loaded : Problem :=
  toDomainProblem (preload catalog_example (problem_row 1 "two-sum" "Two Sum" Easy None)).

(** ** Notions the theorems use *)

(** The invariant of the problem tables that every write keeps: ids
    are unique and not zero, slugs are unique (the unique index), and
    every test case and join row belongs to a problem row. *)
Definition wf_tables (db : Tables) : Prop :=
  NoDup (pm_id <$> t_problems db) ∧ 0%N ∉ pm_id <$> t_problems db ∧
  NoDup (PM_Slug <$> t_problems db) ∧
  Forall (λ tc, TCM_ProblemID tc ∈ pm_id <$> t_problems db) (t_test_cases db) ∧
  Forall (λ j, j.1 ∈ pm_id <$> t_problems db) (t_problem_topics db).

(** What a test case is, apart from its ids. *)
Definition tc_data (tc : TestCase) : string * string * bool := (Input tc, Expected tc, IsHidden tc).

(** The data of a test-case row, apart from its ids. *)
Definition tcm_data (tc : TestCaseModel) : string * string * bool :=
  (TCM_Input tc, TCM_Expected tc, TCM_IsHidden tc).

(** The columns of a problem a client sets. *)
Definition same_columns (p q : Problem) : Prop :=
  Slug q = Slug p ∧ Title q = Title p ∧ PDifficulty q = PDifficulty p ∧
  PCategory q = PCategory p ∧ Description q = Description p ∧ Examples q = Examples p ∧
  Constraints q = Constraints p ∧ StarterCode q = StarterCode p ∧
  AcceptanceRate q = AcceptanceRate p ∧ Submissions q = Submissions p ∧
  Accepted q = Accepted p ∧ IsPremium q = IsPremium p.

(** ** Lemmas *)

Lemma max_id_ge ids i : i ∈ ids → (i ≤ max_id ids)%N.
Proof. induction 1; simpl; lia. Qed.

Lemma next_id_gt ids : Forall (λ i, i < next_id ids)%N ids.
Proof. apply Forall_forall. intros i Hi. apply max_id_ge in Hi. unfold next_id. lia. Qed.

Lemma next_id_fresh ids : next_id ids ∉ ids.
Proof. intros Hi. pose proof (max_id_ge _ _ Hi). unfold next_id in *. lia. Qed.

Lemma insert_by_id_last {A} (key : A → N) x l :
  Forall (λ y, key y < key x)%N l → insert_by_id key x l = l ++ [x].
Proof.
  induction 1 as [|y l Hy _ IH]; simpl; [done|].
  rewrite bool_decide_false by lia. by rewrite IH.
Qed.

Lemma insert_by_id_perm {A} (key : A → N) x l : insert_by_id key x l ≡ₚ x :: l.
Proof.
  induction l as [|y l IH]; simpl; [done|].
  case_bool_decide; [done|]. rewrite IH. by constructor.
Qed.

Lemma save_test_case_new now pid tcs tc :
  tc_id tc = 0%N → GM_DeletedAt (TCM_Model tc) = None →
  ∃ tc', save_test_case now pid tcs tc = tcs ++ [tc'] ∧ TCM_ProblemID tc' = pid ∧
         gm_live (TCM_Model tc') = true ∧ tcm_data tc' = tcm_data tc ∧
         tc_id tc' = next_id (tc_id <$> tcs).
Proof.
  intros Hid Hdel. unfold save_test_case. rewrite Hid, bool_decide_false by naive_solver.
  rewrite bool_decide_true by done. eexists; split; [apply insert_by_id_last|].
  - pose proof (next_id_gt (tc_id <$> tcs)) as H. rewrite Forall_fmap in H.
    eapply Forall_impl; [exact H|]. done.
  - unfold gm_live. simpl. by rewrite Hdel.
Qed.

Lemma save_test_cases_new now pid L tcs :
  Forall (λ tc, tc_id tc = 0%N ∧ GM_DeletedAt (TCM_Model tc) = None) L →
  ∃ new, foldl (save_test_case now pid) tcs L = tcs ++ new ∧
         Forall (λ tc, TCM_ProblemID tc = pid ∧ gm_live (TCM_Model tc) = true) new ∧
         tcm_data <$> new = tcm_data <$> L.
Proof.
  induction 1 as [|tc L [Hid Hdel] _ IH] in tcs |- *; simpl; [exists []; by rewrite app_nil_r|].
  destruct (save_test_case_new now pid tcs tc Hid Hdel) as (tc' & -> & Hp & Hl & Hd & _).
  destruct (IH (tcs ++ [tc'])) as (new & -> & Hnew & Hdata).
  exists (tc' :: new). rewrite <-app_assoc. split_and!; [done|by constructor|simpl; by f_equal].
Qed.

Lemma first_where_snoc db ps r P :
  t_problems db = ps ++ [r] → gm_live (PM_Model r) = true → P r = true →
  Forall (λ m, P m = false) ps → first_where db P = Ok r.
Proof.
  intros Hdb Hl Hr Hps. unfold first_where, live_problems. rewrite Hdb, filter_app.
  rewrite list_find_app_r.
  - rewrite filter_cons_True, filter_nil by done. simpl. case_decide; [done|congruence].
  - apply list_find_None, Forall_forall. intros m [_ Hm]%list_elem_of_filter.
    rewrite (proj1 (Forall_forall _ _) Hps m Hm). done.
Qed.

(** The problem row [Create] inserts for a model with a zero id. *)
Lemma insert_problem_fresh now m db :
  pm_id m = 0%N → PM_Slug m ∉ PM_Slug <$> t_problems db →
  insert_problem now m db =
    Ok (next_id (pm_id <$> t_problems db),
        set_problems (t_problems db ++
          [bare (set_model m (stamp now (set_gm_id (next_id (pm_id <$> t_problems db))
                                                  (PM_Model m))))]) db).
Proof.
  intros Hid Hslug. unfold insert_problem. cbv zeta.
  rewrite (bool_decide_true (pm_id m = 0%N)) by done.
  rewrite (bool_decide_false (next_id _ ∈ _)) by apply next_id_fresh.
  rewrite (bool_decide_false (PM_Slug m ∈ _)) by done.
  rewrite insert_by_id_last; [done|].
  pose proof (next_id_gt (pm_id <$> t_problems db)) as H. rewrite Forall_fmap in H.
  eapply Forall_impl; [exact H|]. done.
Qed.

Lemma filter_none {A} (P : A → Prop) `{∀ x, Decision (P x)} l :
  Forall (λ x, ¬ P x) l → filter P l = [].
Proof. induction 1; [done|]. by rewrite filter_cons_False. Qed.

Lemma filter_all {A} (P : A → Prop) `{∀ x, Decision (P x)} l :
  Forall P l → filter P l = l.
Proof. induction 1; [done|]. rewrite filter_cons_True by done. by f_equal. Qed.

(** The test cases a problem row preloads, when the old rows belong to
    other problems and the new ones to it. *)
Lemma preload_TestCases_new db tcs new pid :
  t_test_cases db = tcs ++ new → Forall (λ tc, TCM_ProblemID tc ≠ pid) tcs →
  Forall (λ tc, TCM_ProblemID tc = pid ∧ gm_live (TCM_Model tc) = true) new →
  preload_TestCases db pid = new.
Proof.
  intros Hdb Hold Hnew. unfold preload_TestCases. rewrite Hdb, filter_app.
  rewrite filter_none, filter_all; [done| |].
  - eapply Forall_impl; [exact Hnew|]. done.
  - eapply Forall_impl; [exact Hold|]. naive_solver.
Qed.

Lemma toModelProblem_test_cases p :
  Forall (λ tc, tc_id tc = 0%N ∧ GM_DeletedAt (TCM_Model tc) = None) (PM_TestCases (toModelProblem p)) ∧
  tcm_data <$> PM_TestCases (toModelProblem p) = tc_data <$> TestCases p.
Proof.
  simpl. split.
  - apply Forall_fmap, Forall_forall. done.
  - rewrite <-list_fmap_compose. by apply list_fmap_ext.
Qed.

Lemma tc_data_toDomain (tcs : list TestCaseModel) : tc_data <$> (toDomainTestCase <$> tcs) = tcm_data <$> tcs.
Proof. rewrite <-list_fmap_compose. by apply list_fmap_ext. Qed.

Lemma elem_of_add_joins js l j : j ∈ foldl add_join js l → j ∈ js ∨ j ∈ l.
Proof.
  induction l as [|x l IH] in js |- *; simpl; [auto|].
  intros [Hj|Hj]%IH; [|set_solver]. unfold add_join in Hj.
  case_bool_decide; [by left|]. apply elem_of_app in Hj as [| ->%list_elem_of_singleton]; set_solver.
Qed.

(** The associations of [toModelProblem p]: the problem rows stay, one
    live test-case row of [pid] is appended per test case, and each join
    row added names [pid]. *)
Lemma save_associations_spec now pid p db :
  let db' := save_associations now pid (toModelProblem p) db in
  t_problems db' = t_problems db ∧
  (∃ new, t_test_cases db' = t_test_cases db ++ new ∧
          Forall (λ tc, TCM_ProblemID tc = pid ∧ gm_live (TCM_Model tc) = true) new ∧
          tcm_data <$> new = tc_data <$> TestCases p) ∧
  (∀ j, j ∈ t_problem_topics db' → j ∈ t_problem_topics db ∨ j.1 = pid).
Proof.
  destruct (toModelProblem_test_cases p) as [Hz Hd].
  destruct (save_test_cases_new now pid _ (t_test_cases db) Hz) as (new & Htc & Hnew & Hdata).
  unfold save_associations. rewrite Htc. destruct (foldl (save_topic now) _ _) as [ts ids].
  split_and!; [done|exists new; split_and!; [done..|by rewrite Hdata]|].
  intros j Hj%elem_of_add_joins. destruct Hj as [|(tid & -> & _)%list_elem_of_fmap]; auto.
Qed.

(** What [Create] does for a zero id and a free slug: it appends the
    problem row (live, with the next id) and one live test-case row per
    test case, and every join row it adds names the new problem. *)
Lemma Create_fresh now p db :
  ID p = 0%N → Slug p ∉ PM_Slug <$> t_problems db →
  ∃ row new db',
    Create now p db = (Ok (set_ID p (pm_id row)), db') ∧
    pm_id row = next_id (pm_id <$> t_problems db) ∧
    t_problems db' = t_problems db ++ [row] ∧ gm_live (PM_Model row) = true ∧
    same_columns p (toDomainProblem row) ∧
    t_test_cases db' = t_test_cases db ++ new ∧
    Forall (λ tc, TCM_ProblemID tc = pm_id row ∧ gm_live (TCM_Model tc) = true) new ∧
    tcm_data <$> new = tc_data <$> TestCases p ∧
    (∀ j, j ∈ t_problem_topics db' → j ∈ t_problem_topics db ∨ j.1 = pm_id row).
Proof.
  intros Hid Hslug. unfold Create, gorm_Create. rewrite insert_problem_fresh by done.
  destruct (save_associations_spec now (next_id (pm_id <$> t_problems db)) p
              (set_problems (t_problems db ++
                 [bare (set_model (toModelProblem p) (stamp now (set_gm_id
                    (next_id (pm_id <$> t_problems db)) (PM_Model (toModelProblem p)))))]) db))
    as (Hps & (new & Htc & Hnew & Hdata) & Hj).
  eexists (bare (set_model (toModelProblem p)
            (stamp now (set_gm_id (next_id (pm_id <$> t_problems db)) (PM_Model (toModelProblem p)))))),
    new, _.
  split_and!; [done|done|by rewrite Hps|done|done|done|done|done|exact Hj].
Qed.


Lemma fresh_not_in (ids : list N) : Forall (λ i, i ≠ next_id ids) ids.
Proof. apply Forall_forall. intros i Hi ->. by apply (next_id_fresh ids). Qed.

(** C8: [Create] of a problem with a zero id and a slug no row has gives
    it the next id, and the repository then finds it by that id and by
    its slug: with the columns it was given, and with its test cases, in
    order, each attached to the new id. *)
Theorem Create_spec now p db :
  wf_tables db → ID p = 0%N → Slug p ∉ PM_Slug <$> t_problems db →
  (Create now p db).1 = Ok (set_ID p (next_id (pm_id <$> t_problems db))) ∧
  ∃ q, FindByID (Create now p db).2 (next_id (pm_id <$> t_problems db)) = Ok q ∧
       FindBySlug (Create now p db).2 (Slug p) = Ok q ∧
       same_columns p q ∧ tc_data <$> TestCases q = tc_data <$> TestCases p ∧
       Forall (λ tc, TC_ProblemID tc = next_id (pm_id <$> t_problems db)) (TestCases q).
Proof.
  intros (_ & _ & _ & Htcs & _) Hid Hs.
  destruct (Create_fresh now p db Hid Hs)
    as (row & new & db' & -> & Hrow & Hps & Hl & Hcol & Htc & Hnew & Hdata & _).
  rewrite <-Hrow. split; [done|]. exists (toDomainProblem (preload db' row)).
  assert (Hpre : preload_TestCases db' (pm_id row) = new).
  { apply (preload_TestCases_new _ (t_test_cases db)); [done| |done].
    eapply Forall_impl; [exact Htcs|]. intros tc Hin Heq. cbn beta in Hin. rewrite Heq, Hrow in Hin.
    by apply next_id_fresh in Hin. }
  split_and!.
  - unfold FindByID. erewrite first_where_snoc; [done..| |].
    + by rewrite bool_decide_eq_true.
    + pose proof (fresh_not_in (pm_id <$> t_problems db)) as Hf. rewrite Forall_fmap in Hf.
      rewrite Hrow. eapply Forall_impl; [exact Hf|]. intros m Hm. by rewrite bool_decide_eq_false.
  - unfold FindBySlug. erewrite first_where_snoc; [done..| |].
    + rewrite bool_decide_eq_true. by destruct Hcol.
    + apply Forall_forall. intros m Hm. rewrite bool_decide_eq_false. intros Heq.
      apply Hs, list_elem_of_fmap. eauto.
  - exact Hcol.
  - simpl. by rewrite Hpre, tc_data_toDomain.
  - simpl. rewrite Hpre, Forall_fmap. eapply Forall_impl; [exact Hnew|]. naive_solver.
Qed.

Lemma NoDup_fmap_eq {A B} (f : A → B) (l : list A) x y :
  NoDup (f <$> l) → x ∈ l → y ∈ l → f x = f y → x = y.
Proof.
  intros Hnd [i Hi]%list_elem_of_lookup [j Hj]%list_elem_of_lookup Hf.
  assert (i = j) as ->; [|congruence].
  eapply NoDup_lookup; [exact Hnd|rewrite list_lookup_fmap, Hi; done|].
  rewrite list_lookup_fmap, Hj. simpl. by rewrite Hf.
Qed.

(** In a table whose ids are unique, [First] by id finds the row. *)
Lemma first_where_unique db r id :
  NoDup (pm_id <$> t_problems db) → r ∈ t_problems db → gm_live (PM_Model r) = true →
  pm_id r = id → first_where db (λ m, bool_decide (pm_id m = id)) = Ok r.
Proof.
  intros Hnd Hr Hl <-. unfold first_where.
  destruct (list_find _ _) as [[i m]|] eqn:E.
  - apply list_find_Some in E as (Hi & Hm & _). apply list_elem_of_lookup_2 in Hi.
    apply list_elem_of_filter in Hi as [_ Hi]. rewrite bool_decide_eq_true in Hm.
    f_equal. by apply (NoDup_fmap_eq pm_id (t_problems db)).
  - apply list_find_None in E. rewrite Forall_forall in E.
    destruct (E r); [by apply list_elem_of_filter|]. by rewrite bool_decide_eq_true.
Qed.

Lemma FindByID_Ok db id p :
  FindByID db id = Ok p →
  ∃ m, m ∈ t_problems db ∧ gm_live (PM_Model m) = true ∧ pm_id m = id ∧
       p = toDomainProblem (preload db m).
Proof.
  unfold FindByID, first_where. destruct (list_find _ _) as [[i m]|] eqn:E; [|done].
  intros [= <-]. apply list_find_Some in E as (Hi & Hm & _). apply list_elem_of_lookup_2 in Hi.
  apply list_elem_of_filter in Hi as [Hl Hi]. rewrite bool_decide_eq_true in Hm. eauto.
Qed.

Lemma list_find_id_unique (l : list ProblemModel) m :
  NoDup (pm_id <$> l) → m ∈ l →
  ∃ i, list_find (λ r, pm_id r = pm_id m) l = Some (i, m) ∧ l !! i = Some m.
Proof.
  intros Hnd Hm. destruct (list_find _ l) as [[i r]|] eqn:E.
  - apply list_find_Some in E as (Hi & Hr & _). exists i.
    assert (r = m) as -> by (apply (NoDup_fmap_eq pm_id l); eauto using list_elem_of_lookup_2).
    done.
  - apply list_find_None in E. rewrite Forall_forall in E. by destruct (E m).
Qed.

Lemma slug_clash_own db m :
  NoDup (pm_id <$> t_problems db) → NoDup (PM_Slug <$> t_problems db) → m ∈ t_problems db →
  slug_clash db (pm_id m) (PM_Slug m) = false.
Proof.
  intros Hid Hslug Hm. unfold slug_clash. apply not_true_iff_false. rewrite existsb_exists.
  intros (r & Hr%list_elem_of_In & Hc). apply bool_decide_eq_true in Hc as [Hne Hs].
  apply Hne. f_equal. by apply (NoDup_fmap_eq PM_Slug (t_problems db)).
Qed.

(** C9: [Update] of a problem as [FindByID] returned it succeeds, but
    it does not update the test cases: [toModelProblem] drops their ids,
    so GORM's upsert inserts every test case again.  The problem then
    reads back with each test case twice, and with [CreatedAt] reset to
    the zero time, since [Save] writes every column. *)
Theorem Update_duplicates_test_cases now db id p :
  wf_tables db → FindByID db id = Ok p →
  (Update now p db).1 = None ∧
  ∃ q, FindByID (Update now p db).2 id = Ok q ∧
       tc_data <$> TestCases q = (tc_data <$> TestCases p) ++ (tc_data <$> TestCases p) ∧
       CreatedAt q = zero_time ∧ UpdatedAt q = now.
Proof.
  intros (Hnd & H0 & Hslug & _) HF. apply FindByID_Ok in HF as (m & Hm & Hl & <- & ->).
  destruct (list_find_id_unique _ m Hnd Hm) as (i & Hf & Hi).
  unfold Update, gorm_Save. cbn [toModelProblem PM_Model gorm_model_id].
  rewrite bool_decide_false
    by (intros He; apply H0, list_elem_of_fmap; exists m; split; [symmetry; exact He|done]).
  change (pm_id (toModelProblem (toDomainProblem (preload db m)))) with (pm_id m).
  change (PM_Slug (toModelProblem (toDomainProblem (preload db m)))) with (PM_Slug m).
  rewrite Hf, (slug_clash_own db m Hnd Hslug Hm), Hl. cbn [fst snd].
  set (row := update_row now _ m).
  destruct (save_associations_spec now (pm_id m) (toDomainProblem (preload db m))
              (set_problems (<[i:=row]> (t_problems db)) db)) as (Hps & (new & Htc & Hnew & Hdata) & _).
  split; [done|]. eexists. split; [|split_and!].
  - unfold FindByID. rewrite (first_where_unique _ row); [done| | |done|done].
    + rewrite Hps. simpl. rewrite list_fmap_insert. change (pm_id row) with (pm_id m).
      rewrite list_insert_id; [done|]. by rewrite list_lookup_fmap, Hi.
    + rewrite Hps. simpl. apply list_elem_of_insert. by eapply lookup_lt_Some.
  - cbn [TestCases toDomainProblem preload with_assoc PM_TestCases]. change (pm_id row) with (pm_id m).
    unfold preload_TestCases at 1. rewrite Htc, filter_app, (filter_all _ new).
    2: { eapply Forall_impl; [exact Hnew|]. done. }
    rewrite !fmap_app, !tc_data_toDomain, Hdata.
    cbn [TestCases toDomainProblem preload with_assoc PM_TestCases]. by rewrite tc_data_toDomain.
  - done.
  - done.
Qed.

(** C10: [Create] of a problem whose slug some row has fails on the
    unique index and changes nothing, also when that row is
    soft-deleted and [FindBySlug] does not find it: the slug of a
    deleted problem can never be used again. *)
Theorem Create_slug_taken now p db :
  ID p = 0%N → Slug p ∈ PM_Slug <$> t_problems db → Create now p db = (Err ErrUniqueProblemsSlug, db).
Proof.
  intros Hid Hs. unfold Create, gorm_Create, insert_problem. cbv zeta.
  change (pm_id (toModelProblem p)) with (ID p). rewrite Hid.
  rewrite (bool_decide_true (0 = 0)%N) by done.
  rewrite (bool_decide_false (next_id _ ∈ _)) by apply next_id_fresh.
  by rewrite (bool_decide_true (PM_Slug _ ∈ _)).
Qed.

(** [FirstOrCreate] of a topic touches neither the problems, nor the
    test cases, nor the join rows. *)
Lemma FirstOrCreate_tables now t db :
  t_problems (FirstOrCreate now t db).2 = t_problems db ∧
  t_test_cases (FirstOrCreate now t db).2 = t_test_cases db ∧
  t_problem_topics (FirstOrCreate now t db).2 = t_problem_topics db.
Proof.
  unfold FirstOrCreate, topic_Create. destruct (topic_first _ _); [done|].
  by destruct (topic_collides _ _).
Qed.

Lemma seed_topics_tables now ts db :
  let db' := foldl (λ db t, (FirstOrCreate now t db).2) db ts in
  t_problems db' = t_problems db ∧ t_test_cases db' = t_test_cases db ∧
  t_problem_topics db' = t_problem_topics db.
Proof.
  induction ts as [|t ts IH] in db |- *; simpl; [done|].
  destruct (IH (FirstOrCreate now t db).2) as (-> & -> & ->). apply FirstOrCreate_tables.
Qed.

Lemma FindBySlug_found db s :
  (∃ q, FindBySlug db s = Ok q) ↔ ∃ m, m ∈ t_problems db ∧ gm_live (PM_Model m) = true ∧ PM_Slug m = s.
Proof.
  unfold FindBySlug, first_where. destruct (list_find _ _) as [[i m]|] eqn:E.
  - apply list_find_Some in E as (Hi & Hm & _). apply list_elem_of_lookup_2 in Hi.
    apply list_elem_of_filter in Hi as [Hl Hi]. rewrite bool_decide_eq_true in Hm.
    split; [eauto|]. intros _. by eexists.
  - apply list_find_None in E. rewrite Forall_forall in E. split; [by intros [q ?]|].
    intros (m & Hm & Hl & Hs). destruct (E m); [by apply list_elem_of_filter|].
    by rewrite bool_decide_eq_true.
Qed.

(** A step of the seed keeps every problem row live and every row it
    had, and afterwards the seeded problem's slug is found. *)
Lemma seed_problem_step now db p :
  ID p = 0%N → Forall (λ m, gm_live (PM_Model m) = true) (t_problems db) →
  Forall (λ m, gm_live (PM_Model m) = true) (t_problems (seed_problem now db p)) ∧
  t_problems db ⊆ t_problems (seed_problem now db p) ∧
  ∃ q, FindBySlug (seed_problem now db p) (Slug p) = Ok q.
Proof.
  intros Hid Hl. unfold seed_problem. destruct (FindBySlug db (Slug p)) eqn:E; [eauto|].
  assert (Hs : Slug p ∉ PM_Slug <$> t_problems db).
  { intros (m & Heq & Hm)%list_elem_of_fmap. assert (Hf : ∃ q, FindBySlug db (Slug p) = Ok q).
    { apply FindBySlug_found. exists m. split_and!; [done| |done].
      exact (proj1 (Forall_forall _ _) Hl m Hm). }
    destruct Hf as [q Hq]. congruence. }
  destruct (Create_fresh now p db Hid Hs) as (row & new & db' & -> & _ & Hps & Hrl & Hcol & _).
  simpl. rewrite Hps. split_and!.
  - apply Forall_app. by split; [|constructor].
  - set_solver.
  - apply FindBySlug_found. exists row. rewrite Hps. split_and!; [set_solver|done|exact (proj1 Hcol)].
Qed.

Lemma seed_problems_found now L db :
  Forall (λ p, ID p = 0%N) L → Forall (λ m, gm_live (PM_Model m) = true) (t_problems db) →
  ∀ p, p ∈ L ∨ (∃ q, FindBySlug db (Slug p) = Ok q) →
  ∃ q, FindBySlug (foldl (seed_problem now) db L) (Slug p) = Ok q.
Proof.
  induction 1 as [|p0 L Hp0 _ IH] in db |- *; intros Hl p Hp; simpl.
  { destruct Hp as [Hp|Hp]; [set_solver|done]. }
  destruct (seed_problem_step now db p0 Hp0 Hl) as (Hl' & Hsub & Hfound).
  apply IH; [done|]. destruct Hp as [[->|Hp]%elem_of_cons|Hp]; [by right|by left|].
  right. apply FindBySlug_found in Hp as (m & Hm & ? & ?). apply FindBySlug_found. eauto.
Qed.

(** The seed makes every seed problem available: after [seedData]
    on the fresh database, [FindBySlug] finds each problem of
    [SeedProblems], when they come with a zero id, as [Create] expects.
    A later problem with the slug of an earlier one is skipped. *)
Theorem seed_finds_every_problem now DT SP p :
  Forall (λ p, ID p = 0%N) SP → p ∈ SP →
  ∃ q, FindBySlug (seedData DT SP now NewDB) (Slug p) = Ok q.
Proof.
  intros Hz Hp. unfold seedData. cbv zeta. apply seed_problems_found; [done| |by left].
  by destruct (seed_topics_tables now DT NewDB) as (-> & _).
Qed.

(** ** Witnesses *)

Ltac wf_decide := unfold wf_tables; split_and!; apply (bool_decide_unpack _); vm_compute; reflexivity.

Lemma Create_spec_witness :
  wf_tables catalog_example ∧ ID anagram_example = 0%N ∧
  Slug anagram_example ∉ PM_Slug <$> t_problems catalog_example ∧
  ((Create 7%Z anagram_example catalog_example).1 =
     Ok (set_ID anagram_example (next_id (pm_id <$> t_problems catalog_example))) ∧
   ∃ q, FindByID (Create 7%Z anagram_example catalog_example).2
          (next_id (pm_id <$> t_problems catalog_example)) = Ok q ∧
        FindBySlug (Create 7%Z anagram_example catalog_example).2 (Slug anagram_example) = Ok q ∧
        same_columns anagram_example q ∧
        tc_data <$> TestCases q = tc_data <$> TestCases anagram_example ∧
        Forall (λ tc, TC_ProblemID tc = next_id (pm_id <$> t_problems catalog_example)) (TestCases q)).
Proof.
  assert (Hwf : wf_tables catalog_example) by wf_decide.
  assert (Hs : Slug anagram_example ∉ PM_Slug <$> t_problems catalog_example)
    by (apply (bool_decide_unpack _); vm_compute; reflexivity).
  split_and!; [exact Hwf|reflexivity|exact Hs|..];
    [exact (proj1 (Create_spec 7%Z anagram_example catalog_example Hwf eq_refl Hs))
    |exact (proj2 (Create_spec 7%Z anagram_example catalog_example Hwf eq_refl Hs))].
Defined.

Lemma Update_duplicates_test_cases_witness :
  wf_tables catalog_example ∧ FindByID catalog_example 1 = Ok two_sum_loaded ∧
  ((Update 9%Z two_sum_loaded catalog_example).1 = None ∧
   ∃ q, FindByID (Update 9%Z two_sum_loaded catalog_example).2 1 = Ok q ∧
        tc_data <$> TestCases q =
          (tc_data <$> TestCases two_sum_loaded) ++ (tc_data <$> TestCases two_sum_loaded) ∧
        CreatedAt q = zero_time ∧ UpdatedAt q = 9%Z).
Proof.
  assert (Hwf : wf_tables catalog_example) by wf_decide.
  assert (Hf : FindByID catalog_example 1 = Ok two_sum_loaded) by (vm_compute; reflexivity).
  split_and!; [exact Hwf|exact Hf|..];
    [exact (proj1 (Update_duplicates_test_cases 9%Z catalog_example 1 two_sum_loaded Hwf Hf))
    |exact (proj2 (Update_duplicates_test_cases 9%Z catalog_example 1 two_sum_loaded Hwf Hf))].
Defined.

(** The soft-deleted "three-sum": not found, and not creatable. *)
Lemma Create_slug_taken_witness :
  let p := seed_problem_example "three-sum" "3Sum" [] in
  FindBySlug catalog_example "three-sum" = Err ErrRecordNotFound ∧
  ID p = 0%N ∧ Slug p ∈ PM_Slug <$> t_problems catalog_example ∧
  Create 7%Z p catalog_example = (Err ErrUniqueProblemsSlug, catalog_example).
Proof.
  simpl. assert (Hs : "three-sum" ∈ PM_Slug <$> t_problems catalog_example)
    by (apply (bool_decide_unpack _); vm_compute; reflexivity).
  split_and!; [vm_compute; reflexivity|reflexivity|exact Hs|].
  exact (Create_slug_taken 7%Z (seed_problem_example "three-sum" "3Sum" []) catalog_example eq_refl Hs).
Defined.

End Store.
