(* ===== verification/Executor.v ===== *)
(** * The code executor (internal/infrastructure/executor/code_executor.go)

    [Execute] runs a submission once per test case.  For each one it
    reads the clock, calls [runCode], reads the clock again, trims the
    output and the expected value with [strings.TrimSpace], and records a
    [TestResult].  [runCode] is the language adapter and the process
    runner.  Its switch builds the command for "javascript", "python" or
    "go" around a harness made by [fmt.Sprintf], and any other language
    fails with an error.  The command runs under
    [context.WithTimeout(timeout)], and the error is classified:
    deadline first, then stderr, then the [exec] error.

    The process is an oracle [proc : Cmd -> Behaviour].  A behaviour is
    what the program would do without a deadline: exit after a duration
    with stdout, stderr and a status, run forever, or fail to start.
    [cmd_Run] is [exec.Cmd.Run] under the context.  It kills the process
    when the deadline comes first, and advances the clock by the time the
    run took.  The executor's state [ExecState] is the monotonic clock
    (nanoseconds) and the log of processes started, in order.  Building
    the harness and the Go bookkeeping are taken to cost no time, so the
    measured runtime is the process's wall time. *)

From S2P Require Import Prelude GoStrings ProblemDomain SubmissionDomain.

Module Executor.

Import GoStrings Problem Submission.

(** The double quote, which the Go harness contains. *)
Definition dq : string := String (ascii_of_nat 34) EmptyString.

(** [CodeExecutor]: the per-test deadline, a [time.Duration] in ns. *)
Record CodeExecutor := mkCodeExecutor { timeout : Z }.

(** [New(timeout)]: a zero duration means five seconds. *)
Definition New (t : Z) : CodeExecutor :=
  {| timeout := if decide (t = 0%Z) then (5 * 1000000000)%Z else t |}.

(** An [exec.Cmd]: the program, its arguments ([Args[0]] is the program
    name, as [exec.Command] sets it) and what is wired to stdin. *)
Record Cmd := mkCmd { Path : string; Args : list string; Stdin : option string }.

Inductive Behaviour :=
  | Exits (stdout stderr : string) (status : Z) (duration : Z)
  | RunsForever (stdout stderr : string)
  | SpawnFails (msg : string).

(** The oracle's durations are nonnegative. *)
Definition wf_behaviour (b : Behaviour) : Prop :=
  match b with Exits _ _ _ d => (0 ≤ d)%Z | _ => True end.

Record ExecState := mkExecState { clock : Z; spawned : list Cmd }.

(** What [cmd.Run()] leaves behind: the two buffers, its error, and
    whether [ctx.Err()] is [context.DeadlineExceeded] afterwards. *)
Record RunOutcome := mkRunOutcome {
  ro_stdout : string;
  ro_stderr : string;
  ro_err : option string;
  ro_deadline : bool
}.

(** ** The language adapter: the harnesses of [wrapJavaScript],
    [wrapPython] and [wrapGo], byte for byte *)

Definition jsTemplate : string :=
  "
const input = %s;
%s
const result = twoSum ? twoSum(...input) : 
               isPalindrome ? isPalindrome(...input) :
               maxProfit ? maxProfit(...input) :
               isValid ? isValid(...input) :
               reverseList ? reverseList(...input) :
               null;
console.log(JSON.stringify(result));
".

Definition pyTemplate : string :=
  "
import json
input_data = %s
%s

result = None
if 'twoSum' in dir():
    result = twoSum(*input_data)
elif 'isPalindrome' in dir():
    result = isPalindrome(*input_data)
elif 'maxProfit' in dir():
    result = maxProfit(*input_data)
elif 'isValid' in dir():
    result = isValid(*input_data)
elif 'reverseList' in dir():
    result = reverseList(*input_data)

print(json.dumps(result))
".

Definition goTemplate : string :=
  "
package main

import (
	" +:+ dq +:+ "encoding/json" +:+ dq +:+ "
	" +:+ dq +:+ "fmt" +:+ dq +:+ "
)

%s

func main() {
	input := %s
	_ = input
	fmt.Println(" +:+ dq +:+ "[]" +:+ dq +:+ ")
}
".

Definition wrapJavaScript (code input : string) : string := Sprintf jsTemplate [input; code].
Definition wrapPython (code input : string) : string := Sprintf pyTemplate [input; code].
Definition wrapGo (code input : string) : string :=
  Sprintf goTemplate [code; "`" +:+ input +:+ "`"].

(** The switch of [runCode]: the command for a supported language, or
    [None] for the [default] branch. *)
Definition buildCmd (language code input : string) : option Cmd :=
  if decide (language = "javascript") then
    Some {| Path := "node"; Args := ["node"; "-e"; wrapJavaScript code input]; Stdin := None |}
  else if decide (language = "python") then
    Some {| Path := "python3"; Args := ["python3"; "-c"; wrapPython code input]; Stdin := None |}
  else if decide (language = "go") then
    Some {| Path := "go"; Args := ["go"; "run"; "-"]; Stdin := Some (wrapGo code input) |}
  else None.

Section WithProcesses.
Variable proc : Cmd → Behaviour.

(** [cmd.Run()] under a context whose deadline is the absolute time
    [deadline].  An expired context makes [Start] fail before anything
    is spawned.  A process that would outlive the deadline is killed
    at the deadline ("signal: killed"), and a nonzero exit status
    becomes an [*exec.ExitError] "exit status N". *)
Definition cmd_Run (deadline : Z) (c : Cmd) : ST ExecState RunOutcome :=
  st ← st_get;
  if decide (deadline ≤ clock st)%Z then
    mret {| ro_stdout := ""; ro_stderr := ""; ro_err := Some "context deadline exceeded";
            ro_deadline := true |}
  else
    match proc c with
    | SpawnFails msg =>
        mret {| ro_stdout := ""; ro_stderr := ""; ro_err := Some msg; ro_deadline := false |}
    | Exits out err status d =>
        if decide (clock st + d < deadline)%Z then
          _ ← st_put {| clock := clock st + d; spawned := spawned st ++ [c] |};
          mret {| ro_stdout := out; ro_stderr := err;
                  ro_err := if decide (status = 0%Z) then None
                            else Some ("exit status " +:+ pretty status);
                  ro_deadline := false |}
        else
          _ ← st_put {| clock := deadline; spawned := spawned st ++ [c] |};
          mret {| ro_stdout := out; ro_stderr := err; ro_err := Some "signal: killed";
                  ro_deadline := true |}
    | RunsForever out err =>
        _ ← st_put {| clock := deadline; spawned := spawned st ++ [c] |};
        mret {| ro_stdout := out; ro_stderr := err; ro_err := Some "signal: killed";
                ro_deadline := true |}
    end.

(** [runCode(language, code, input)]: returns [(output, err)], the
    error as its message. *)
Definition runCode (e : CodeExecutor) (language code input : string)
    : ST ExecState (string * option string) :=
  st ← st_get;
  let deadline := (clock st + timeout e)%Z in
  match buildCmd language code input with
  | None => mret ("", Some (Errorf "unsupported language: %s" [language]))
  | Some c =>
      ro ← cmd_Run deadline c;
      if ro_deadline ro then mret ("", Some "Time Limit Exceeded")
      else match ro_err ro with
           | Some msg =>
               if decide (0 < String.length (ro_stderr ro))
               then mret ("", Some (Errorf "%s" [ro_stderr ro]))
               else mret ("", Some msg)
           | None => mret (ro_stdout ro, None)
           end
  end.

(** [time.Since(start)], the [Duration] between two readings of the
    clock: [Time.Sub] saturates at the bounds of int64. *)
Definition time_Sub (t u : Z) : Z := Z.max int_min (Z.min int_max (t - u)).

(** One iteration of [Execute]'s loop.  [Milliseconds] truncates toward
    zero. *)
Definition Execute_body (e : CodeExecutor) (language code : string) (tc : TestCase)
    : ST ExecState TestResult :=
  start ← st_get;
  res ← runCode e language code (Input tc);
  stop ← st_get;
  let '(output, err) := res in
  let runtime := Z.quot (time_Sub (clock stop) (clock start)) 1000000 in
  let actual := TrimSpace output in
  let expected := TrimSpace (Expected tc) in
  match err with
  | None =>
      mret {| TR_Input := Input tc; TR_Expected := expected; Actual := actual;
              Passed := bool_decide (actual = expected); TR_Runtime := runtime |}
  | Some msg =>
      mret {| TR_Input := Input tc; TR_Expected := expected; Actual := msg;
              Passed := false; TR_Runtime := runtime |}
  end.

(** [Execute(language, code, testCases)]. *)
Definition Execute (e : CodeExecutor) (language code : string) (tcs : list TestCase)
    : ST ExecState (list TestResult) :=
  st_mapM (Execute_body e language code) tcs.
End WithProcesses.

(** Whether a process outlives a deadline of [t] nanoseconds from its
    start, and whether it starts at all. *)
Definition times_out (b : Behaviour) (t : Z) : Prop :=
  match b with
  | Exits _ _ _ d => (t ≤ d)%Z
  | RunsForever _ _ => True
  | SpawnFails _ => False
  end.

Definition starts (b : Behaviour) : bool :=
  match b with SpawnFails _ => false | _ => true end.

(** The languages the adapter supports. *)
Definition supported_languages : list string := ["javascript"; "python"; "go"].

(** ** Lemmas *)

Lemma Errorf_unsupported language :
  Errorf "unsupported language: %s" [language] = ("unsupported language: " +:+ language)%string.
Proof.
  apply string_eq_list. unfold Errorf.
  rewrite (Sprintf_pieces _ [list_ascii_of_string "unsupported language: "; []]) by done.
  cbn [interleave]. by rewrite app_nil_r, list_ascii_of_string_app.
Qed.

Lemma Errorf_s a : Errorf "%s" [a] = a.
Proof. apply Sprintf_s. Qed.

Lemma buildCmd_None language code input :
  buildCmd language code input = None ↔ language ∉ supported_languages.
Proof.
  unfold buildCmd, supported_languages. rewrite !elem_of_cons, elem_of_nil.
  repeat case_decide; naive_solver.
Qed.

Lemma time_Sub_small t u : in_int (t - u) → time_Sub t u = (t - u)%Z.
Proof. unfold in_int, time_Sub. lia. Qed.

Lemma time_Sub_in_int t u : in_int (time_Sub t u).
Proof. unfold in_int, time_Sub, int_min, int_max. lia. Qed.

(** A [Duration]'s [Milliseconds] fits in an [int]. *)
Lemma quot_ms_in_int z : in_int z → in_int (Z.quot z 1000000).
Proof.
  unfold in_int, int_min, int_max. intros Hz.
  pose proof (Z.quot_abs z 1000000 ltac:(lia)) as Ha. change (Z.abs 1000000) with 1000000%Z in Ha.
  destruct (Z.eq_dec z 0%Z) as [->|Hnz]; [done|].
  pose proof (Z.quot_lt (Z.abs z) 1000000 ltac:(lia) ltac:(lia)). lia.
Qed.

Section Facts.
Variable proc : Cmd → Behaviour.

Ltac st_unfold := cbv [mbind ST_bind st_get st_put mret ST_ret].

Lemma runCode_unsupported e language code input st :
  buildCmd language code input = None →
  runCode proc e language code input st =
    (("", Some ("unsupported language: " +:+ language)%string), st).
Proof. intros H. unfold runCode. st_unfold. by rewrite H, Errorf_unsupported. Qed.

Lemma runCode_spawn_fails e language code input st c msg :
  buildCmd language code input = Some c → proc c = SpawnFails msg →
  (0 < timeout e)%Z →
  runCode proc e language code input st = (("", Some msg), st).
Proof.
  intros Hb Hp Ht. unfold runCode, cmd_Run. st_unfold. rewrite Hb, Hp.
  repeat (case_decide; simpl in *); done || lia.
Qed.

Lemma runCode_exits e language code input st c out err status d :
  buildCmd language code input = Some c → proc c = Exits out err status d →
  (0 < timeout e)%Z → (d < timeout e)%Z →
  runCode proc e language code input st =
    ((if decide (status = 0%Z) then (out, None)
      else if decide (0 < String.length err) then ("", Some err)
      else ("", Some ("exit status " +:+ pretty status)%string)),
     {| clock := clock st + d; spawned := spawned st ++ [c] |}).
Proof.
  intros Hb Hp Ht Hd. unfold runCode, cmd_Run. st_unfold. rewrite Hb, Hp.
  repeat (case_decide; simpl in *); try lia; try done. by rewrite Errorf_s.
Qed.

Lemma runCode_timeout e language code input st c :
  buildCmd language code input = Some c → (0 < timeout e)%Z →
  times_out (proc c) (timeout e) →
  runCode proc e language code input st =
    (("", Some "Time Limit Exceeded"%string),
     {| clock := clock st + timeout e; spawned := spawned st ++ [c] |}).
Proof.
  intros Hb Ht Hto. unfold runCode, cmd_Run. st_unfold. rewrite Hb.
  destruct (proc c); simpl in Hto; [| |done];
    repeat (case_decide; simpl in *); done || lia.
Qed.

(** One iteration of [Execute], in terms of [runCode]. *)
Lemma Execute_body_eq e language code tc st :
  Execute_body proc e language code tc st =
    let '((output, err), st1) := runCode proc e language code (Input tc) st in
    (match err with
     | None =>
         {| TR_Input := Input tc; TR_Expected := TrimSpace (Expected tc);
            Actual := TrimSpace output;
            Passed := bool_decide (TrimSpace output = TrimSpace (Expected tc));
            TR_Runtime := Z.quot (time_Sub (clock st1) (clock st)) 1000000 |}
     | Some msg =>
         {| TR_Input := Input tc; TR_Expected := TrimSpace (Expected tc); Actual := msg;
            Passed := false; TR_Runtime := Z.quot (time_Sub (clock st1) (clock st)) 1000000 |}
     end, st1).
Proof.
  unfold Execute_body. st_unfold.
  destruct (runCode proc e language code (Input tc) st) as [[o [m|]] st1]; done.
Qed.

(** Where [runCode] leaves the clock and the log of started processes. *)
Lemma runCode_state e language code input st :
  (0 < timeout e)%Z →
  (runCode proc e language code input st).2 =
    match buildCmd language code input with
    | None => st
    | Some c =>
        match proc c with
        | SpawnFails _ => st
        | Exits _ _ _ d =>
            {| clock := clock st + Z.min d (timeout e); spawned := spawned st ++ [c] |}
        | RunsForever _ _ => {| clock := clock st + timeout e; spawned := spawned st ++ [c] |}
        end
    end.
Proof.
  intros Ht. destruct (buildCmd language code input) as [c|] eqn:Hb;
    [|by rewrite runCode_unsupported].
  destruct (proc c) as [out err status d|out err|msg] eqn:Hp.
  - destruct (decide (d < timeout e)%Z).
    + rewrite (runCode_exits _ _ _ _ _ c out err status d) by done.
      by rewrite Z.min_l by lia.
    + rewrite (runCode_timeout _ _ _ _ _ c) by (rewrite ?Hp; simpl; lia || done).
      by rewrite Z.min_r by lia.
  - by rewrite (runCode_timeout _ _ _ _ _ c) by (rewrite ?Hp; simpl; lia || done).
  - by rewrite (runCode_spawn_fails _ _ _ _ _ c msg).
Qed.

(** When every test's process outlives the deadline, each test takes
    exactly one deadline and fails with "Time Limit Exceeded". *)
Lemma Execute_timeouts e language code tcs st :
  (0 < timeout e)%Z →
  (∀ tc, tc ∈ tcs → ∃ c, buildCmd language code (Input tc) = Some c ∧ times_out (proc c) (timeout e)) →
  clock (Execute proc e language code tcs st).2 = (clock st + Z.of_nat (length tcs) * timeout e)%Z ∧
  Forall (λ r, Actual r = "Time Limit Exceeded" ∧ Passed r = false)
    (Execute proc e language code tcs st).1.
Proof.
  intros Ht. revert st. induction tcs as [|tc tcs IH]; intros st Hto; [simpl; split; [lia|done]|].
  unfold Execute in *. rewrite st_mapM_cons.
  destruct (Hto tc (list_elem_of_here _ _)) as (c & Hb & Htc).
  rewrite Execute_body_eq, (runCode_timeout _ _ _ _ _ c) by done. cbv iota zeta.
  set (st1 := {| clock := clock st + timeout e; spawned := spawned st ++ [c] |}).
  destruct (IH st1) as [Hc Hall]; [intros tc' H; apply Hto; by right|].
  destruct (st_mapM _ tcs st1) as [rs st2]. cbn in *. split; [lia|by constructor].
Qed.

Lemma Execute_body_state e language code tc st :
  (Execute_body proc e language code tc st).2 = (runCode proc e language code (Input tc) st).2.
Proof.
  rewrite Execute_body_eq.
  by destruct (runCode proc e language code (Input tc) st) as [[o [m|]] st1].
Qed.

Lemma Execute_body_Runtime e language code tc st :
  TR_Runtime (Execute_body proc e language code tc st).1 =
    Z.quot (time_Sub (clock (runCode proc e language code (Input tc) st).2) (clock st)) 1000000.
Proof.
  rewrite Execute_body_eq.
  by destruct (runCode proc e language code (Input tc) st) as [[o [m|]] st1].
Qed.

Lemma Execute_body_Input e language code tc st :
  TR_Input (Execute_body proc e language code tc st).1 = Input tc ∧
  TR_Expected (Execute_body proc e language code tc st).1 = TrimSpace (Expected tc).
Proof.
  rewrite Execute_body_eq.
  by destruct (runCode proc e language code (Input tc) st) as [[o [m|]] st1].
Qed.
(** One result per test case, each with its test's input. *)
Lemma Execute_inputs e language code tcs st :
  length (Execute proc e language code tcs st).1 = length tcs ∧
  TR_Input <$> (Execute proc e language code tcs st).1 = Input <$> tcs.
Proof.
  split; [apply st_mapM_length|].
  apply st_mapM_map_proj. intros tc s. apply Execute_body_Input.
Qed.

(** [Execute] records each test case's trimmed expected output. *)
Lemma Execute_expected e language code tcs st :
  TR_Expected <$> (Execute proc e language code tcs st).1 = (λ tc, TrimSpace (Expected tc)) <$> tcs.
Proof. apply st_mapM_map_proj. intros tc s. apply Execute_body_Input. Qed.

(** Every runtime [Execute] records fits in an [int]. *)
Lemma Execute_runtimes_in_int e language code tcs st :
  Forall (λ r, in_int (TR_Runtime r)) (Execute proc e language code tcs st).1.
Proof.
  apply st_mapM_Forall. intros tc s. rewrite Execute_body_Runtime.
  apply quot_ms_in_int, time_Sub_in_int.
Qed.

(** A program that exits before the deadline: the result [Execute]'s
    loop records, and the state it leaves. *)
Lemma Execute_body_exits_eq e language code tc st c out err status d :
  buildCmd language code (Input tc) = Some c → proc c = Exits out err status d →
  (0 ≤ d < timeout e)%Z →
  Execute_body proc e language code tc st =
    ({| TR_Input := Input tc; TR_Expected := TrimSpace (Expected tc);
        Actual := if decide (status = 0%Z) then TrimSpace out
                  else if decide (0 < String.length err) then err
                  else ("exit status " +:+ pretty status)%string;
        Passed := bool_decide (status = 0%Z) &&
                  bool_decide (TrimSpace out = TrimSpace (Expected tc));
        TR_Runtime := Z.quot (time_Sub (clock st + d) (clock st)) 1000000 |},
     {| clock := clock st + d; spawned := spawned st ++ [c] |}).
Proof.
  intros Hb Hp Hd.
  rewrite Execute_body_eq, (runCode_exits _ _ _ _ _ c out err status d) by (done || lia).
  destruct (decide (status = 0%Z)) as [Hs|Hs]; simpl.
  - by rewrite (bool_decide_true (status = 0%Z) Hs).
  - rewrite (bool_decide_false (status = 0%Z) Hs). by case_decide.
Qed.
End Facts.

(** ** Claims *)

Section Claims.
Variable proc : Cmd → Behaviour.

(** C1: [Execute] returns one result per test case, in the test cases'
  order: the i-th result carries the i-th test's input and its trimmed
  expected output (spec §3, §8). *)
Theorem Execute_order e language code tcs st :
let rs := (Execute proc e language code tcs st).1 in
length rs = length tcs ∧
TR_Input <$> rs = Input <$> tcs ∧
TR_Expected <$> rs = (λ tc, TrimSpace (Expected tc)) <$> tcs.
Proof.
simpl. split; [apply st_mapM_length|].
split; apply st_mapM_map_proj; intros tc s; apply Execute_body_Input.
Qed.

(** C4: for a language outside "javascript", "python" and "go",
  [Execute] starts no process and spends no time.  Every test fails
  with "unsupported language: <language>" and a runtime of 0, and no
  request-level error is raised. *)
Theorem Execute_unsupported e language code tcs st :
language ∉ supported_languages →
Execute proc e language code tcs st =
  ((λ tc, {| TR_Input := Input tc; TR_Expected := TrimSpace (Expected tc);
             Actual := "unsupported language: " +:+ language; Passed := false;
             TR_Runtime := 0 |}) <$> tcs, st).
Proof.
intros Hl. induction tcs as [|tc tcs IH]; [done|].
unfold Execute in *. rewrite st_mapM_cons, Execute_body_eq.
rewrite runCode_unsupported by by apply buildCmd_None.
rewrite IH. simpl. rewrite time_Sub_small, Z.sub_diag; [done|].
rewrite Z.sub_diag. unfold in_int, int_min, int_max. lia.
Qed.

(** C3: a test whose program outlives the deadline (it runs forever,
  or it would exit only at or after [timeout]) fails with "Time Limit
  Exceeded".  Its runtime is the deadline in milliseconds, and the
  clock advances by exactly the deadline. *)
Theorem Execute_body_timeout e language code tc st c :
buildCmd language code (Input tc) = Some c → (0 < timeout e ≤ int_max)%Z →
times_out (proc c) (timeout e) →
Execute_body proc e language code tc st =
  ({| TR_Input := Input tc; TR_Expected := TrimSpace (Expected tc);
      Actual := "Time Limit Exceeded"; Passed := false;
      TR_Runtime := Z.quot (timeout e) 1000000 |},
   {| clock := clock st + timeout e; spawned := spawned st ++ [c] |}).
Proof.
intros Hb Ht Hto. rewrite Execute_body_eq, (runCode_timeout _ _ _ _ _ _ c) by (done || lia).
simpl. replace (clock st + timeout e - clock st)%Z with (timeout e) by lia.
rewrite time_Sub_small; [f_equal; f_equal; f_equal; lia|].
unfold in_int, int_min in *. lia.
Qed.

(** C2: a test whose program exits before the deadline passes exactly
  when its exit status is 0 and its trimmed stdout equals the trimmed
  expected output.  Stderr is ignored when the status is 0.  A nonzero
  status reports stderr, or "exit status N" when stderr is empty.  The
  runtime is the program's duration in milliseconds. *)
Theorem Execute_body_exits e language code tc st c out err status d :
buildCmd language code (Input tc) = Some c → proc c = Exits out err status d →
(0 ≤ d < timeout e)%Z → (timeout e ≤ int_max)%Z →
Execute_body proc e language code tc st =
  ({| TR_Input := Input tc; TR_Expected := TrimSpace (Expected tc);
      Actual := if decide (status = 0%Z) then TrimSpace out
                else if decide (0 < String.length err) then err
                else ("exit status " +:+ pretty status)%string;
      Passed := bool_decide (status = 0%Z) &&
                bool_decide (TrimSpace out = TrimSpace (Expected tc));
      TR_Runtime := Z.quot d 1000000 |},
   {| clock := clock st + d; spawned := spawned st ++ [c] |}).
Proof.
intros Hb Hp Hd Hmax. rewrite (Execute_body_exits_eq proc e language code tc st c out err status d)
  by done.
rewrite time_Sub_small by (unfold in_int, int_min in *; lia).
by replace (clock st + d - clock st)%Z with d by lia.
Qed.

(** C17: with a positive deadline, the processes [Execute] starts are
  one per test case whose language is supported and whose program
  starts, in the order of the test cases. *)
Theorem Execute_spawned e language code tcs st :
(0 < timeout e)%Z →
spawned (Execute proc e language code tcs st).2 =
  spawned st ++
    omap (λ tc, c ← buildCmd language code (Input tc);
                if starts (proc c) then Some c else None) tcs.
Proof.
intros Ht. revert st. induction tcs as [|tc tcs IH]; intros st; simpl.
{ by rewrite app_nil_r. }
unfold Execute in *. rewrite st_mapM_cons.
pose proof (Execute_body_state proc e language code tc st) as Hs.
destruct (Execute_body proc e language code tc st) as [r st1]. simpl in Hs.
specialize (IH st1). destruct (st_mapM _ tcs st1) as [rs st2]. simpl in *.
rewrite IH, Hs, runCode_state by done.
destruct (buildCmd language code (Input tc)) as [c|]; simpl; [|done].
destruct (proc c); simpl; by rewrite <- ?app_assoc.
Qed.

(** C18: with a positive deadline and programs whose durations are
  nonnegative, every result's runtime lies between 0 and the deadline
  in milliseconds.  The whole [Execute] takes at most one deadline per
  test case of wall-clock time. *)
Theorem Execute_time_bound e language code tcs st :
(0 < timeout e ≤ int_max)%Z → (∀ c, wf_behaviour (proc c)) →
let '(rs, st') := Execute proc e language code tcs st in
(clock st ≤ clock st' ≤ clock st + Z.of_nat (length tcs) * timeout e)%Z ∧
Forall (λ r, 0 ≤ TR_Runtime r ≤ Z.quot (timeout e) 1000000)%Z rs.
Proof.
intros Ht Hwf.
assert (Hstep : ∀ tc st,
  (0 ≤ clock (runCode proc e language code (Input tc) st).2 - clock st ≤ timeout e)%Z).
{ intros tc st0. rewrite runCode_state by lia.
  destruct (buildCmd _ _ _) as [c|]; [|lia]. specialize (Hwf c).
  destruct (proc c); simpl in *; lia. }
revert st. induction tcs as [|tc tcs IH]; intros st; simpl; [split; [lia | done]|].
unfold Execute in *. rewrite st_mapM_cons.
pose proof (Execute_body_state proc e language code tc st) as Hs.
pose proof (Execute_body_Runtime proc e language code tc st) as Hr.
pose proof (Hstep tc st) as Hb.
destruct (Execute_body proc e language code tc st) as [r st1]. simpl in Hs, Hr.
rewrite <- Hs in Hb, Hr. specialize (IH st1).
destruct (st_mapM _ tcs st1) as [rs st2]. destruct IH as [Hc Hall]. split; [lia|].
constructor; [|done]. rewrite Hr, time_Sub_small by (unfold in_int, int_min, int_max in *; lia).
split.
- apply Z.quot_pos; lia.
- apply Z.quot_le_mono; lia.
Qed.

(** C16: white space around the output or the expected value never
  changes a verdict.  When a program exits normally, padding its stdout
  or the test's expected output with strings that [TrimSpace] maps to ""
  (any mix of ASCII and Unicode white space) gives the same verdict as
  the unpadded pair (spec §4.3 rule 3). *)
Theorem Execute_body_ws_insensitive e language code tc st c w1 out w2 err d w3 exp w4 :
buildCmd language code (Input tc) = Some c →
proc c = Exits (w1 +:+ out +:+ w2) err 0 d → (0 ≤ d < timeout e)%Z →
Expected tc = (w3 +:+ exp +:+ w4)%string →
Forall (λ w, TrimSpace w = ""%string) [w1; w2; w3; w4] →
Passed (Execute_body proc e language code tc st).1 = bool_decide (TrimSpace out = TrimSpace exp).
Proof.
intros Hb Hp Hd He Hw. rewrite (Execute_body_exits_eq proc e language code tc st c _ err 0 d) by done.
repeat setoid_rewrite Forall_cons in Hw. destruct Hw as (H1 & H2 & H3 & H4 & _).
simpl. rewrite He, !TrimSpace_pad by done. done.
Qed.

(** every result [Execute] records has a trimmed expected value,
  and a passed result's output is exactly that value.  (The converse
  fails: an error message that happens to equal the expected output
  still fails the test.) *)
Theorem Execute_results_trimmed e language code tcs st :
Forall (λ r, TrimSpace (TR_Expected r) = TR_Expected r ∧
             (Passed r = true → Actual r = TR_Expected r))
  (Execute proc e language code tcs st).1.
Proof.
apply st_mapM_Forall. intros tc s. rewrite Execute_body_eq.
destruct (runCode proc e language code (Input tc) s) as [[o [m|]] s1]; simpl;
  (split; [apply TrimSpace_idempotent|]); [done|].
by intros ?%bool_decide_eq_true.
Qed.

End Claims.

(** C35: each harness is fixed text with the input and the user's code
    spliced in verbatim, in the order the source passes them.  For Go
    the input sits between backquotes as a raw string literal. *)
Theorem wrappers_splice :
  (∃ pre mid post, ∀ code input,
     wrapJavaScript code input = (pre +:+ input +:+ mid +:+ code +:+ post)%string) ∧
  (∃ pre mid post, ∀ code input,
     wrapPython code input = (pre +:+ input +:+ mid +:+ code +:+ post)%string) ∧
  (∃ pre mid post, ∀ code input,
     wrapGo code input = (pre +:+ code +:+ mid +:+ "`" +:+ input +:+ "`" +:+ post)%string).
Proof.
  split; [|split].
  - destruct (fmt_pieces (list_ascii_of_string jsTemplate)) as [[|p1 [|p2 [|p3 []]]]|] eqn:E;
      try (vm_compute in E; discriminate).
    exists (string_of_list_ascii p1), (string_of_list_ascii p2), (string_of_list_ascii p3).
    intros code input. apply string_eq_list. unfold wrapJavaScript.
    rewrite (Sprintf_pieces _ _ _ E) by done. cbn [interleave].
    rewrite !list_ascii_of_string_app, !list_ascii_of_string_of_list_ascii.
    by rewrite <- ?app_assoc.
  - destruct (fmt_pieces (list_ascii_of_string pyTemplate)) as [[|p1 [|p2 [|p3 []]]]|] eqn:E;
      try (vm_compute in E; discriminate).
    exists (string_of_list_ascii p1), (string_of_list_ascii p2), (string_of_list_ascii p3).
    intros code input. apply string_eq_list. unfold wrapPython.
    rewrite (Sprintf_pieces _ _ _ E) by done. cbn [interleave].
    rewrite !list_ascii_of_string_app, !list_ascii_of_string_of_list_ascii.
    by rewrite <- ?app_assoc.
  - destruct (fmt_pieces (list_ascii_of_string goTemplate)) as [[|p1 [|p2 [|p3 []]]]|] eqn:E;
      try (vm_compute in E; discriminate).
    exists (string_of_list_ascii p1), (string_of_list_ascii p2), (string_of_list_ascii p3).
    intros code input. apply string_eq_list. unfold wrapGo.
    rewrite (Sprintf_pieces _ _ _ E) by done. cbn [interleave].
    rewrite !list_ascii_of_string_app, !list_ascii_of_string_of_list_ascii.
    by rewrite <- ?app_assoc.
Qed.

(** ** Witnesses *)

Definition tc_example : TestCase :=
  {| TC_ID := 1; TC_ProblemID := 1; Input := "[2,7,11,15],9"; Expected := "[0,1]";
     IsHidden := false |}.

(** A machine where python3 prints the answer (and a warning on stderr)
    in 3 ms, and every other program loops forever. *)
Definition proc_example (c : Cmd) : Behaviour :=
  if decide (Path c = "python3") then Exits "[0,1]
" "DeprecationWarning" 0 3000000
  else RunsForever "" "".

Definition st_example : ExecState := {| clock := 0; spawned := [] |}.

Definition js_cmd_example : Cmd :=
  {| Path := "node"; Args := ["node"; "-e"; wrapJavaScript "while(true){}" (Input tc_example)];
     Stdin := None |}.

Definition py_cmd_example : Cmd :=
  {| Path := "python3"; Args := ["python3"; "-c"; wrapPython "def twoSum(a, t): pass" (Input tc_example)];
     Stdin := None |}.

Lemma Execute_unsupported_witness :
  Execute proc_example (New 0) "ruby" "puts 1" [tc_example; tc_example] st_example =
    ((λ tc, {| TR_Input := Input tc; TR_Expected := TrimSpace (Expected tc);
               Actual := "unsupported language: " +:+ "ruby"; Passed := false;
               TR_Runtime := 0 |}) <$> [tc_example; tc_example], st_example).
Proof. apply Execute_unsupported. apply (bool_decide_unpack _). vm_compute. reflexivity. Defined.

(** An infinite loop under a 200 ms deadline. *)
Lemma Execute_body_timeout_witness :
  Actual (Execute_body proc_example (New 200000000) "javascript" "while(true){}"
            tc_example st_example).1 = "Time Limit Exceeded"%string ∧
  TR_Runtime (Execute_body proc_example (New 200000000) "javascript" "while(true){}"
            tc_example st_example).1 = 200%Z.
Proof.
  rewrite (Execute_body_timeout proc_example (New 200000000) "javascript" "while(true){}"
             tc_example st_example js_cmd_example);
    [split; vm_compute; reflexivity | vm_compute; reflexivity | vm_compute; split; congruence
    | vm_compute; exact I].
Defined.

(** A correct answer with a warning on stderr passes. *)
Lemma Execute_body_exits_witness :
  Passed (Execute_body proc_example (New 0) "python" "def twoSum(a, t): pass"
            tc_example st_example).1 = true.
Proof.
  rewrite (Execute_body_exits proc_example (New 0) "python" "def twoSum(a, t): pass"
             tc_example st_example py_cmd_example "[0,1]
" "DeprecationWarning" 0 3000000);
    [vm_compute; reflexivity | vm_compute; reflexivity | vm_compute; reflexivity
    | vm_compute; split; congruence | vm_compute; congruence].
Defined.

(** A correct answer followed by a newline passes. *)
Lemma Execute_body_ws_insensitive_witness :
  Passed (Execute_body proc_example (New 0) "python" "def twoSum(a, t): pass"
            tc_example st_example).1 = bool_decide (TrimSpace "[0,1]" = TrimSpace "[0,1]").
Proof.
  apply (Execute_body_ws_insensitive proc_example (New 0) "python" "def twoSum(a, t): pass"
           tc_example st_example py_cmd_example "" "[0,1]" newline "DeprecationWarning"
           3000000 "" "[0,1]" "");
    [vm_compute; reflexivity | vm_compute; reflexivity | vm_compute; split; congruence
    | vm_compute; reflexivity | apply (bool_decide_unpack _); vm_compute; reflexivity].
Defined.

Lemma Execute_spawned_witness :
  spawned (Execute proc_example (New 0) "python" "def twoSum(a, t): pass"
             [tc_example; tc_example] st_example).2 = [py_cmd_example; py_cmd_example].
Proof. rewrite Execute_spawned; [vm_compute; reflexivity | vm_compute; reflexivity]. Defined.

Lemma Execute_time_bound_witness :
  Forall (λ r, 0 ≤ TR_Runtime r ≤ 200)%Z
    (Execute proc_example (New 200000000) "python" "x" [tc_example; tc_example] st_example).1.
Proof.
  pose proof (Execute_time_bound proc_example (New 200000000) "python" "x"
                [tc_example; tc_example] st_example) as H.
  destruct (Execute proc_example (New 200000000) "python" "x" [tc_example; tc_example]
              st_example) as [rs st'].
  refine (proj2 (H _ _)); [vm_compute; split; congruence|].
  intros c. unfold proc_example. case_decide; vm_compute; [congruence | exact I].
Defined.

End Executor.
