(* ===== verification/SubmissionService.v ===== *)
(** * The submission service (internal/application/submission/service.go)

    [RunCode] judges a submission against the visible test cases of a
    problem, and [SubmitCode] against all of them.  Both fetch the
    problem, create a Pending submission, run the executor, record the
    results with [SetResults], and insert the submission into the store.
    [GetSubmission] reads one back.

    The service is written against interfaces, as in Go:
    - [ProblemRepository] (domain/problem/repository.go, [FindByID]);
    - [SubmissionRepository] (domain/submission/repository.go);
    - [CodeExecutorI] (the [CodeExecutor] interface of service.go);
    - [Env], the wall clock (a component of the state) and [uuid.New].
    The generic theorems assume only [ServiceLaws]: a read does not change
    the state, [Create] inserts a fresh key and refuses a taken one, and
    the executor, the clock and the uuid generator leave the stored
    submissions alone.  [World] implements every interface with the
    SQLite repositories' behaviour.  Problems are read from the
    catalog's tables ([Catalog.Tables]) with [Catalog.FindByID], which
    preloads test cases and topics and skips soft-deleted rows.
    Submissions are a gmap of [SubmissionModel] rows by id, converted by
    the mappers of [Persistence.v], and an insert on a taken id fails.  The executor is the model of
    [Executor.v].  The law [law_Create_fresh] names what is stored,
    [persisted s]: the submission after its round trip through a row.
    So [GetSubmission] returns that round trip, not [s] itself. *)

From S2P Require Import Prelude ProblemDomain SubmissionDomain GoStrings Executor Json Persistence Catalog.
From Stdlib Require Import PrimFloat.

Module Service.

Import Problem Submission SubmissionTheory Executor Rows Catalog.

(** SQLite's message when an insert reuses a primary key. *)
Definition ErrDuplicateID : string := "UNIQUE constraint failed: submissions.id".

Class ProblemRepository (Σ : Type) := {
  problem_FindByID : N → ST Σ (Result Problem)
}.

Class SubmissionRepository (Σ : Type) := {
  submission_FindByID : string → ST Σ (Result Submission);
  submission_Create : Submission → ST Σ (option string);
  submission_Update : Submission → ST Σ (option string)
}.

Class CodeExecutorI (Σ : Type) := {
  executor_Execute : string → string → list TestCase → ST Σ (list TestResult)
}.

Class Env (Σ : Type) := {
  env_clock : Σ → Time;
  env_set_clock : Time → Σ → Σ;
  uuid_New : ST Σ string
}.

Section Service.
Context {Σ : Type} `{!ProblemRepository Σ, !SubmissionRepository Σ, !CodeExecutorI Σ, !Env Σ}.

(** [s.RunCode(ctx, problemID, language, code)]. *)
Definition RunCode (problemID : N) (language code : string) : ST Σ (Result Submission) :=
  r ← problem_FindByID problemID;
  match r with
  | Err err => mret (Err err)
  | Ok problem =>
      let visibleTests := VisibleTestCases problem in
      id ← uuid_New;
      submission ← st_zoom env_clock env_set_clock
                     (NewSubmission id problemID language code);
      results ← executor_Execute language code visibleTests;
      let submission := SetResults submission results in
      e ← submission_Create submission;
      match e with
      | Some err => mret (Err err)
      | None => mret (Ok submission)
      end
  end.

(** [s.SubmitCode(ctx, problemID, language, code)]. *)
Definition SubmitCode (problemID : N) (language code : string) : ST Σ (Result Submission) :=
  r ← problem_FindByID problemID;
  match r with
  | Err err => mret (Err err)
  | Ok problem =>
      id ← uuid_New;
      submission ← st_zoom env_clock env_set_clock
                     (NewSubmission id problemID language code);
      results ← executor_Execute language code (TestCases problem);
      let submission := SetResults submission results in
      e ← submission_Create submission;
      match e with
      | Some err => mret (Err err)
      | None => mret (Ok submission)
      end
  end.

(** [s.GetSubmission(ctx, id)]. *)
Definition GetSubmission (id : string) : ST Σ (Result Submission) :=
  submission_FindByID id.
End Service.


(** ** The laws the service relies on *)

Class ServiceLaws (Σ : Type)
    `{!ProblemRepository Σ, !SubmissionRepository Σ, !CodeExecutorI Σ, !Env Σ} := {
  problems_of : Σ → gmap N Problem;
  stored : Σ → gmap string Submission;
  persisted : Submission → Submission;
  law_problem_FindByID id σ :
    problem_FindByID id σ =
      (match problems_of σ !! id with Some p => Ok p | None => Err ErrRecordNotFound end, σ);
  law_submission_FindByID id σ :
    submission_FindByID id σ =
      (match stored σ !! id with Some s => Ok s | None => Err ErrRecordNotFound end, σ);
  law_Create_fresh s σ :
    stored σ !! SID s = None →
    (submission_Create s σ).1 = None ∧
    stored (submission_Create s σ).2 = <[SID s := persisted s]> (stored σ);
  law_Create_taken s σ :
    is_Some (stored σ !! SID s) → ∃ err, submission_Create s σ = (Some err, σ);
  law_Execute_frame language code tcs σ :
    stored (executor_Execute language code tcs σ).2 = stored σ;
  law_uuid_frame σ : stored (uuid_New σ).2 = stored σ;
  law_clock_frame t σ : stored (env_set_clock t σ) = stored σ
}.

(** ** The store-backed implementation *)

Record World := mkWorld {
  w_db : Tables;
  w_submissions : gmap string SubmissionModel;
  w_exec : ExecState;
  w_proc : Cmd → Behaviour;
  w_executor : CodeExecutor;
  w_uuid : nat → string;
  w_uuid_next : nat
}.

Definition set_submissions (m : gmap string SubmissionModel) (w : World) : World :=
  {| w_db := w_db w; w_submissions := m; w_exec := w_exec w; w_proc := w_proc w;
     w_executor := w_executor w; w_uuid := w_uuid w; w_uuid_next := w_uuid_next w |}.

Definition set_exec (st : ExecState) (w : World) : World :=
  {| w_db := w_db w; w_submissions := w_submissions w; w_exec := st;
     w_proc := w_proc w; w_executor := w_executor w; w_uuid := w_uuid w;
     w_uuid_next := w_uuid_next w |}.

Definition set_uuid_next (n : nat) (w : World) : World :=
  {| w_db := w_db w; w_submissions := w_submissions w; w_exec := w_exec w;
     w_proc := w_proc w; w_executor := w_executor w; w_uuid := w_uuid w; w_uuid_next := n |}.

(** [ProblemRepository.FindByID] on the catalog's tables. *)
Definition world_problem_FindByID (id : N) : ST World (Result Problem) :=
  λ w, (FindByID (w_db w) id, w).

(** [SubmissionRepository.FindByID]: [First(&model, "id = ?", id)], then
    [toDomainSubmission]. *)
Definition world_submission_FindByID (id : string) : ST World (Result Submission) :=
  λ w, (match w_submissions w !! id with
        | Some m => Ok (toDomainSubmission m)
        | None => Err ErrRecordNotFound
        end, w).

(** [SubmissionRepository.Create]: an INSERT of [toModelSubmission(s)],
    refused on a taken key. *)
Definition world_submission_Create (s : Submission) : ST World (option string) :=
  λ w, match w_submissions w !! SID s with
       | Some _ => (Some ErrDuplicateID, w)
       | None => (None, set_submissions (<[SID s := toModelSubmission s]> (w_submissions w)) w)
       end.

(** [SubmissionRepository.Update]: [Save], an upsert on the key. *)
Definition world_submission_Update (s : Submission) : ST World (option string) :=
  λ w, (None, set_submissions (<[SID s := toModelSubmission s]> (w_submissions w)) w).

(** [CodeExecutor.Execute] on the executor's state. *)
Definition world_Execute (language code : string) (tcs : list TestCase)
    : ST World (list TestResult) :=
  λ w, st_zoom w_exec set_exec
         (Execute (w_proc w) (w_executor w) language code tcs) w.

(** [uuid.New().String()]: the next id of the generator. *)
Definition world_uuid_New : ST World string :=
  λ w, (w_uuid w (w_uuid_next w), set_uuid_next (S (w_uuid_next w)) w).

Definition world_set_clock (t : Time) (w : World) : World :=
  set_exec {| clock := t; spawned := spawned (w_exec w) |} w.

#[export] Instance World_ProblemRepository : ProblemRepository World :=
  {| problem_FindByID := world_problem_FindByID |}.
#[export] Instance World_SubmissionRepository : SubmissionRepository World :=
  {| submission_FindByID := world_submission_FindByID;
     submission_Create := world_submission_Create;
     submission_Update := world_submission_Update |}.
#[export] Instance World_CodeExecutor : CodeExecutorI World :=
  {| executor_Execute := world_Execute |}.
#[export] Instance World_Env : Env World :=
  {| env_clock w := clock (w_exec w); env_set_clock := world_set_clock;
     uuid_New := world_uuid_New |}.

#[export] Program Instance World_ServiceLaws : ServiceLaws World :=
  {| problems_of w := problems_by_id (w_db w);
     stored w := toDomainSubmission <$> w_submissions w;
     persisted s := toDomainSubmission (toModelSubmission s) |}.
Next Obligation. intros id w. simpl. unfold world_problem_FindByID. by rewrite FindByID_lookup. Qed.
Next Obligation.
  intros id w. simpl. unfold world_submission_FindByID. rewrite lookup_fmap.
  by destruct (w_submissions w !! id).
Qed.
Next Obligation.
  intros s w H. simpl in *. unfold world_submission_Create.
  rewrite lookup_fmap in H. destruct (w_submissions w !! SID s); [by inversion H|].
  simpl. by rewrite fmap_insert.
Qed.
Next Obligation.
  intros s w [x H]. simpl in *. unfold world_submission_Create.
  rewrite lookup_fmap in H. destruct (w_submissions w !! SID s); [by eexists|by inversion H].
Qed.
Next Obligation.
  intros l c tcs w. simpl. unfold world_Execute, st_zoom.
  by destruct (Execute _ _ _ _ _ _).
Qed.
Next Obligation. done. Qed.
Next Obligation. done. Qed.

(** ** Theorems against the interfaces *)

Section Theory.
Context {Σ : Type} `{ServiceLaws Σ}.

(** Both flows, with the test cases they run as a parameter. *)
Definition judge_with (sel : Problem → list TestCase) (problemID : N) (language code : string)
    : ST Σ (Result Submission) :=
  r ← problem_FindByID problemID;
  match r with
  | Err err => mret (Err err)
  | Ok problem =>
      id ← uuid_New;
      submission ← st_zoom env_clock env_set_clock (NewSubmission id problemID language code);
      results ← executor_Execute language code (sel problem);
      let submission := SetResults submission results in
      e ← submission_Create submission;
      match e with Some err => mret (Err err) | None => mret (Ok submission) end
  end.

Lemma RunCode_judge_with : @RunCode Σ _ _ _ _ = judge_with VisibleTestCases.
Proof. reflexivity. Qed.

Lemma SubmitCode_judge_with : @SubmitCode Σ _ _ _ _ = judge_with TestCases.
Proof. reflexivity. Qed.

(** What one call does, on every path: an unknown problem returns the
    repository's error and leaves the state alone.  Otherwise the
    results are what the executor returned for [sel p]; a success
    stores exactly the returned submission under a key that was free,
    and a failed insert stores nothing. *)
Lemma judge_with_spec sel pid language code σ r σ' :
  judge_with sel pid language code σ = (r, σ') →
  match problems_of σ !! pid with
  | None => r = Err ErrRecordNotFound ∧ σ' = σ
  | Some p =>
      ∃ σ2, match r with
            | Ok sub =>
                Results sub = (executor_Execute language code (sel p) σ2).1 ∧
                S_ProblemID sub = pid ∧ Language sub = language ∧ Code sub = code ∧
                stored σ !! SID sub = None ∧ stored σ' = <[SID sub := persisted sub]> (stored σ)
            | Err _ => stored σ' = stored σ
            end
  end.
Proof.
  unfold judge_with. cbv [mbind ST_bind mret ST_ret st_zoom].
  rewrite law_problem_FindByID. destruct (problems_of σ !! pid) as [p|]; [|by intros [= <- <-]].
  destruct (uuid_New σ) as [id σ1] eqn:Hu.
  destruct (NewSubmission id pid language code (env_clock σ1)) as [sub0 t] eqn:Hn.
  destruct (executor_Execute language code (sel p) (env_set_clock t σ1)) as [rs σ3] eqn:Hx.
  set (sub := SetResults sub0 rs).
  assert (Hfr : stored σ3 = stored σ).
  { pose proof (law_Execute_frame language code (sel p) (env_set_clock t σ1)) as F.
    rewrite Hx in F. simpl in F. rewrite F, law_clock_frame.
    pose proof (law_uuid_frame σ) as U. by rewrite Hu in U. }
  destruct (submission_Create sub σ3) as [[err|] σ4] eqn:Hc; intros [= <- <-];
    exists (env_set_clock t σ1).
  - destruct (stored σ3 !! SID sub) eqn:Hk.
    + destruct (law_Create_taken sub σ3) as [err' Hc']; [by eexists|].
      rewrite Hc in Hc'. by simplify_eq.
    + destruct (law_Create_fresh sub σ3 Hk) as [Hc1 _]. by rewrite Hc in Hc1.
  - destruct (stored σ3 !! SID sub) eqn:Hk.
    + destruct (law_Create_taken sub σ3) as [err' Hc']; [by eexists|].
      by rewrite Hc in Hc'.
    + destruct (law_Create_fresh sub σ3 Hk) as [_ Hs]. rewrite Hc in Hs. simpl in Hs.
      unfold NewSubmission, time_Now, st_get, mbind, ST_bind, mret, ST_ret in Hn.
      simplify_eq. rewrite Hx. simpl. by rewrite Hs, <- Hfr.
Qed.

(** ** Claims *)

(** Whatever tests it selects, a call for an unknown problem returns
    the repository's error and leaves the state alone. *)
Lemma judge_with_not_found sel pid language code σ :
  problems_of σ !! pid = None →
  judge_with sel pid language code σ = (Err ErrRecordNotFound, σ).
Proof.
  intros Hp. destruct (judge_with sel pid language code σ) as [r σ'] eqn:E.
  apply judge_with_spec in E. rewrite Hp in E. destruct E. by subst.
Qed.

(** when the problem does not exist, [RunCode] and [SubmitCode]
    return the repository's "record not found" error and change
    nothing: no id is drawn, no process runs, nothing is stored. *)
Theorem RunCode_SubmitCode_not_found pid language code σ :
  problems_of σ !! pid = None →
  RunCode pid language code σ = (Err ErrRecordNotFound, σ) ∧
  SubmitCode pid language code σ = (Err ErrRecordNotFound, σ).
Proof.
  intros Hp. rewrite RunCode_judge_with, SubmitCode_judge_with.
  split; by apply judge_with_not_found.
Qed.

(** What a successful call leaves behind: its results are the
    executor's, its id was free, and the store now holds what reading it
    back gives. *)
Lemma judge_Ok_facts pid language code σ sub σ' :
  RunCode pid language code σ = (Ok sub, σ') ∨ SubmitCode pid language code σ = (Ok sub, σ') →
  (∃ σ2 tcs, Results sub = (executor_Execute language code tcs σ2).1) ∧
  stored σ !! SID sub = None ∧ stored σ' = <[SID sub := persisted sub]> (stored σ) ∧
  (GetSubmission (SID sub) σ').1 = Ok (persisted sub).
Proof.
  rewrite RunCode_judge_with, SubmitCode_judge_with.
  intros [E|E]; apply judge_with_spec in E; destruct (problems_of σ !! pid);
    [| by destruct E | | by destruct E];
    destruct E as (σ2 & Hr & _ & _ & _ & Hfree & Hs); (split; [by eexists _, _|]);
    (split; [done|]); (split; [done|]);
    unfold GetSubmission; by rewrite law_submission_FindByID, Hs, lookup_insert_eq.
Qed.

(** C20: a successful [RunCode] or [SubmitCode] inserts the submission
    it returns under an id that was free, and leaves every other stored
    submission as it was; [GetSubmission] then reads back what the store
    keeps of it ([persisted sub]). *)
Theorem judge_Ok_stored pid language code σ sub σ' :
  RunCode pid language code σ = (Ok sub, σ') ∨ SubmitCode pid language code σ = (Ok sub, σ') →
  stored σ !! SID sub = None ∧ stored σ' = <[SID sub := persisted sub]> (stored σ) ∧
  (GetSubmission (SID sub) σ').1 = Ok (persisted sub).
Proof. intros E. apply (judge_Ok_facts _ _ _ _ _ _ E). Qed.

(** a [RunCode] or [SubmitCode] that fails stores nothing. *)
Theorem judge_Err_stores_nothing pid language code σ err σ' :
  RunCode pid language code σ = (Err err, σ') ∨ SubmitCode pid language code σ = (Err err, σ') →
  stored σ' = stored σ.
Proof.
  rewrite RunCode_judge_with, SubmitCode_judge_with.
  intros [E|E]; apply judge_with_spec in E; destruct (problems_of σ !! pid);
    first [by destruct E as [σ2 E] | by destruct E as [_ ->]].
Qed.
End Theory.

(** The executor of [World] runs the executor model on its state. *)
Lemma world_Execute_results language code tcs w :
  (executor_Execute language code tcs w).1 =
    (Execute (w_proc w) (w_executor w) language code tcs (w_exec w)).1.
Proof. simpl. unfold world_Execute, st_zoom. by destruct (Execute _ _ _ _ _ _). Qed.

(** C19: with the store-backed implementation, a successful [RunCode]
    has one result per visible test case of the problem, in order, each
    carrying that test's input: hidden test cases are never run. *)
Theorem RunCode_runs_visible pid language code w p sub w' :
  problems_of w !! pid = Some p →
  RunCode pid language code w = (Ok sub, w') →
  length (Results sub) = length (VisibleTestCases p) ∧
  TR_Input <$> Results sub = Input <$> VisibleTestCases p.
Proof.
  intros Hp E. rewrite RunCode_judge_with in E. apply judge_with_spec in E.
  rewrite Hp in E. destruct E as (σ2 & Hr & _).
  rewrite Hr, world_Execute_results.
  apply (Execute_inputs (w_proc σ2) (w_executor σ2) language code (VisibleTestCases p) (w_exec σ2)).
Qed.

(** A successful [SubmitCode] on the world holds what [Execute] made of
    every test case of the problem. *)
Lemma SubmitCode_World_results pid language code w p sub w' :
  problems_of w !! pid = Some p →
  SubmitCode pid language code w = (Ok sub, w') →
  ∃ σ2, Results sub = (Execute (w_proc σ2) (w_executor σ2) language code (TestCases p) (w_exec σ2)).1.
Proof.
  intros Hp E. rewrite SubmitCode_judge_with in E. apply judge_with_spec in E.
  rewrite Hp in E. destruct E as (σ2 & Hr & _). exists σ2. by rewrite Hr, world_Execute_results.
Qed.

(** with the store-backed implementation, a successful
    [SubmitCode] has one result per test case of the problem, hidden
    ones included, in order, each carrying that test's input. *)
Theorem SubmitCode_runs_all pid language code w p sub w' :
  problems_of w !! pid = Some p →
  SubmitCode pid language code w = (Ok sub, w') →
  length (Results sub) = length (TestCases p) ∧
  TR_Input <$> Results sub = Input <$> TestCases p.
Proof.
  intros Hp E. destruct (SubmitCode_World_results _ _ _ _ _ _ _ Hp E) as [σ2 ->].
  apply (Execute_inputs (w_proc σ2) (w_executor σ2) language code (TestCases p) (w_exec σ2)).
Qed.


(** C21: in the SQLite-backed store, reading back a submission that
    [RunCode] or [SubmitCode] returned gives the same submission with
    two differences: its [CreatedAt] is the zero time, because
    [toDomainSubmission] does not restore it, and bytes of its results'
    strings that are not UTF-8 come back as U+FFFD. *)
Theorem GetSubmission_readback pid language code w sub w' :
  RunCode pid language code w = (Ok sub, w') ∨ SubmitCode pid language code w = (Ok sub, w') →
  (GetSubmission (SID sub) w').1 =
    Ok {| SID := SID sub; S_ProblemID := S_ProblemID sub; Language := Language sub;
          Code := Code sub; SStatus := SStatus sub; Runtime := Runtime sub;
          Memory := Memory sub; Output := Output sub;
          Results := sanitize_result <$> Results sub; S_CreatedAt := zero_time |}.
Proof.
  intros E. destruct (judge_Ok_facts _ _ _ _ _ _ E) as ([σ2 [tcs Hr]] & _ & _ & Hg).
  rewrite Hg. simpl. rewrite toDomain_toModel_Submission; [done|].
  rewrite Hr, world_Execute_results. apply Execute_runtimes_in_int.
Qed.

(** ** Witnesses *)

Definition tc_row (id : N) (input expected : string) (hidden : bool) : TestCaseModel :=
  {| TCM_Model := gorm_model_id id; TCM_ProblemID := 1; TCM_Input := input;
     TCM_Expected := expected; TCM_IsHidden := hidden |}.

(** Two Sum, with one visible and one hidden test case. *)
Definition problem_row_example : ProblemModel :=
  {| PM_Model := gorm_model_id 1; PM_Slug := "two-sum"; PM_Title := "Two Sum";
     PM_Difficulty := Easy; PM_Category := CategoryAlgorithms; PM_Description := "";
     PM_Examples := ""; PM_Constraints := ""; PM_StarterCode := "";
     PM_AcceptanceRate := 0%float; PM_Submissions := 0%Z; PM_Accepted := 0%Z;
     PM_IsPremium := false; PM_TestCases := []; PM_Topics := [] |}.

Definition db_example : Tables :=
  {| t_problems := [problem_row_example];
     t_test_cases := [tc_row 1 "[2,7,11,15],9" "[0,1]" false; tc_row 2 "[3,2,4],6" "[1,2]" true];
     t_topics := []; t_problem_topics := [] |}.

Definition problem_example : Problem := toDomainProblem (preload db_example problem_row_example).

Definition world_example : World :=
  {| w_db := db_example; w_submissions := ∅;
     w_exec := st_example; w_proc := proc_example; w_executor := New 0;
     w_uuid := λ n, ("uuid-" +:+ pretty n)%string; w_uuid_next := 0 |}.

(** The same world, where the next uuid is already taken. *)
Definition world_taken : World :=
  set_submissions {[ "uuid-0" := toModelSubmission sub_example ]} world_example.

Lemma RunCode_SubmitCode_not_found_witness :
  RunCode 7 "python" "def twoSum(a, t): pass" world_example =
    (Err ErrRecordNotFound, world_example) ∧
  SubmitCode 7 "python" "def twoSum(a, t): pass" world_example =
    (Err ErrRecordNotFound, world_example).
Proof. apply RunCode_SubmitCode_not_found. vm_compute. reflexivity. Defined.

Lemma judge_Ok_stored_witness :
  let '(r, w') := RunCode 1 "python" "def twoSum(a, t): pass" world_example in
  match r with
  | Ok sub => (GetSubmission (SID sub) w').1 = Ok (persisted sub)
  | Err _ => False
  end.
Proof.
  destruct (RunCode 1 "python" "def twoSum(a, t): pass" world_example) as [[sub|e] w'] eqn:E;
    [|vm_compute in E; discriminate].
  exact (proj2 (proj2 (judge_Ok_stored _ _ _ _ _ _ (or_introl E)))).
Defined.

(** The submission was created at clock 0, the Unix epoch; it reads
    back as created on January 1 of year 1. *)
Lemma GetSubmission_readback_witness :
  let '(r, w') := RunCode 1 "python" "def twoSum(a, t): pass" world_example in
  match r with
  | Ok sub => S_CreatedAt sub = 0%Z ∧
              (S_CreatedAt <$> (λ r, match r with Ok s => Some s | Err _ => None end)
                 (GetSubmission (SID sub) w').1) = Some zero_time
  | Err _ => False
  end.
Proof.
  destruct (RunCode 1 "python" "def twoSum(a, t): pass" world_example) as [[sub|e] w'] eqn:E;
    [|vm_compute in E; discriminate].
  rewrite (GetSubmission_readback _ _ _ _ _ _ (or_introl E)). split; [|done].
  vm_compute in E. by injection E as <- _.
Defined.

Lemma judge_Err_stores_nothing_witness :
  let '(r, w') := SubmitCode 1 "python" "def twoSum(a, t): pass" world_taken in
  match r with
  | Err _ => stored w' = stored world_taken
  | Ok _ => False
  end.
Proof.
  destruct (SubmitCode 1 "python" "def twoSum(a, t): pass" world_taken) as [[sub|e] w'] eqn:E;
    [vm_compute in E; discriminate|].
  exact (judge_Err_stores_nothing _ _ _ _ _ _ (or_intror E)).
Defined.

Lemma RunCode_runs_visible_witness :
  let '(r, _) := RunCode 1 "python" "def twoSum(a, t): pass" world_example in
  match r with
  | Ok sub => TR_Input <$> Results sub = ["[2,7,11,15],9"%string]
  | Err _ => False
  end.
Proof.
  destruct (RunCode 1 "python" "def twoSum(a, t): pass" world_example) as [[sub|e] w'] eqn:E;
    [|vm_compute in E; discriminate].
  exact (proj2 (RunCode_runs_visible 1 "python" "def twoSum(a, t): pass" world_example
                  problem_example sub w' ltac:(vm_compute; reflexivity) E)).
Defined.

Lemma SubmitCode_runs_all_witness :
  let '(r, _) := SubmitCode 1 "python" "def twoSum(a, t): pass" world_example in
  match r with
  | Ok sub => TR_Input <$> Results sub = ["[2,7,11,15],9"%string; "[3,2,4],6"%string]
  | Err _ => False
  end.
Proof.
  destruct (SubmitCode 1 "python" "def twoSum(a, t): pass" world_example) as [[sub|e] w'] eqn:E;
    [|vm_compute in E; discriminate].
  exact (proj2 (SubmitCode_runs_all 1 "python" "def twoSum(a, t): pass" world_example
                  problem_example sub w' ltac:(vm_compute; reflexivity) E)).
Defined.

End Service.
