(* ===== verification/Http.v ===== *)
(** * The HTTP layer (internal/interfaces/http)

    The handlers of problem_handler.go and submission_handler.go turn a
    request into a status code and a JSON body:
    - [ProblemHandler.List], [Get] and [GetTopics] call the problem
      service;
    - [SubmissionHandler.Run], [Submit] and [Get] call the submission
      service.
    gin's [c.JSON(code, obj)] writes [json.Marshal(obj)].  A response is
    modelled as its status code and the [JValue] that [Json.Marshal]
    prints.  A struct is written with its fields in declaration order,
    leaving out an [omitempty] field whose value is zero.  A [gin.H] is a
    map, which [encoding/json] writes with its keys in sorted order.

    [c.ShouldBindJSON(&req)] is gin's JSON binding:
    - [json.NewDecoder(body).Decode(&req)] reads the first JSON value of
      the body and ignores the bytes after it;
    - it stores each member into the field its key names.  Keys are
      matched case-insensitively and unknown keys are skipped.  A value
      of the wrong JSON type is skipped, and the first such error is
      reported;
    - go-playground's validator then checks the [binding:"required"]
      tags: a field still at its zero value fails.
    The error texts of [UnmarshalTypeError] and of the validator are
    written out.  The texts of JSON syntax errors are left as the
    parameter [syntax_msg].  Go's formatting of [float64] is the
    parameter [fmt_float]. *)

From S2P Require Import Prelude ProblemDomain SubmissionDomain GoStrings Executor Json Persistence Catalog SubmissionService.
From Stdlib Require Import PrimFloat.

Module Http.

Import Problem Submission GoStrings Executor Json Rows Catalog Service.

(** ** Responses *)

Record Response := mkResponse {
  resp_code : Z;
  resp_body : JValue
}.

Definition StatusOK : Z := 200.
Definition StatusBadRequest : Z := 400.
Definition StatusNotFound : Z := 404.
Definition StatusInternalServerError : Z := 500.

(** [gin.H{"error": msg}]. *)
Definition error_json (msg : string) : JValue := JObject [("error", JString msg)].

(** A Go [int] and a Go [uint] as [encoding/json] writes them. *)
Definition int_json (z : Z) : JValue := JNumber (string_of_list_ascii (itoa z)).
Definition uint_json (n : N) : JValue := JNumber (string_of_list_ascii (utoa n)).

(** An [int] field tagged [omitempty]: left out when zero. *)
Definition omit_zero (k : string) (z : Z) : list (string * JValue) :=
  if bool_decide (z = 0%Z) then [] else [(k, int_json z)].

(** A [string] field tagged [omitempty]: left out when empty. *)
Definition omit_empty (k : string) (s : string) : list (string * JValue) :=
  if bool_decide (s = "") then [] else [(k, JString s)].

(** A slice field tagged [omitempty]: left out when its length is 0. *)
Definition omit_nil (k : string) (vs : list JValue) : list (string * JValue) :=
  match vs with [] => [] | _ => [(k, JArray vs)] end.

(** ** Submission responses (submission_handler.go) *)

Record TestResultResponse := mkTestResultResponse {
  TRR_Input : string;
  TRR_Expected : string;
  TRR_Actual : string;
  TRR_Passed : bool;
  TRR_Runtime : Z
}.

Record SubmissionResponse := mkSubmissionResponse {
  SR_SubmissionID : string;
  SR_Status : string;
  SR_Passed : Z;
  SR_Total : Z;
  SR_Results : list TestResultResponse
}.

(** [toSubmissionResponse(s)]: [Passed] and [Total] keep their zero
    values. *)
Definition toSubmissionResponse (s : Submission) : SubmissionResponse :=
  {| SR_SubmissionID := SID s; SR_Status := SStatus s; SR_Passed := 0; SR_Total := 0;
     SR_Results := (λ r, {| TRR_Input := TR_Input r; TRR_Expected := TR_Expected r;
                            TRR_Actual := Actual r; TRR_Passed := Passed r;
                            TRR_Runtime := TR_Runtime r |}) <$> Results s |}.

(** [resp.Passed = ...; resp.Total = ...] in [Submit]. *)
Definition with_counts (r : SubmissionResponse) (passed total : Z) : SubmissionResponse :=
  {| SR_SubmissionID := SR_SubmissionID r; SR_Status := SR_Status r; SR_Passed := passed;
     SR_Total := total; SR_Results := SR_Results r |}.

Definition test_result_json (r : TestResultResponse) : JValue :=
  JObject [("input", JString (TRR_Input r)); ("expected", JString (TRR_Expected r));
           ("actual", JString (TRR_Actual r)); ("passed", JBool (TRR_Passed r));
           ("runtime", int_json (TRR_Runtime r))].

(** [SubmissionResponse]: [passed] and [total] are [omitempty]; [results]
    is a slice made with [make], never nil, so it is always written. *)
Definition submission_json (r : SubmissionResponse) : JValue :=
  JObject ([("submissionId", JString (SR_SubmissionID r)); ("status", JString (SR_Status r))] ++
           omit_zero "passed" (SR_Passed r) ++ omit_zero "total" (SR_Total r) ++
           [("results", JArray (test_result_json <$> SR_Results r))]).

(** ** Problem responses (problem_handler.go) *)

Record TopicResponse := mkTopicResponse {
  TopR_ID : N;
  TopR_Name : string;
  TopR_Slug : string;
  TopR_Count : Z
}.

Record TestCaseResponse := mkTestCaseResponse {
  TCR_ID : N;
  TCR_Input : string;
  TCR_Expected : string
}.

Record ProblemResponse := mkProblemResponse {
  PR_ID : N;
  PR_Slug : string;
  PR_Title : string;
  PR_Difficulty : string;
  PR_Category : string;
  PR_AcceptanceRate : float;
  PR_IsPremium : bool;
  PR_Description : string;
  PR_Examples : string;
  PR_Constraints : string;
  PR_StarterCode : string;
  PR_Topics : list TopicResponse;
  PR_TestCases : list TestCaseResponse
}.

Definition topic_response (t : Topic) : TopicResponse :=
  {| TopR_ID := Topic_ID t; TopR_Name := Topic_Name t; TopR_Slug := Topic_Slug t; TopR_Count := 0 |}.

Definition test_case_response (tc : TestCase) : TestCaseResponse :=
  {| TCR_ID := TC_ID tc; TCR_Input := Input tc; TCR_Expected := Expected tc |}.

(** [toProblemResponse(p, includeDetails)]: topics (without counts) when
    there are any; description, examples, constraints, starter code and
    every test case of [p] when [includeDetails]. *)
Definition toProblemResponse (p : Problem) (includeDetails : bool) : ProblemResponse :=
  {| PR_ID := ID p; PR_Slug := Slug p; PR_Title := Title p; PR_Difficulty := PDifficulty p;
     PR_Category := PCategory p; PR_AcceptanceRate := AcceptanceRate p;
     PR_IsPremium := IsPremium p;
     PR_Description := if includeDetails then Description p else "";
     PR_Examples := if includeDetails then Examples p else "";
     PR_Constraints := if includeDetails then Constraints p else "";
     PR_StarterCode := if includeDetails then StarterCode p else "";
     PR_Topics := if bool_decide (0 < length (Topics p)) then topic_response <$> Topics p else [];
     PR_TestCases := if includeDetails then test_case_response <$> TestCases p else [] |}.

Definition topic_json (t : TopicResponse) : JValue :=
  JObject ([("id", uint_json (TopR_ID t)); ("name", JString (TopR_Name t));
            ("slug", JString (TopR_Slug t))] ++ omit_zero "count" (TopR_Count t)).

Definition test_case_json (tc : TestCaseResponse) : JValue :=
  JObject [("id", uint_json (TCR_ID tc)); ("input", JString (TCR_Input tc));
           ("expected", JString (TCR_Expected tc))].

Section ProblemJson.

(** [float64] as [encoding/json] writes it. *)
Variable fmt_float : float → string.

Definition problem_json (r : ProblemResponse) : JValue :=
  JObject ([("id", uint_json (PR_ID r)); ("slug", JString (PR_Slug r));
            ("title", JString (PR_Title r)); ("difficulty", JString (PR_Difficulty r))] ++
           omit_empty "category" (PR_Category r) ++
           [("acceptanceRate", JNumber (fmt_float (PR_AcceptanceRate r)));
            ("isPremium", JBool (PR_IsPremium r))] ++
           omit_empty "description" (PR_Description r) ++
           omit_empty "examples" (PR_Examples r) ++
           omit_empty "constraints" (PR_Constraints r) ++
           omit_empty "starterCode" (PR_StarterCode r) ++
           omit_nil "topics" (topic_json <$> PR_Topics r) ++
           omit_nil "testCases" (test_case_json <$> PR_TestCases r)).

End ProblemJson.

(** ** Binding a [RunRequest] *)

Record RunRequest := mkRunRequest {
  RR_ProblemID : N;
  RR_Language : string;
  RR_Code : string
}.

Definition zero_RunRequest : RunRequest :=
  {| RR_ProblemID := 0; RR_Language := ""; RR_Code := "" |}.

Inductive RRField := FProblemID | FLanguage | FCode.

(** The field a key names, by its folded JSON name. *)
Definition rr_field (k : string) : option RRField :=
  match fold_name k with
  | Some f =>
      if bool_decide (f = list_ascii_of_string "PROBLEMID") then Some FProblemID
      else if bool_decide (f = list_ascii_of_string "LANGUAGE") then Some FLanguage
      else if bool_decide (f = list_ascii_of_string "CODE") then Some FCode
      else None
  | None => None
  end.

(** [strconv.ParseUint(s, 10, 64)]. *)
Definition parse_uint64 (lit : string) : option N :=
  let ds := list_ascii_of_string lit in
  if bool_decide (ds ≠ [] ∧ Forall (λ d, is_digit d = true) ds) then
    let n := digits_value 0 ds in if bool_decide (n < 2 ^ 64)%N then Some n else None
  else None.

(** The [Value] of an [UnmarshalTypeError] for a JSON value. *)
Definition json_kind (v : JValue) : string :=
  match v with
  | JNull => "null" | JBool _ => "bool" | JNumber _ => "number" | JString _ => "string"
  | JArray _ => "array" | JObject _ => "object"
  end.

(** [UnmarshalTypeError.Error()] for a field of [RunRequest]. *)
Definition field_type_error (field value ty : string) : string :=
  "json: cannot unmarshal " +:+ value +:+ " into Go struct field RunRequest." +:+ field +:+
  " of type " +:+ ty.

Definition set_ProblemID (r : RunRequest) (n : N) : RunRequest :=
  {| RR_ProblemID := n; RR_Language := RR_Language r; RR_Code := RR_Code r |}.
Definition set_Language (r : RunRequest) (s : string) : RunRequest :=
  {| RR_ProblemID := RR_ProblemID r; RR_Language := s; RR_Code := RR_Code r |}.
Definition set_Code (r : RunRequest) (s : string) : RunRequest :=
  {| RR_ProblemID := RR_ProblemID r; RR_Language := RR_Language r; RR_Code := s |}.

(** One member of the object: [null] leaves the field alone, a value of
    the wrong type is skipped and its error kept if it is the first. *)
Definition store_member (st : RunRequest * option string) (kv : string * JValue)
    : RunRequest * option string :=
  let '(r, err) := st in
  let fail e := (r, match err with None => Some e | Some _ => err end) in
  match rr_field kv.1, kv.2 with
  | None, _ => st
  | Some _, JNull => st
  | Some FProblemID, JNumber lit =>
      match parse_uint64 lit with
      | Some n => (set_ProblemID r n, err)
      | None => fail (field_type_error "problemId" ("number " +:+ lit) "uint")
      end
  | Some FProblemID, v => fail (field_type_error "problemId" (json_kind v) "uint")
  | Some FLanguage, JString s => (set_Language r s, err)
  | Some FLanguage, v => fail (field_type_error "language" (json_kind v) "string")
  | Some FCode, JString s => (set_Code r s, err)
  | Some FCode, v => fail (field_type_error "code" (json_kind v) "string")
  end.

(** [d.value(&req)]: an object member by member, [null] as nothing, and
    any other value as a type error on the whole struct. *)
Definition unmarshal_RunRequest (v : JValue) : Result RunRequest :=
  match v with
  | JObject kvs =>
      let '(r, err) := foldl store_member (zero_RunRequest, None) kvs in
      match err with Some e => Err e | None => Ok r end
  | JNull => Ok zero_RunRequest
  | _ => Err ("json: cannot unmarshal " +:+ json_kind v +:+ " into Go value of type http.RunRequest")
  end.

(** The fields whose [required] tag fails, in declaration order. *)
Definition required_failures (r : RunRequest) : list string :=
  (if bool_decide (RR_ProblemID r = 0%N) then ["ProblemID"] else []) ++
  (if bool_decide (RR_Language r = "") then ["Language"] else []) ++
  (if bool_decide (RR_Code r = "") then ["Code"] else []).

(** [ValidationErrors.Error()]: one line per failing field. *)
Definition validation_message (fs : list string) : string :=
  string_of_list_ascii (join_with [chr 10] ((λ f, list_ascii_of_string
    ("Key: 'RunRequest." +:+ f +:+ "' Error:Field validation for '" +:+ f +:+
     "' failed on the 'required' tag")) <$> fs)).

(** [json.Decoder.Decode]: the first JSON value of the body. *)
Definition decode_first (body : string) : option JValue :=
  let s := list_ascii_of_string body in
  fst <$> parse_value (S (length s)) s.

Section Bind.

(** The text of a JSON syntax error on a body. *)
Variable syntax_msg : string → string.

(** [c.ShouldBindJSON(&req)]: decode, then validate.  An empty body is
    [io.EOF]. *)
Definition bind_RunRequest (body : string) : Result RunRequest :=
  match decode_first body with
  | None =>
      Err (if bool_decide (skip_ws (list_ascii_of_string body) = []) then "EOF"
           else syntax_msg body)
  | Some v =>
      match unmarshal_RunRequest v with
      | Err e => Err e
      | Ok r =>
          match required_failures r with
          | [] => Ok r
          | fs => Err (validation_message fs)
          end
      end
  end.

End Bind.

(** ** Query strings *)

(** [c.GetQuery(key)]: the first value given for the key. *)
Definition query_first (q : list (string * string)) (k : string) : option string :=
  (λ ikv, ikv.2.2) <$> list_find (λ kv, kv.1 = k) q.

(** [c.Query(key)] and [c.DefaultQuery(key, def)]. *)
Definition Query (q : list (string * string)) (k : string) : string :=
  default "" (query_first q k).
Definition DefaultQuery (q : list (string * string)) (k d : string) : string :=
  default d (query_first q k).

(** [strconv.Atoi] on a 64-bit platform. *)
Definition Atoi (s : string) : option Z := parse_int64 (list_ascii_of_string s).

(** The [FindOptions] that [List] builds from the query: the defaults,
    then each parameter that parses or is not empty. *)
Definition list_options (q : list (string * string)) : FindOptions :=
  {| FO_Page := default (FO_Page DefaultFindOptions) (Atoi (DefaultQuery q "page" "1"));
     FO_Limit := default (FO_Limit DefaultFindOptions) (Atoi (DefaultQuery q "limit" "50"));
     FO_Difficulty := Query q "difficulty"; FO_Category := Query q "category";
     FO_TopicSlug := Query q "topic"; FO_Search := Query q "search" |}.

(** ** Routing (router.go) *)

(** The routes [Router.Setup] registers under the [/api] group. *)
Inductive Endpoint :=
  | EListProblems | EGetProblem (slug : string) | EGetTopics
  | ERun | ESubmit | EGetSubmission (id : string).

(** The segments of a path after its leading slash. *)
Fixpoint split_slash (s : list ascii) : list (list ascii) :=
  match s with
  | [] => [[]]
  | c :: s' =>
      if bool_decide (b2n c = 47)%N then [] :: split_slash s'
      else match split_slash s' with
           | seg :: segs => (c :: seg) :: segs
           | [] => [[c]]
           end
  end.

Definition path_segments (path : string) : option (list string) :=
  match list_ascii_of_string path with
  | c :: s => if bool_decide (b2n c = 47)%N then Some (string_of_list_ascii <$> split_slash s)
              else None
  | [] => None
  end.

(** gin's tree lookup for these six patterns: a static path matches
    itself, and [:slug] or [:id] one segment that is not empty.  Any
    other path gets gin's 404 or trailing-slash redirect, which are not
    modelled. *)
Definition route (method path : string) : option Endpoint :=
  match path_segments path with
  | Some ["api"; "problems"] => if bool_decide (method = "GET") then Some EListProblems else None
  | Some ["api"; "problems"; slug] =>
      if bool_decide (method = "GET" ∧ slug ≠ "") then Some (EGetProblem slug) else None
  | Some ["api"; "topics"] => if bool_decide (method = "GET") then Some EGetTopics else None
  | Some ["api"; "run"] => if bool_decide (method = "POST") then Some ERun else None
  | Some ["api"; "submit"] => if bool_decide (method = "POST") then Some ESubmit else None
  | Some ["api"; "submissions"; id] =>
      if bool_decide (method = "GET" ∧ id ≠ "") then Some (EGetSubmission id) else None
  | _ => None
  end.

(** ** Notions the theorems use *)

(** The request a client sends for [RunRequest], as [json.Marshal]
    writes it. *)
Definition run_request_json (r : RunRequest) : JValue :=
  JObject [("problemId", uint_json (RR_ProblemID r)); ("language", JString (RR_Language r));
           ("code", JString (RR_Code r))].

(** The member names of a JSON object, in order. *)
Definition json_keys (v : JValue) : list string :=
  match v with JObject kvs => fst <$> kvs | _ => [] end.

(** ** Handlers *)

Definition respond (code : Z) (body : JValue) : Response :=
  {| resp_code := code; resp_body := body |}.

Section Handlers.

Variable lower_rune : N → N.
Variable fmt_float : float → string.
Variable syntax_msg : string → string.

(** [SubmissionHandler.Run]: 400 when binding fails, 500 with the
    service's error, 200 with the submission. *)
Definition handler_Run (body : string) : ST World Response :=
  match bind_RunRequest syntax_msg body with
  | Err e => mret (respond StatusBadRequest (error_json e))
  | Ok req =>
      r ← RunCode (RR_ProblemID req) (RR_Language req) (RR_Code req);
      mret (match r with
            | Ok s => respond StatusOK (submission_json (toSubmissionResponse s))
            | Err e => respond StatusInternalServerError (error_json e)
            end)
  end.

(** The response [Submit] writes for a submission. *)
Definition submit_response (s : Submission) : SubmissionResponse :=
  with_counts (toSubmissionResponse s) (PassedCount s) (TotalCount s).

(** [SubmissionHandler.Submit]: as [Run], with the pass and test counts. *)
Definition handler_Submit (body : string) : ST World Response :=
  match bind_RunRequest syntax_msg body with
  | Err e => mret (respond StatusBadRequest (error_json e))
  | Ok req =>
      r ← SubmitCode (RR_ProblemID req) (RR_Language req) (RR_Code req);
      mret (match r with
            | Ok s => respond StatusOK (submission_json (submit_response s))
            | Err e => respond StatusInternalServerError (error_json e)
            end)
  end.

(** [SubmissionHandler.Get]: 404 with a fixed message on any error. *)
Definition handler_GetSubmission (id : string) : ST World Response :=
  r ← GetSubmission id;
  mret (match r with
        | Ok s => respond StatusOK (submission_json (toSubmissionResponse s))
        | Err _ => respond StatusNotFound (error_json "Submission not found")
        end).

(** [ProblemHandler.List]: the page as list views, with [gin.H]'s keys
    in sorted order.  The problem repository of the model never fails,
    so the 500 branch of the source is not reached. *)
Definition handler_List (q : list (string * string)) : ST World Response :=
  λ w, let opts := list_options q in
       let '(ps, total) := ListProblems lower_rune (w_db w) opts in
       (respond StatusOK
          (JObject [("limit", int_json (FO_Limit opts)); ("page", int_json (FO_Page opts));
                    ("problems", JArray ((λ p, problem_json fmt_float (toProblemResponse p false))
                                           <$> ps));
                    ("total", int_json total)]), w).

(** [ProblemHandler.Get]: 404 with a fixed message on any error. *)
Definition handler_GetProblem (slug : string) : ST World Response :=
  λ w, (match GetProblem (w_db w) slug with
        | Ok p => respond StatusOK (problem_json fmt_float (toProblemResponse p true))
        | Err _ => respond StatusNotFound (error_json "Problem not found")
        end, w).

(** [ProblemHandler.GetTopics]: every topic with its count. *)
Definition handler_GetTopics : ST World Response :=
  λ w, (respond StatusOK
          (JObject [("topics", JArray ((λ t, topic_json
             {| TopR_ID := Topic_ID t; TopR_Name := Topic_Name t; TopR_Slug := Topic_Slug t;
                TopR_Count := Topic_Count t |}) <$> Service_GetTopics (w_db w)))]), w).

(** A request through the router to its handler. *)
Definition serve (method path : string) (q : list (string * string)) (body : string)
    : ST World (option Response) :=
  match route method path with
  | Some EListProblems => r ← handler_List q; mret (Some r)
  | Some (EGetProblem slug) => r ← handler_GetProblem slug; mret (Some r)
  | Some EGetTopics => r ← handler_GetTopics; mret (Some r)
  | Some ERun => r ← handler_Run body; mret (Some r)
  | Some ESubmit => r ← handler_Submit body; mret (Some r)
  | Some (EGetSubmission id) => r ← handler_GetSubmission id; mret (Some r)
  | None => mret None
  end.

End Handlers.

(** ** Example requests *)

(** A stand-in for the text of a JSON syntax error. *)
Definition syntax_error_text (body : string) : string := "invalid character".

Definition request_example : RunRequest :=
  {| RR_ProblemID := 1; RR_Language := "python"; RR_Code := "print(1)" |}.

Definition body_example : string := Marshal (run_request_json request_example).

(** A request for a problem id no row has. *)
Definition request_unknown : RunRequest :=
  {| RR_ProblemID := 7; RR_Language := "python"; RR_Code := "print(1)" |}.

(** ** Lemmas *)

Lemma required_failures_nil r : required_failures r = [] ↔
  RR_ProblemID r ≠ 0%N ∧ RR_Language r ≠ "" ∧ RR_Code r ≠ "".
Proof.
  unfold required_failures. repeat case_bool_decide; simpl; naive_solver.
Qed.

Section Claims.

Variable syntax_msg : string → string.
Variable fmt_float : float → string.

(** C24: A request that binds names a problem and carries a language and
    code: [binding:"required"] rejects a zero problem id and an empty
    language or code, whether the member is missing, [null] or empty. *)
Theorem bind_RunRequest_required body req :
  bind_RunRequest syntax_msg body = Ok req →
  RR_ProblemID req ≠ 0%N ∧ RR_Language req ≠ "" ∧ RR_Code req ≠ "".
Proof.
  unfold bind_RunRequest. destruct (decode_first body) as [v|]; [|by destruct (bool_decide _)].
  destruct (unmarshal_RunRequest v) as [r|e]; [|done].
  destruct (required_failures r) eqn:E; [|done]. intros [= <-]. by apply required_failures_nil.
Qed.

(** C25: When binding fails, [Run] and [Submit] answer 400 with the
    binding error and touch nothing: no submission is judged or stored,
    and the clock does not move. *)
Theorem Run_Submit_bad_request body e w :
  bind_RunRequest syntax_msg body = Err e →
  handler_Run syntax_msg body w = (respond StatusBadRequest (error_json e), w) ∧
  handler_Submit syntax_msg body w = (respond StatusBadRequest (error_json e), w).
Proof. intros H. unfold handler_Run, handler_Submit. by rewrite H. Qed.

(** C26: A request that binds but names no live problem is answered
    with 500 and gorm's "record not found", not with 404, by both [Run]
    and [Submit]; nothing is judged or stored. *)
Theorem Run_Submit_unknown_problem body req w :
  bind_RunRequest syntax_msg body = Ok req →
  problems_of w !! RR_ProblemID req = None →
  handler_Run syntax_msg body w =
    (respond StatusInternalServerError (error_json ErrRecordNotFound), w) ∧
  handler_Submit syntax_msg body w =
    (respond StatusInternalServerError (error_json ErrRecordNotFound), w).
Proof.
  intros Hb Hp. unfold handler_Run, handler_Submit. rewrite Hb.
  unfold mbind, ST_bind, mret, ST_ret.
  rewrite RunCode_judge_with, SubmitCode_judge_with, !judge_with_not_found by exact Hp.
  done.
Qed.

(** [passed] and [total] are [omitempty]: the body [Submit] writes
    has a [passed] member exactly when some test passed, and a [total]
    member exactly when there were tests.  [results] is always there,
    as [[]] when there were no tests. *)
Theorem submit_json_omitempty s :
  ("passed" ∈ json_keys (submission_json (submit_response s)) ↔ PassedCount s ≠ 0%Z) ∧
  ("total" ∈ json_keys (submission_json (submit_response s)) ↔ Results s ≠ []) ∧
  "results" ∈ json_keys (submission_json (submit_response s)).
Proof.
  unfold json_keys, submission_json, submit_response, with_counts, omit_zero, TotalCount.
  cbn [SR_Passed SR_Total]. rewrite !fmap_app.
  assert (Hn : Z.of_nat (length (Results s)) = 0%Z ↔ Results s = [])
    by (rewrite <- length_zero_iff_nil; lia).
  repeat case_bool_decide; simpl; rewrite ?list_elem_of_In; simpl;
    intuition (try discriminate; try congruence).
Qed.

(** C22: The body of a successful [Submit] reveals every test case of
    the problem, hidden ones included: its results carry each test's
    input and trimmed expected output, in the problem's order. *)
Theorem Submit_reveals_hidden body w req p resp w' :
  bind_RunRequest syntax_msg body = Ok req →
  problems_of w !! RR_ProblemID req = Some p →
  handler_Submit syntax_msg body w = (resp, w') →
  resp_code resp = StatusOK →
  ∃ sr, resp_body resp = submission_json sr ∧
        TRR_Input <$> SR_Results sr = Input <$> TestCases p ∧
        TRR_Expected <$> SR_Results sr = (λ tc, TrimSpace (Expected tc)) <$> TestCases p.
Proof.
  intros Hb Hp. unfold handler_Submit. rewrite Hb. unfold mbind, ST_bind, mret, ST_ret.
  destruct (SubmitCode (RR_ProblemID req) (RR_Language req) (RR_Code req) w) as [[s|e] w2] eqn:E;
    intros [= <- _]; [|done]. intros _.
  destruct (SubmitCode_World_results _ _ _ _ _ _ _ Hp E) as [σ2 Hr].
  exists (submit_response s). split; [done|]. simpl. rewrite <- !list_fmap_compose, Hr.
  split.
  - apply (Execute_inputs (w_proc σ2) (w_executor σ2)).
  - apply (Execute_expected (w_proc σ2) (w_executor σ2)).
Qed.

(** C23: [GET /api/problems/:slug] shows only visible test cases: it
    answers 404 when no live problem has the slug, and otherwise 200
    with test cases that are exactly the problem's live rows that are
    not hidden, in rowid order. *)
Theorem GetProblem_response_visible w slug :
  match GetProblem (w_db w) slug with
  | Err _ => handler_GetProblem fmt_float slug w =
               (respond StatusNotFound (error_json "Problem not found"), w)
  | Ok p => handler_GetProblem fmt_float slug w =
              (respond StatusOK (problem_json fmt_float (toProblemResponse p true)), w) ∧
            PR_TestCases (toProblemResponse p true) =
              test_case_response <$> (toDomainTestCase <$>
                filter (λ tc, TCM_IsHidden tc = false) (preload_TestCases (w_db w) (ID p)))
  end.
Proof.
  unfold handler_GetProblem. destruct (GetProblem (w_db w) slug) as [p|e] eqn:E; [|done].
  split; [done|]. simpl. by destruct (GetProblem_visible_only _ _ _ E) as (_ & -> & _).
Qed.

End Claims.

(** ** Witnesses *)

Lemma bind_RunRequest_required_witness :
  bind_RunRequest syntax_error_text body_example = Ok request_example ∧
  (RR_ProblemID request_example ≠ 0%N ∧ RR_Language request_example ≠ "" ∧
   RR_Code request_example ≠ "").
Proof.
  assert (H : bind_RunRequest syntax_error_text body_example = Ok request_example)
    by (vm_compute; reflexivity).
  split; [exact H|]. exact (bind_RunRequest_required _ _ _ H).
Defined.

Lemma Run_Submit_bad_request_witness :
  let e := validation_message ["ProblemID"; "Language"; "Code"] in
  bind_RunRequest syntax_error_text "{}" = Err e ∧
  (handler_Run syntax_error_text "{}" world_example =
     (respond StatusBadRequest (error_json e), world_example) ∧
   handler_Submit syntax_error_text "{}" world_example =
     (respond StatusBadRequest (error_json e), world_example)).
Proof.
  simpl. assert (H : bind_RunRequest syntax_error_text "{}" =
                       Err (validation_message ["ProblemID"; "Language"; "Code"]))
    by (vm_compute; reflexivity).
  split; [exact H|]. exact (Run_Submit_bad_request _ _ _ _ H).
Defined.

Lemma Run_Submit_unknown_problem_witness :
  let body := Marshal (run_request_json request_unknown) in
  bind_RunRequest syntax_error_text body = Ok request_unknown ∧
  problems_of world_example !! RR_ProblemID request_unknown = None ∧
  (handler_Run syntax_error_text body world_example =
     (respond StatusInternalServerError (error_json ErrRecordNotFound), world_example) ∧
   handler_Submit syntax_error_text body world_example =
     (respond StatusInternalServerError (error_json ErrRecordNotFound), world_example)).
Proof.
  simpl. assert (H1 : bind_RunRequest syntax_error_text
                        (Marshal (run_request_json request_unknown)) = Ok request_unknown)
    by (vm_compute; reflexivity).
  assert (H2 : problems_of world_example !! RR_ProblemID request_unknown = None)
    by (vm_compute; reflexivity).
  split; [exact H1|]. split; [exact H2|].
  exact (Run_Submit_unknown_problem _ _ _ _ H1 H2).
Defined.

Lemma Submit_reveals_hidden_witness :
  let r := handler_Submit syntax_error_text body_example world_example in
  bind_RunRequest syntax_error_text body_example = Ok request_example ∧
  problems_of world_example !! RR_ProblemID request_example = Some problem_example ∧
  r = (r.1, r.2) ∧ resp_code r.1 = StatusOK ∧
  ∃ sr, resp_body r.1 = submission_json sr ∧
        TRR_Input <$> SR_Results sr = Input <$> TestCases problem_example ∧
        TRR_Expected <$> SR_Results sr =
          (λ tc, TrimSpace (Expected tc)) <$> TestCases problem_example.
Proof.
  simpl. assert (H1 : bind_RunRequest syntax_error_text body_example = Ok request_example)
    by (vm_compute; reflexivity).
  assert (H2 : problems_of world_example !! RR_ProblemID request_example = Some problem_example)
    by (vm_compute; reflexivity).
  assert (H3 : handler_Submit syntax_error_text body_example world_example =
               ((handler_Submit syntax_error_text body_example world_example).1,
                (handler_Submit syntax_error_text body_example world_example).2))
    by (by destruct (handler_Submit _ _ _)).
  assert (H4 : resp_code (handler_Submit syntax_error_text body_example world_example).1 =
               StatusOK) by (vm_compute; reflexivity).
  split_and!; [exact H1|exact H2|exact H3|exact H4|].
  exact (Submit_reveals_hidden _ _ _ _ _ _ _ H1 H2 H3 H4).
Defined.

End Http.
