(* ===== verification/Server.v ===== *)
(** * The running server (cmd/api/main.go, interfaces/http/router.go)

    [main] removes the database file, opens a fresh one ([NewDB]), seeds
    it ([seedData]), builds the executor with a five-second timeout,
    the services, and the router, and then serves requests until it is
    stopped.  [main_world] is the state it serves from.  [engine] is
    what gin does with a request: a trailing-slash redirect when the
    path is not routed but its twin is, otherwise the CORS middleware
    of [Setup] and then the route's handler ([handle], that is
    [Http.serve]) or the 404 of [NoRoute].  A run of the server is a
    sequence of [step]s: a request through [engine], or time passing
    between requests.  [reachable] is the reflexive transitive closure
    of [step] from [main_world].  [proc_step] is the life of the
    process around it: serving, the graceful shutdown on SIGINT or
    SIGTERM with [Shutdown]'s five-second wait for a request in flight
    ([shutdown_during]), and the next start, which removes the database
    file.

    The theorems are about every run: the catalog never changes, a
    stored submission is never changed or removed, from any state a
    valid submission is judged, stored, and then served back, a request
    from a foreign origin never reaches a handler, and a submission in
    flight at shutdown is lost when its tests outlast [Shutdown]'s
    five-second wait. *)

From S2P Require Import Prelude ProblemDomain SubmissionDomain GoStrings Executor Json Persistence Catalog ProblemStore SubmissionService Http.
From Stdlib Require Import PrimFloat.

Module Server.

Import Problem Submission GoStrings Executor Json Rows Catalog Store Service Http.

(** An HTTP request as the engine sees it: method, path, parsed query,
    body, and the [Origin] and [Host] headers (empty when absent). *)
Record Request := mkRequest {
  rq_method : string;
  rq_path : string;
  rq_query : list (string * string);
  rq_body : string;
  rq_origin : string;
  rq_host : string
}.

(** What the engine writes: a status, the headers the model tracks (the
    CORS ones and [Location]), and a body. *)
Inductive Body := BJSON (v : JValue) | BText (s : string) | BNone.

Record Answer := mkAnswer { ans_code : Z; ans_headers : list (string * string); ans_body : Body }.

(** ** The CORS middleware of [Setup] (gin-contrib/cors) *)

(** [AllowOrigins] of the [cors.Config]. *)
Definition AllowOrigins : list string :=
  ["http://localhost:3001"; "http://localhost:3003"; "http://localhost:5173"].

Inductive CorsResult :=
  | CorsPass (headers : list (string * string))
  | CorsAbort (code : Z) (headers : list (string * string)).

(** The headers an accepted cross-origin request gets: with
    [AllowCredentials] and a list of origins, the credentials flag and
    the request's own origin. *)
Definition cors_headers (origin : string) : list (string * string) :=
  [("Access-Control-Allow-Credentials", "true"); ("Access-Control-Allow-Origin", origin)].

(** [applyCors]: no [Origin], or the server's own origin, is not a CORS
    request; an origin not in the list is aborted with 403; a preflight
    ([OPTIONS]) is answered 204 by the middleware; any other request
    goes on with the headers set. *)
Definition cors (rq : Request) : CorsResult :=
  let origin := rq_origin rq in
  if bool_decide (origin = EmptyString) then CorsPass []
  else if bool_decide (origin = "http://" +:+ rq_host rq ∨ origin = "https://" +:+ rq_host rq)
  then CorsPass []
  else if bool_decide (origin ∉ AllowOrigins) then CorsAbort 403 []
  else if bool_decide (rq_method rq = "OPTIONS") then CorsAbort 204 (cors_headers origin)
  else CorsPass (cors_headers origin).

(** ** gin's engine around the routes *)

(** The path with its trailing slash removed, or with one added. *)
Definition toggle_slash (path : string) : string :=
  match rev (list_ascii_of_string path) with
  | c :: r => if bool_decide (b2n c = 47)%N && negb (bool_decide (r = [])) then
                string_of_list_ascii (rev r)
              else path +:+ "/"
  | [] => path +:+ "/"
  end.

(** [RedirectTrailingSlash]: an unrouted path other than "/" whose
    twin with or without the trailing slash is routed for the method. *)
Definition tsr (method path : string) : bool :=
  bool_decide (path ≠ "/") &&
  match route method (toggle_slash path) with Some _ => true | None => false end.

(** [redirectRequest]: 301 for GET, 307 otherwise. *)
Definition redirect_code (method : string) : Z := if bool_decide (method = "GET") then 301 else 307.

(** What the writer holds after the handler chain: the handler's JSON,
    or [serveError]'s 404 text when no route matched. *)
Definition to_answer (headers : list (string * string)) (r : option Response) : Answer :=
  match r with
  | Some resp => mkAnswer (resp_code resp) headers (BJSON (resp_body resp))
  | None => mkAnswer StatusNotFound headers (BText "404 page not found")
  end.

Section Server.

Variable lower_rune : N → N.
Variable fmt_float : float → string.
Variable syntax_msg : string → string.
Variable DefaultTopics : list TopicModel.
Variable SeedProblems : list Problem.

(** [executor.New(5 * time.Second)]. *)
Definition main_timeout : Z := (5 * 1000000000)%Z.

(** The state [main] serves from, started at time [start], with the
    behaviour of the programs it will run and the ids [uuid.New] will
    draw. *)
Definition main_world (start : Time) (proc : Cmd → Behaviour) (uuid : nat → string) : World :=
  {| w_db := seedData DefaultTopics SeedProblems start NewDB; w_submissions := ∅;
     w_exec := {| clock := start; spawned := [] |}; w_proc := proc;
     w_executor := New main_timeout; w_uuid := uuid; w_uuid_next := 0 |}.

(** The route table and its handlers. *)
Definition handle (rq : Request) : ST World (option Response) :=
  serve lower_rune fmt_float syntax_msg (rq_method rq) (rq_path rq) (rq_query rq) (rq_body rq).

(** The CORS middleware, then the handler or the 404 of [NoRoute]. *)
Definition handle_chain (rq : Request) : ST World Answer :=
  match cors rq with
  | CorsAbort code hs => mret (mkAnswer code hs BNone)
  | CorsPass hs => r ← handle rq; mret (to_answer hs r)
  end.

(** [engine.ServeHTTP]: a routed request runs the chain; an unrouted
    one is redirected when [RedirectTrailingSlash] applies (before any
    middleware), and otherwise runs the chain with no handler. *)
Definition engine (rq : Request) : ST World Answer :=
  match route (rq_method rq) (rq_path rq) with
  | Some _ => handle_chain rq
  | None =>
      if tsr (rq_method rq) (rq_path rq) then
        mret (mkAnswer (redirect_code (rq_method rq)) [("Location", toggle_slash (rq_path rq))] BNone)
      else handle_chain rq
  end.

(** A step of the server: a request is served, or the clock advances
    between requests. *)
Inductive step : World → World → Prop :=
  | step_request rq w : step w (engine rq w).2
  | step_tick d w : (0 ≤ d)%Z → step w (world_set_clock (clock (w_exec w) + d)%Z w).

Definition reachable (start : Time) (proc : Cmd → Behaviour) (uuid : nat → string) (w : World) : Prop :=
  rtc step (main_world start proc uuid) w.

(** ** The process: serving, shutdown and the next start *)

(** [main] as an operating-system process: serving from a world, or
    exited, leaving the database file behind. *)
Inductive Process := Running (w : World) | Stopped (w : World).

(** [context.WithTimeout(context.Background(), 5*time.Second)], the
    time [srv.Shutdown] waits for the requests in flight. *)
Definition shutdown_timeout : Z := (5 * 1000000000)%Z.

(** The signal arrives while [rq] is being served.  [srv.Shutdown]
    waits for it: when it finishes within [shutdown_timeout] of the
    executor's clock, its effects are in the stopped world; otherwise
    [Shutdown] returns the context's error, [log.Fatal] ends the process
    before the handler has written anything, and the stopped world is
    the one the request started from. *)
Definition shutdown_during (rq : Request) (w : World) : World :=
  let w' := (engine rq w).2 in
  if bool_decide (clock (w_exec w') - clock (w_exec w) ≤ shutdown_timeout)%Z then w' else w.

(** The life of the process.  While running it serves ([step]).  On
    SIGINT or SIGTERM, [srv.Shutdown] stops accepting requests: when
    none is in flight the process returns at once, and when one is,
    [shutdown_during] says what is left of it.  The next start removes
    [leetcode.db] and builds its world afresh ([main_world]), whatever
    the stopped world held. *)
Inductive proc_step : Process → Process → Prop :=
  | ps_serve w w' : step w w' → proc_step (Running w) (Running w')
  | ps_shutdown w : proc_step (Running w) (Stopped w)
  | ps_shutdown_during rq w : proc_step (Running w) (Stopped (shutdown_during rq w))
  | ps_start w start proc uuid : proc_step (Stopped w) (Running (main_world start proc uuid)).

End Server.

(** ** Notions the theorems use *)

(** What a run may do to the world: the catalog, the programs, the
    executor and the id generator stay; stored submissions stay as they
    are; ids are only drawn, and a new key is an id drawn meanwhile. *)
Definition evolves (w w' : World) : Prop :=
  w_db w' = w_db w ∧ w_proc w' = w_proc w ∧ w_executor w' = w_executor w ∧
  w_uuid w' = w_uuid w ∧ w_submissions w ⊆ w_submissions w' ∧
  w_uuid_next w ≤ w_uuid_next w' ∧
  ∀ k, is_Some (w_submissions w' !! k) →
    is_Some (w_submissions w !! k) ∨ ∃ i, w_uuid_next w ≤ i < w_uuid_next w' ∧ k = w_uuid w i.

(** A path segment as gin's [:id] and [:slug] parameters match it: not
    empty, no slash. *)
Definition is_segment (s : string) : bool :=
  negb (String.eqb s EmptyString) &&
  forallb (λ c, negb (bool_decide (b2n c = 47)%N)) (list_ascii_of_string s).

(** The requests the catalog answers. *)
Definition is_catalog_request (rq : Request) : bool :=
  match route (rq_method rq) (rq_path rq) with
  | Some EListProblems | Some (EGetProblem _) | Some EGetTopics => true
  | _ => false
  end.

(** [POST /api/submit] with a body, and [GET /api/submissions/:id]. *)
Definition submit_request (body : string) : Request :=
  mkRequest "POST" "/api/submit" [] body EmptyString "localhost:8080".
Definition get_submission_request (id : string) : Request :=
  mkRequest "GET" ("/api/submissions/" +:+ id) [] EmptyString EmptyString "localhost:8080".
Definition get_problem_request (slug : string) : Request :=
  mkRequest "GET" ("/api/problems/" +:+ slug) [] EmptyString EmptyString "localhost:8080".

(** ** Example runs *)

(** An id generator that never repeats: ["a"], ["aa"], ... *)
Definition uuid_example (i : nat) : string := string_of_list_ascii (repeat "a"%char (S i)).

Definition engine_example : Request → ST World Answer :=
  engine (λ n, n) (λ _, EmptyString) syntax_error_text.

(** The server seeded with [seed_example] at time 7. *)
Definition server_example : World :=
  main_world [topic_example] seed_example 7%Z proc_example uuid_example.

(** A submit from a foreign web page, and the preflight a page of the
    front end sends before its submit. *)
Definition foreign_submit : Request :=
  mkRequest "POST" "/api/submit" [] body_example "http://evil.example" "localhost:8080".
Definition preflight_submit : Request :=
  mkRequest "OPTIONS" "/api/submit" [] EmptyString "http://localhost:5173" "localhost:8080".



(** The server after one [POST /api/submit] of [body_example]. *)
Definition after_submit_example : World :=
  (engine_example (submit_request body_example) server_example).2.

(** ** Lemmas *)

Lemma st_bind_ret_snd {S A B} (m : ST S A) (f : A → B) (w : S) :
  ((x ← m; mret (f x)) w).2 = (m w).2.
Proof. unfold mbind, ST_bind, mret, ST_ret. by destruct (m w). Qed.

Lemma st_bind_ret_fst {S A B} (m : ST S A) (f : A → B) (w : S) :
  ((x ← m; mret (f x)) w).1 = f (m w).1.
Proof. unfold mbind, ST_bind, mret, ST_ret. by destruct (m w). Qed.


Lemma exec_eta (st : ExecState) : {| clock := clock st; spawned := spawned st |} = st.
Proof. by destruct st. Qed.

Lemma world_Execute_eq language code tcs w :
  world_Execute language code tcs w =
    ((Execute (w_proc w) (w_executor w) language code tcs (w_exec w)).1,
     set_exec (Execute (w_proc w) (w_executor w) language code tcs (w_exec w)).2 w).
Proof. unfold world_Execute, st_zoom. by destruct (Execute _ _ _ _ _ _). Qed.

Lemma world_Execute_frame language code tcs w :
  ∃ st, (world_Execute language code tcs w).2 = set_exec st w.
Proof. unfold world_Execute, st_zoom. destruct (Execute _ _ _ _ _ _). by eexists. Qed.

(** [judge_with] on the world, with every call of the flow unfolded. *)
Lemma judge_with_World sel pid l c w :
  judge_with sel pid l c w =
    match FindByID (w_db w) pid with
    | Err e => (Err e, w)
    | Ok p =>
        let w1 := world_set_clock (clock (w_exec w)) (set_uuid_next (S (w_uuid_next w)) w) in
        let sub0 := NewSubmission (w_uuid w (w_uuid_next w)) pid l c (clock (w_exec w)) in
        let '(results, w2) := world_Execute l c (sel p) w1 in
        let sub := SetResults sub0.1 results in
        match w_submissions w2 !! SID sub with
        | Some _ => (Err ErrDuplicateID, w2)
        | None => (Ok sub, set_submissions (<[SID sub := toModelSubmission sub]> (w_submissions w2)) w2)
        end
    end.
Proof.
  unfold judge_with. cbn. unfold mbind, ST_bind, mret, ST_ret. cbn.
  unfold world_problem_FindByID. destruct (FindByID _ _); [|done]. cbn.
  unfold st_zoom, NewSubmission, time_Now, st_get, mbind, ST_bind, mret, ST_ret. cbn.
  destruct (world_Execute _ _ _ _) as [rs w2]. unfold world_submission_Create. cbn.
  destruct (_ !! _); done.
Qed.

Lemma SID_judged id pid l c t rs :
  SID (SetResults (NewSubmission id pid l c t).1 rs) = id.
Proof. done. Qed.

Lemma split_slash_last a :
  forallb (λ c, negb (bool_decide (b2n c = 47)%N)) a = true → split_slash a = [a].
Proof.
  induction a as [|c a IH]; [done|]. simpl. intros [Hc Ha]%andb_prop.
  destruct (bool_decide _); [done|]. by rewrite IH.
Qed.

Lemma split_slash_app a r :
  forallb (λ c, negb (bool_decide (b2n c = 47)%N)) a = true →
  split_slash (a ++ "/"%char :: r) = a :: split_slash r.
Proof.
  induction a as [|c a IH]; [done|]. simpl. intros [Hc Ha]%andb_prop.
  destruct (bool_decide _); [done|]. by rewrite IH.
Qed.

(** The segments of a three-segment path. *)
Lemma path_segments_3 a b c :
  is_segment a = true → is_segment b = true → is_segment c = true →
  path_segments ("/" +:+ a +:+ "/" +:+ b +:+ "/" +:+ c) = Some [a; b; c].
Proof.
  unfold is_segment. intros [_ Ha]%andb_prop [_ Hb]%andb_prop [_ Hc]%andb_prop.
  unfold path_segments. rewrite !list_ascii_of_string_app. cbn [list_ascii_of_string app].
  rewrite bool_decide_true by done.
  rewrite (split_slash_app _ _ Ha), (split_slash_app _ _ Hb), (split_slash_last _ Hc).
  cbn. by rewrite !string_of_list_ascii_of_string.
Qed.

Lemma is_segment_ne s : is_segment s = true → s ≠ EmptyString.
Proof. unfold is_segment. intros [Hne _]%andb_prop ->. discriminate. Qed.

Lemma route_get_submission id :
  is_segment id = true → route "GET" ("/api/submissions/" +:+ id) = Some (EGetSubmission id).
Proof.
  intros H. change ("/api/submissions/" +:+ id) with ("/" +:+ "api" +:+ "/" +:+ "submissions" +:+ "/" +:+ id).
  unfold route. rewrite path_segments_3 by done. cbn.
  rewrite bool_decide_true; [done|]. split; [done|]. by apply is_segment_ne.
Qed.

Lemma route_get_problem slug :
  is_segment slug = true → route "GET" ("/api/problems/" +:+ slug) = Some (EGetProblem slug).
Proof.
  intros H. change ("/api/problems/" +:+ slug) with ("/" +:+ "api" +:+ "/" +:+ "problems" +:+ "/" +:+ slug).
  unfold route. rewrite path_segments_3 by done. cbn.
  rewrite bool_decide_true; [done|]. split; [done|]. by apply is_segment_ne.
Qed.

Lemma route_submit : route "POST" "/api/submit" = Some ESubmit.
Proof. reflexivity. Qed.

#[export] Instance evolves_preorder : PreOrder evolves.
Proof.
  split.
  - intros w. unfold evolves. split_and!; try done. intros k Hk. by left.
  - intros w1 w2 w3 (Hd1 & Hp1 & He1 & Hu1 & Hs1 & Hn1 & Hk1) (Hd2 & Hp2 & He2 & Hu2 & Hs2 & Hn2 & Hk2).
    unfold evolves. split_and!; try congruence; [by etrans| lia |].
    intros k Hk. destruct (Hk2 k Hk) as [Hk'|(i & Hi & ->)].
    + destruct (Hk1 k Hk') as [?|(i & Hi & ->)]; [by left|right; exists i; split; [lia|done]].
    + right. exists i. split; [lia|congruence].
Qed.

Lemma judge_with_evolves sel pid l c w : evolves w (judge_with sel pid l c w).2.
Proof.
  rewrite judge_with_World. destruct (FindByID _ _) as [p|e]; [|reflexivity]. cbv zeta.
  match goal with |- context [world_Execute l c (sel p) ?w1] =>
    destruct (world_Execute_frame l c (sel p) w1) as [st Hst];
    destruct (world_Execute l c (sel p) w1) as [rs w2] end.
  simpl in Hst. subst w2. rewrite SID_judged.
  destruct (_ !! _) eqn:Hk; unfold evolves; simpl; split_and!; try done; try lia.
  - intros k Hk'. by left.
  - by apply insert_subseteq.
  - intros k [<-|Hx]%lookup_insert_is_Some'; [right; exists (w_uuid_next w); split; [lia|done]|by left].
Qed.

Lemma world_set_clock_evolves t w : evolves w (world_set_clock t w).
Proof. unfold evolves. simpl. split_and!; try done. intros k Hk. by left. Qed.

Lemma handler_Run_evolves syntax_msg body w : evolves w (handler_Run syntax_msg body w).2.
Proof.
  unfold handler_Run. destruct (bind_RunRequest _ _); [|reflexivity].
  rewrite st_bind_ret_snd. apply judge_with_evolves.
Qed.

Lemma handler_Submit_evolves syntax_msg body w : evolves w (handler_Submit syntax_msg body w).2.
Proof.
  unfold handler_Submit. destruct (bind_RunRequest _ _); [|reflexivity].
  rewrite st_bind_ret_snd. apply judge_with_evolves.
Qed.

Section Theory.

Variable lower_rune : N → N.
Variable fmt_float : float → string.
Variable syntax_msg : string → string.
Variable DefaultTopics : list TopicModel.
Variable SeedProblems : list Problem.

Local Abbreviation handle := (handle lower_rune fmt_float syntax_msg).
Local Abbreviation engine := (engine lower_rune fmt_float syntax_msg).
Local Abbreviation shutdown_during := (shutdown_during lower_rune fmt_float syntax_msg).
Local Abbreviation step := (step lower_rune fmt_float syntax_msg).
Local Abbreviation main_world := (main_world DefaultTopics SeedProblems).
Local Abbreviation reachable := (reachable lower_rune fmt_float syntax_msg DefaultTopics SeedProblems).

Lemma handle_evolves rq w : evolves w (handle rq w).2.
Proof.
  unfold handle, serve.
  destruct (route _ _) as [[]|]; rewrite ?st_bind_ret_snd;
    first [apply handler_Run_evolves | apply handler_Submit_evolves | reflexivity].
Qed.

Lemma engine_evolves rq w : evolves w (engine rq w).2.
Proof.
  unfold Server.engine, Server.handle_chain.
  destruct (route _ _); [|destruct (tsr _ _); [reflexivity|]];
    destruct (cors rq); try reflexivity; rewrite st_bind_ret_snd; apply handle_evolves.
Qed.

(** The answer of the engine depends on the world only through the
    handler's response. *)
Lemma engine_fst rq w w' :
  (handle rq w').1 = (handle rq w).1 → (engine rq w').1 = (engine rq w).1.
Proof.
  intros E. unfold Server.engine, Server.handle_chain.
  destruct (route _ _); [|destruct (tsr _ _); [reflexivity|]];
    destruct (cors rq); try reflexivity; by rewrite !st_bind_ret_fst, E.
Qed.

(** A routed request without an [Origin] goes straight to its handler. *)
Lemma engine_plain rq w :
  rq_origin rq = EmptyString → is_Some (route (rq_method rq) (rq_path rq)) →
  engine rq w = (to_answer [] (handle rq w).1, (handle rq w).2).
Proof.
  intros Ho [e He]. unfold Server.engine, Server.handle_chain, cors. rewrite He, Ho.
  rewrite bool_decide_true by done. unfold mbind, ST_bind, mret, ST_ret. by destruct (handle rq w).
Qed.

Lemma step_evolves w w' : step w w' → evolves w w'.
Proof. intros []; [apply engine_evolves|apply world_set_clock_evolves]. Qed.

Lemma steps_evolve w w' : rtc step w w' → evolves w w'.
Proof. induction 1 as [|w1 w2 w3 H12 _ IH]; [done|]. etrans; [apply step_evolves|]; done. Qed.

Lemma reachable_evolves start proc uuid w :
  reachable start proc uuid w → evolves (main_world start proc uuid) w.
Proof. apply steps_evolve. Qed.

(** In a reachable world every stored key is an id drawn so far. *)
Lemma reachable_keys start proc uuid w k :
  reachable start proc uuid w → is_Some (w_submissions w !! k) →
  ∃ i, i < w_uuid_next w ∧ k = uuid i.
Proof.
  intros Hr Hk. destruct (reachable_evolves _ _ _ _ Hr) as (_ & _ & _ & _ & _ & _ & Hks).
  destruct (Hks k Hk) as [[? Hx]|(i & Hi & ->)]; [done|]. exists i. split; [lia|done].
Qed.

(** The next id is free when ids do not repeat. *)
Lemma reachable_fresh start proc uuid w :
  (∀ i j, uuid i = uuid j → i = j) → reachable start proc uuid w →
  w_uuid w = uuid ∧ w_submissions w !! uuid (w_uuid_next w) = None.
Proof.
  intros Hinj Hr. split; [apply (reachable_evolves _ _ _ _ Hr)|].
  destruct (w_submissions w !! _) eqn:Hk; [|done].
  destruct (reachable_keys start proc uuid w (uuid (w_uuid_next w)) Hr) as (i & Hi & E); [by eexists|].
  apply Hinj in E. lia.
Qed.

(** The catalog handlers read nothing but the tables. *)
Lemma catalog_response_db rq w w' :
  is_catalog_request rq = true → w_db w' = w_db w → (handle rq w').1 = (handle rq w).1.
Proof.
  unfold is_catalog_request, Server.handle, serve. intros Hc Hdb.
  destruct (route _ _) as [[]|]; try discriminate; rewrite !st_bind_ret_fst;
    unfold handler_List, handler_GetProblem, handler_GetTopics; cbv beta zeta; rewrite Hdb; [|done..].
  by destruct (ListProblems _ _ _).
Qed.

(** What [POST /api/submit] does on a world whose next id is free. *)
Lemma submit_fresh w body req p :
  bind_RunRequest syntax_msg body = Ok req →
  FindByID (w_db w) (RR_ProblemID req) = Ok p →
  w_submissions w !! w_uuid w (w_uuid_next w) = None →
  ∃ sub,
    handle (submit_request body) w =
      (Some (respond StatusOK (submission_json (submit_response sub))),
       set_submissions (<[SID sub := toModelSubmission sub]> (w_submissions w))
         (set_exec (Execute (w_proc w) (w_executor w) (RR_Language req) (RR_Code req)
                      (TestCases p) (w_exec w)).2
            (set_uuid_next (S (w_uuid_next w)) w))) ∧
    SID sub = w_uuid w (w_uuid_next w) ∧ S_ProblemID sub = RR_ProblemID req ∧
    Results sub = (Execute (w_proc w) (w_executor w) (RR_Language req) (RR_Code req)
                     (TestCases p) (w_exec w)).1.
Proof.
  intros Hb Hp Hfree. unfold Server.handle, serve. cbn [rq_method rq_path rq_body submit_request].
  rewrite route_submit. cbv iota. unfold mbind at 1, ST_bind at 1, handler_Submit. rewrite Hb.
  rewrite (SubmitCode_judge_with (Σ := World)). unfold mbind at 1, ST_bind at 1.
  rewrite judge_with_World, Hp. cbv zeta. rewrite world_Execute_eq.
  cbn [world_set_clock set_uuid_next set_exec w_submissions w_exec w_proc w_executor].
  rewrite exec_eta, SID_judged, Hfree.
  eexists (SetResults (NewSubmission (w_uuid w (w_uuid_next w)) (RR_ProblemID req) (RR_Language req)
    (RR_Code req) (clock (w_exec w))).1 _).
  split; [reflexivity|]. done.
Qed.

(** [GET /api/submissions/:id] on a stored id. *)
Lemma get_submission_handle w id :
  is_segment id = true →
  handle (get_submission_request id) w =
    (Some (match w_submissions w !! id with
           | Some m => respond StatusOK (submission_json (toSubmissionResponse (toDomainSubmission m)))
           | None => respond StatusNotFound (error_json "Submission not found")
           end), w).
Proof.
  intros Hid. unfold Server.handle, serve. cbn [rq_method rq_path get_submission_request].
  rewrite route_get_submission by done. cbv iota. unfold mbind at 1, ST_bind at 1, handler_GetSubmission.
  cbn. unfold world_submission_FindByID, mbind, ST_bind, mret, ST_ret. by destruct (_ !! _).
Qed.

Lemma get_submission_stored w id m :
  is_segment id = true → w_submissions w !! id = Some m →
  handle (get_submission_request id) w =
    (Some (respond StatusOK (submission_json (toSubmissionResponse (toDomainSubmission m)))), w).
Proof. intros Hid Hm. by rewrite get_submission_handle, Hm. Qed.

Lemma engine_get_submission w id :
  is_segment id = true →
  engine (get_submission_request id) w =
    (to_answer [] (handle (get_submission_request id) w).1, (handle (get_submission_request id) w).2).
Proof.
  intros Hid. apply engine_plain; [done|]. cbn [rq_method rq_path get_submission_request].
  rewrite route_get_submission by done. by eexists.
Qed.

(** C7: The catalog is fixed for the life of the server: in every
    reachable state the tables are those [seedData] left, so listing,
    fetching a problem and listing topics answer exactly as they did
    when the server started. *)
Theorem catalog_constant start proc uuid w :
  reachable start proc uuid w →
  w_db w = seedData DefaultTopics SeedProblems start NewDB ∧
  ∀ rq, is_catalog_request rq = true →
    (engine rq w).1 = (engine rq (main_world start proc uuid)).1.
Proof.
  intros Hr. destruct (reachable_evolves _ _ _ _ Hr) as [Hdb _]. split; [done|].
  intros rq Hc. apply engine_fst. by apply catalog_response_db.
Qed.

(** C11: Along any run, a stored submission is never changed or
    removed, and [GET /api/submissions/:id] of a stored id keeps
    getting the same answer, whoever asks. *)
Theorem submissions_persist w w' id rq :
  rtc step w w' → is_segment id = true → is_Some (w_submissions w !! id) →
  rq_method rq = "GET" → rq_path rq = "/api/submissions/" +:+ id →
  w_submissions w ⊆ w_submissions w' ∧ (engine rq w').1 = (engine rq w).1.
Proof.
  intros Hs Hid [m Hm] Hmeth Hpath. destruct (steps_evolve _ _ Hs) as (_ & _ & _ & _ & Hsub & _).
  split; [done|]. apply engine_fst.
  assert (Hw : ∀ v, (handle rq v).1 = (handle (get_submission_request id) v).1).
  { intros v. unfold Server.handle, serve. rewrite Hmeth, Hpath.
    cbn [get_submission_request rq_method rq_path]. by rewrite route_get_submission. }
  rewrite !Hw, !(get_submission_stored _ id m); [done..|].
  by eapply lookup_weaken.
Qed.

(** C6: Progress of the judging flow.  In every reachable state, when
    ids do not repeat and are path segments, a [POST /api/submit]
    (without an [Origin]) whose body binds to a request for a problem
    of the catalog answers 200 with a submission that ran every test
    case of the problem under the next id; the state it leaves is
    reachable, and there a [GET /api/submissions/:id] of that id answers
    200 with the submission as the store keeps it. *)
Theorem submit_then_get start proc uuid w body req p :
  (∀ i j, uuid i = uuid j → i = j) → (∀ i, is_segment (uuid i) = true) →
  reachable start proc uuid w →
  bind_RunRequest syntax_msg body = Ok req →
  FindByID (seedData DefaultTopics SeedProblems start NewDB) (RR_ProblemID req) = Ok p →
  ∃ sub,
    (engine (submit_request body) w).1 =
      mkAnswer StatusOK [] (BJSON (submission_json (submit_response sub))) ∧
    SID sub = uuid (w_uuid_next w) ∧ S_ProblemID sub = RR_ProblemID req ∧
    TR_Input <$> Results sub = Input <$> TestCases p ∧
    reachable start proc uuid (engine (submit_request body) w).2 ∧
    (engine (get_submission_request (SID sub)) (engine (submit_request body) w).2).1 =
      mkAnswer StatusOK [] (BJSON (submission_json
        (toSubmissionResponse (toDomainSubmission (toModelSubmission sub))))).
Proof.
  intros Hinj Hseg Hr Hb Hp.
  destruct (reachable_fresh _ _ _ _ Hinj Hr) as [Hu Hfree].
  destruct (reachable_evolves _ _ _ _ Hr) as [Hdb _]. cbn [w_db Server.main_world] in Hdb.
  rewrite <- Hdb in Hp. rewrite <- Hu in Hfree.
  destruct (submit_fresh w body req p Hb Hp Hfree) as (sub & E & Hid & Hpid & Hres).
  assert (Es : engine (submit_request body) w =
                 (to_answer [] (handle (submit_request body) w).1, (handle (submit_request body) w).2))
    by (apply engine_plain; [done|by exists ESubmit]).
  exists sub. rewrite Es, E. rewrite Hu in Hid. split_and!; [done|done|done|by rewrite Hres; apply Execute_inputs| |].
  - eapply rtc_r; [exact Hr|]. rewrite <- E, <- Es. constructor.
  - rewrite engine_get_submission by (rewrite Hid; done).
    rewrite (get_submission_stored _ _ (toModelSubmission sub)); [done|by rewrite Hid|].
    cbn. by rewrite lookup_insert_eq.
Qed.

(** C12: Every problem of the seed is served: in every reachable state,
    [GET /api/problems/:slug] of a seed problem's slug answers 200 with
    the problem the catalog holds under that slug. *)
Theorem seed_problem_served start proc uuid w p :
  reachable start proc uuid w →
  Forall (λ q, ID q = 0%N) SeedProblems → p ∈ SeedProblems → is_segment (Slug p) = true →
  ∃ q, FindBySlug (w_db w) (Slug p) = Ok q ∧
    (engine (get_problem_request (Slug p)) w).1 =
      mkAnswer StatusOK [] (BJSON (problem_json fmt_float
        (toProblemResponse (set_TestCases q (VisibleTestCases q)) true))).
Proof.
  intros Hr Hz Hp Hs. destruct (reachable_evolves _ _ _ _ Hr) as [Hdb _]. cbn [w_db Server.main_world] in Hdb.
  destruct (seed_finds_every_problem start DefaultTopics SeedProblems p Hz Hp) as [q Hq].
  exists q. rewrite Hdb. split; [done|].
  rewrite engine_plain; [|done|cbn [rq_method rq_path get_problem_request];
    rewrite route_get_problem; [by eexists|done]].
  unfold Server.handle, serve. cbn [rq_method rq_path get_problem_request].
  rewrite route_get_problem by done. cbv iota. unfold mbind at 1, ST_bind at 1, handler_GetProblem.
  cbn. unfold GetProblem. by rewrite Hdb, Hq.
Qed.

(** C14: The CORS gate.  A request whose [Origin] is neither absent nor the
    server's own: from an origin not in [AllowOrigins] it is refused
    with 403 before any handler runs (unless a trailing-slash redirect
    answers first), so nothing is judged or stored; a preflight from an
    allowed origin is answered 204 by the middleware with the CORS
    headers; any other request from an allowed origin reaches its
    handler and carries the CORS headers. *)
Theorem cors_gate rq w :
  rq_origin rq ≠ EmptyString → rq_origin rq ≠ "http://" +:+ rq_host rq →
  rq_origin rq ≠ "https://" +:+ rq_host rq →
  ((rq_origin rq ∉ AllowOrigins →
    is_Some (route (rq_method rq) (rq_path rq)) ∨ tsr (rq_method rq) (rq_path rq) = false →
    engine rq w = (mkAnswer 403 [] BNone, w)) ∧
   (rq_origin rq ∈ AllowOrigins → rq_method rq = "OPTIONS" →
    engine rq w = (mkAnswer 204 (cors_headers (rq_origin rq)) BNone, w)) ∧
   (rq_origin rq ∈ AllowOrigins → rq_method rq ≠ "OPTIONS" →
    is_Some (route (rq_method rq) (rq_path rq)) →
    engine rq w = (to_answer (cors_headers (rq_origin rq)) (handle rq w).1, (handle rq w).2))).
Proof.
  intros H0 H1 H2. unfold Server.engine, Server.handle_chain, cors.
  rewrite (bool_decide_false (rq_origin rq = EmptyString)), bool_decide_false by naive_solver.
  split_and!.
  - intros Hn Hr. rewrite bool_decide_true by done.
    destruct Hr as [[e ->]| ->]; [done|]. by destruct (route (rq_method rq) (rq_path rq)).
  - intros Hin Hm. rewrite (bool_decide_false (rq_origin rq ∉ AllowOrigins)) by naive_solver.
    rewrite bool_decide_true by done.
    assert (Hr : ∀ path, route (rq_method rq) path = None).
    { intros path. unfold route. rewrite Hm. by repeat case_match. }
    unfold tsr. rewrite !Hr. by rewrite andb_false_r.
  - intros Hin Hm [e ->]. rewrite !bool_decide_false by naive_solver.
    unfold mbind, ST_bind, mret, ST_ret. by destruct (handle rq w).
Qed.


End Theory.

Lemma uuid_example_inj i j : uuid_example i = uuid_example j → i = j.
Proof.
  unfold uuid_example. intros E. apply (f_equal (λ s, length (list_ascii_of_string s))) in E.
  rewrite !list_ascii_of_string_of_list_ascii, !repeat_length in E. lia.
Qed.

Lemma uuid_example_segment i : is_segment (uuid_example i) = true.
Proof.
  unfold is_segment, uuid_example. rewrite list_ascii_of_string_of_list_ascii.
  apply andb_true_intro. split; [done|].
  induction (S i) as [|n IH]; [done|]. simpl. rewrite IH. reflexivity.
Qed.

Lemma after_submit_reachable :
  reachable (λ n, n) (λ _, EmptyString) syntax_error_text [topic_example] seed_example 7%Z
    proc_example uuid_example after_submit_example.
Proof. apply rtc_once. apply step_request. Qed.

(** ** Witnesses *)


Lemma catalog_constant_witness :
  w_db after_submit_example = seedData [topic_example] seed_example 7%Z NewDB.
Proof.
  exact (proj1 (catalog_constant (λ n, n) (λ _, EmptyString) syntax_error_text [topic_example]
                  seed_example 7%Z proc_example uuid_example _ after_submit_reachable)).
Defined.

Lemma submissions_persist_witness :
  let w' := (engine_example (submit_request body_example) after_submit_example).2 in
  is_segment "a" = true ∧ is_Some (w_submissions after_submit_example !! "a") ∧
  w_submissions after_submit_example ⊆ w_submissions w' ∧
  (engine_example (get_submission_request "a") w').1 =
    (engine_example (get_submission_request "a") after_submit_example).1.
Proof.
  assert (Hs : is_segment "a" = true) by reflexivity.
  assert (Hk : is_Some (w_submissions after_submit_example !! "a")) by (vm_compute; by eexists).
  pose proof (submissions_persist (λ n, n) (λ _, EmptyString) syntax_error_text _ _ "a"
                (get_submission_request "a")
                (rtc_once _ _ (step_request _ _ _ (submit_request body_example) after_submit_example)) Hs Hk
                eq_refl eq_refl) as H.
  split_and!; [exact Hs|exact Hk|exact (proj1 H)|exact (proj2 H)].
Defined.

Lemma submit_then_get_witness :
  bind_RunRequest syntax_error_text body_example = Ok request_example ∧
  ∃ p, FindByID (seedData [topic_example] seed_example 7%Z NewDB) (RR_ProblemID request_example) = Ok p ∧
  ∃ sub,
    (engine_example (submit_request body_example) server_example).1 =
      mkAnswer StatusOK [] (BJSON (submission_json (submit_response sub))) ∧
    SID sub = uuid_example 0 ∧ S_ProblemID sub = RR_ProblemID request_example ∧
    TR_Input <$> Results sub = Input <$> TestCases p ∧
    reachable (λ n, n) (λ _, EmptyString) syntax_error_text [topic_example] seed_example 7%Z
      proc_example uuid_example (engine_example (submit_request body_example) server_example).2 ∧
    (engine_example (get_submission_request (SID sub))
       (engine_example (submit_request body_example) server_example).2).1 =
      mkAnswer StatusOK [] (BJSON (submission_json
        (toSubmissionResponse (toDomainSubmission (toModelSubmission sub))))).
Proof.
  assert (Hb : bind_RunRequest syntax_error_text body_example = Ok request_example)
    by (vm_compute; reflexivity).
  split; [exact Hb|].
  destruct (FindByID (seedData [topic_example] seed_example 7%Z NewDB) (RR_ProblemID request_example))
    as [p|e] eqn:Hp; [|vm_compute in Hp; discriminate].
  exists p. split; [done|].
  exact (submit_then_get (λ n, n) (λ _, EmptyString) syntax_error_text [topic_example] seed_example
           7%Z proc_example uuid_example server_example body_example request_example p
           uuid_example_inj uuid_example_segment (rtc_refl _ _) Hb Hp).
Defined.

Lemma seed_problem_served_witness :
  Forall (λ q, ID q = 0%N) seed_example ∧ anagram_example ∈ seed_example ∧
  is_segment (Slug anagram_example) = true ∧
  ∃ q, FindBySlug (w_db after_submit_example) (Slug anagram_example) = Ok q ∧
    (engine_example (get_problem_request (Slug anagram_example)) after_submit_example).1 =
      mkAnswer StatusOK [] (BJSON (problem_json (λ _, EmptyString)
        (toProblemResponse (set_TestCases q (VisibleTestCases q)) true))).
Proof.
  assert (Hz : Forall (λ q, ID q = 0%N) seed_example) by repeat constructor.
  assert (Hin : anagram_example ∈ seed_example) by left.
  assert (Hs : is_segment (Slug anagram_example) = true) by reflexivity.
  split_and!; [exact Hz|exact Hin|exact Hs|].
  exact (seed_problem_served (λ n, n) (λ _, EmptyString) syntax_error_text [topic_example] seed_example
           7%Z proc_example uuid_example _ anagram_example after_submit_reachable Hz Hin Hs).
Defined.

Lemma cors_gate_witness :
  (rq_origin foreign_submit ∉ AllowOrigins) ∧
  engine_example foreign_submit after_submit_example = (mkAnswer 403 [] BNone, after_submit_example) ∧
  rq_origin preflight_submit ∈ AllowOrigins ∧
  engine_example preflight_submit after_submit_example =
    (mkAnswer 204 (cors_headers (rq_origin preflight_submit)) BNone, after_submit_example).
Proof.
  assert (Hf : rq_origin foreign_submit ∉ AllowOrigins) by (vm_compute; set_solver).
  assert (Hp : rq_origin preflight_submit ∈ AllowOrigins) by (vm_compute; set_solver).
  split_and!; [exact Hf| |exact Hp|].
  - exact (proj1 (cors_gate (λ n, n) (λ _, EmptyString) syntax_error_text foreign_submit
                    after_submit_example ltac:(discriminate) ltac:(discriminate) ltac:(discriminate))
             Hf (or_introl (ex_intro _ ESubmit eq_refl))).
  - exact (proj1 (proj2 (cors_gate (λ n, n) (λ _, EmptyString) syntax_error_text preflight_submit
                    after_submit_example ltac:(discriminate) ltac:(discriminate) ltac:(discriminate)))
             Hp eq_refl).
Defined.

End Server.
